(** * REGAL-IA: the compliance interview and risk-classification engine

    A shallow embedding of [src/document_processor.py] and
    [src/legal_advisor.py], and the properties of the corpus chunker, the
    embedding cache, retrieval, the prohibited-practice detectors and the
    interview state machine.

    Conventions.
    - A Python [str] is a [string]; one character is one code unit, which is
      exact for ASCII text.
    - A Python [float] is a binary64 [float]; the code only compares floats.
    - A [dict] whose order matters is an association list, a [set] is a
      [gset].
    - Methods that mutate the advisor or call a collaborator run in the
      monad [M] of module LegalAdvisor: a state, and a result or an
      exception. *)

From Stdlib Require Import String Ascii ZArith List Bool Lia DecimalString.
From Stdlib Require Import Floats.PrimFloat.
From stdpp Require Import base option list gmap strings sorting.

Set Warnings "-inexact-float,-register-all".
Open Scope string_scope.
Open Scope list_scope.

(** ** Python's string and list primitives *)

Module Py.

Definition is_upper (c : ascii) : bool :=
  let n := nat_of_ascii c in (65 <=? n)%nat && (n <=? 90)%nat.

Definition is_lower (c : ascii) : bool :=
  let n := nat_of_ascii c in (97 <=? n)%nat && (n <=? 122)%nat.

Definition lower_char (c : ascii) : ascii :=
  if is_upper c then ascii_of_nat (nat_of_ascii c + 32) else c.

Definition upper_char (c : ascii) : ascii :=
  if is_lower c then ascii_of_nat (nat_of_ascii c - 32) else c.

(** [s.lower()] *)
Fixpoint lower (s : string) : string :=
  match s with
  | EmptyString => EmptyString
  | String c r => String (lower_char c) (lower r)
  end.

(** [needle in hay] *)
Fixpoint contains (needle hay : string) : bool :=
  String.prefix needle hay ||
  match hay with
  | EmptyString => false
  | String _ r => contains needle r
  end.

(** [any(kw in text for kw in kws)] and [[kw for kw in kws if kw in text]] *)
Definition any_in (kws : list string) (text : string) : bool :=
  existsb (fun kw => contains kw text) kws.

Definition those_in (kws : list string) (text : string) : list string :=
  List.filter (fun kw => contains kw text) kws.

(** Whitespace of [str.split()] and [str.strip()]: tab to carriage return,
    the four separators 28..31, and the space. *)
Definition is_space (c : ascii) : bool :=
  let n := nat_of_ascii c in
  ((9 <=? n)%nat && (n <=? 13)%nat) || ((28 <=? n)%nat && (n <=? 32)%nat).

Definition snoc (s : string) (c : ascii) : string := s +:+ String c EmptyString.

Definition flush (cur : string) (rest : list string) : list string :=
  match cur with
  | EmptyString => rest
  | _ => cur :: rest
  end.

Fixpoint split_go (s cur : string) : list string :=
  match s with
  | EmptyString => flush cur []
  | String c r =>
      if is_space c then flush cur (split_go r EmptyString)
      else split_go r (snoc cur c)
  end.

(** [s.split()] *)
Definition split (s : string) : list string := split_go s EmptyString.

Fixpoint split_on_go (sep s cur : string) (skip : nat) : list string :=
  match s with
  | EmptyString => [cur]
  | String c r =>
      match skip with
      | S k => split_on_go sep r cur k
      | O =>
          if String.prefix sep s
          then cur :: split_on_go sep r EmptyString (String.length sep - 1)
          else split_on_go sep r (snoc cur c) 0
      end
  end.

(** [s.split(sep)] for a separator that is not empty *)
Definition split_on (sep s : string) : list string :=
  split_on_go sep s EmptyString 0.

Fixpoint lstrip (s : string) : string :=
  match s with
  | String c r => if is_space c then lstrip r else s
  | EmptyString => EmptyString
  end.

Fixpoint rstrip (s : string) : string :=
  match s with
  | EmptyString => EmptyString
  | String c r =>
      match rstrip r with
      | EmptyString => if is_space c then EmptyString else String c EmptyString
      | r' => String c r'
      end
  end.

(** [s.strip()] *)
Definition strip (s : string) : string := lstrip (rstrip s).

(** [sep.join(parts)] *)
Definition join (sep : string) (parts : list string) : string :=
  String.concat sep parts.

Fixpoint str_take (n : nat) (s : string) : string :=
  match n, s with
  | S k, String c r => String c (str_take k r)
  | _, _ => EmptyString
  end.

Fixpoint str_drop (n : nat) (s : string) : string :=
  match n, s with
  | S k, String _ r => str_drop k r
  | _, _ => s
  end.

(** [s[:n]] and [s[-n:]] for a literal [n > 0] *)
Definition str_first (n : nat) (s : string) : string := str_take n s.
Definition str_last (n : nat) (s : string) : string :=
  str_drop (String.length s - n) s.

(** [l[:k]] for any integer [k]: a negative [k] counts from the end. *)
Definition slice_to {A} (k : Z) (l : list A) : list A :=
  if (0 <=? k)%Z then take (Z.to_nat k) l
  else take (length l - Z.to_nat (- k)) l.

(** [l[-k:]] for any integer [k]: [l[-0:]] is the whole list and a
    negative [k] makes the start index positive. *)
Definition slice_last {A} (k : Z) (l : list A) : list A :=
  if (0 <? k)%Z then drop (length l - Z.to_nat k) l
  else drop (Z.to_nat (- k)) l.

(** [l[i:i+n]] for [i, n >= 0] *)
Definition slice {A} (i n : nat) (l : list A) : list A := take n (drop i l).

(** [range(0, stop, step)] for [step > 0] *)
Fixpoint range_go (fuel i stop step : nat) : list nat :=
  match fuel with
  | O => []
  | S f => if (i <? stop)%nat then i :: range_go f (i + step) stop step else []
  end.

Definition range (stop step : nat) : list nat := range_go stop 0 stop step.

(** [str(n)] for a natural number and for an integer *)
Definition str_nat (n : nat) : string := NilEmpty.string_of_uint (Nat.to_uint n).
Definition str_int (z : Z) : string := NilZero.string_of_int (Z.to_int z).

(** [s.replace(a, b)] for single characters *)
Fixpoint replace_char (a b : ascii) (s : string) : string :=
  match s with
  | EmptyString => EmptyString
  | String c r => String (if Ascii.eqb c a then b else c) (replace_char a b r)
  end.

Fixpoint title_go (s : string) (prev_cased : bool) : string :=
  match s with
  | EmptyString => EmptyString
  | String c r =>
      let cased := is_upper c || is_lower c in
      String (if prev_cased then lower_char c else upper_char c) (title_go r cased)
  end.

(** [s.title()] *)
Definition title (s : string) : string := title_go s false.

(** [enumerate(l)] *)
Definition enumerate {A} (l : list A) : list (nat * A) :=
  combine (seq 0 (length l)) l.

(** The double quote, for the templates that contain one. *)
Definition dq : string := String (ascii_of_nat 34) EmptyString.

End Py.

(** ** Values and collaborators *)

(** The exceptions that reach the advisor's callers. *)
Inductive exn :=
| ConnectionError   (* OllamaClient.chat: the service is unreachable *)
| TimeoutError      (* OllamaClient.chat: no reply within the time limit *)
| RequestError      (* OllamaClient.chat: any other failure, re-raised *)
| AttributeError    (* a method of [dict] or [str] on a value of another type *)
| TypeError.        (* [>=] between a float and a value that is not a number *)

Inductive outcome (A : Type) :=
| Return (a : A)
| Raise (e : exn).
Arguments Return {A} a.
Arguments Raise {A} e.

(** A value decoded by [json.loads]. An object lists its members in
    order, each key once. *)
Inductive json :=
| JNull
| JBool (b : bool)
| JInt (z : Z)
| JFloat (f : float)
| JStr (s : string)
| JArr (items : list json)
| JObj (members : list (string * json)).

(** An embedding vector. *)
Definition vec := list float.

(** One call of [OllamaClient.chat(messages, temperature, max_tokens)];
    a message is the pair of its role and its content. *)
Record chat_call := {
  messages : list (string * string);
  temperature : float;
  max_tokens : nat
}.

(** What the code takes from outside: libraries and services. [chat] may
    answer the same call differently each time, so it also reads the calls
    made before. *)
Record collaborators := {
  (** [hashlib.md5(text.encode()).hexdigest()] *)
  md5 : string -> string;
  (** [DocumentChunk._extract_articles]: the matches of its three regular
      expressions, as [list(set(...))] orders them *)
  extract_articles : string -> list string;
  (** [SentenceTransformer.encode] on one text; [None] when it raises *)
  encode : json -> option vec;
  (** [sklearn]'s [cosine_similarity] of two vectors; [None] when it raises
      (vectors of different dimensions, entries that are not finite). On
      a matrix it raises when it does so for one of the rows. *)
  cosine_similarity : vec -> vec -> option float;
  (** [numpy.argsort] *)
  argsort : list float -> list nat;
  (** [json.loads]; [None] for [JSONDecodeError] *)
  json_loads : string -> option json;
  (** [OllamaClient.chat], given the earlier calls, latest first *)
  chat : list chat_call -> chat_call -> outcome string;
  (** [LegalAdvisor._get_relevant_questions_context], which reads the
      audit-question table loaded from [Questions_Reference.json] *)
  questions_context : string -> string
}.

(** ** document_processor.py *)

Module DocumentProcessor.

Record DocumentChunk := {
  text : string;
  page_number : nat;
  chunk_index : nat;
  document_name : string;
  embedding : option vec;
  text_hash : string;
  extracted_articles : list string
}.

(** [DocumentChunk.__init__] *)
Definition new_chunk (C : collaborators) (t : string) (page idx : nat)
    (doc : string) : DocumentChunk :=
  {| text := t; page_number := page; chunk_index := idx; document_name := doc;
     embedding := None; text_hash := md5 C t;
     extracted_articles := extract_articles C t |}.

(** [DocumentProcessor.__init__]: [chunk_size] and [overlap], 800 and 150
    unless the caller says otherwise. *)
Record processor := { chunk_size : nat; overlap : nat }.

Definition default_processor : processor := {| chunk_size := 800; overlap := 150 |}.

(** [range(0, stop, chunk_size - overlap)]: a step of zero raises
    [ValueError], a negative one gives the empty range. *)
Definition stride_range (dp : processor) (stop : nat) : option (list nat) :=
  let step := (Z.of_nat (chunk_size dp) - Z.of_nat (overlap dp))%Z in
  if (step =? 0)%Z then None
  else if (step <? 0)%Z then Some []
  else Some (Py.range stop (Z.to_nat step)).

(** [chunks.append(DocumentChunk(t, page_num, len(chunks), "EU_AI_Act"))] *)
Definition append_chunk (C : collaborators) (page_num : nat) (t : string)
    (chunks : list DocumentChunk) : list DocumentChunk :=
  chunks ++ [new_chunk C t page_num (length chunks) "EU_AI_Act"].

(** The body of [for i in range(...)] for one window of a long paragraph. *)
Definition add_window (C : collaborators) (dp : processor) (page_num : nat)
    (words : list string) (chunks : list DocumentChunk) (i : nat)
    : list DocumentChunk :=
  let chunk_text := Py.join " " (Py.slice i (chunk_size dp) words) in
  if (100 <? String.length (Py.strip chunk_text))%nat
  then append_chunk C page_num chunk_text chunks
  else chunks.

(** The body of [for para in paragraphs]; [None] when [range] raises. *)
Definition add_paragraph (C : collaborators) (dp : processor) (page_num : nat)
    (para : string) (chunks : list DocumentChunk) : option (list DocumentChunk) :=
  if (chunk_size dp <? String.length para)%nat then
    let words := Py.split para in
    match stride_range dp (length words) with
    | None => None
    | Some starts => Some (fold_left (add_window C dp page_num words) starts chunks)
    end
  else Some (append_chunk C page_num para chunks).

(** The paragraphs of a page in turn; an exception leaves the loop with the
    chunks appended so far (the page's [except] logs it). *)
Fixpoint add_paragraphs (C : collaborators) (dp : processor) (page_num : nat)
    (paras : list string) (chunks : list DocumentChunk) : list DocumentChunk :=
  match paras with
  | [] => chunks
  | para :: rest =>
      match add_paragraph C dp page_num para chunks with
      | Some chunks' => add_paragraphs C dp page_num rest chunks'
      | None => chunks
      end
  end.

(** What [page.extract_text()] does for one page of the reader. *)
Inductive page :=
| PageText (t : string)
| PageNone
| PageFails.

(** [[p.strip() for p in text.split('\n\n') if len(p.strip()) > 50]] *)
Definition paragraphs_of (t : string) : list string :=
  map Py.strip
    (List.filter (fun p => (50 <? String.length (Py.strip p))%nat)
       (Py.split_on "

" t)).

(** The body of [for page_num, page in enumerate(reader.pages)]. *)
Definition add_page (C : collaborators) (dp : processor)
    (chunks : list DocumentChunk) (numbered : nat * page) : list DocumentChunk :=
  let (page_num, pg) := numbered in
  match pg with
  | PageText EmptyString | PageNone | PageFails => chunks
  | PageText t =>
      let t' := "[Page " +:+ Py.str_nat (page_num + 1) +:+ "] " +:+ t in
      add_paragraphs C dp page_num (paragraphs_of t') chunks
  end.

(** [DocumentProcessor.load_and_chunk_document]; [None] is a path where no
    file exists. *)
Definition load_and_chunk_document (C : collaborators) (dp : processor)
    (pdf : option (list page)) : list DocumentChunk :=
  match pdf with
  | None => []
  | Some pages => fold_left (add_page C dp) (Py.enumerate pages) []
  end.

(** *** EmbeddingService *)

(** The cache file: absent, not loadable as a dictionary, or a pickled
    dictionary with its ['hashes'] and ['embeddings'] entries if present. *)
Inductive cache_file :=
| NoFile
| Unreadable
| Pickled (hashes : option (list string)) (embeddings : option (list vec)).

Definition set_embedding (e : vec) (c : DocumentChunk) : DocumentChunk :=
  {| text := text c; page_number := page_number c; chunk_index := chunk_index c;
     document_name := document_name c; embedding := Some e;
     text_hash := text_hash c; extracted_articles := extracted_articles c |}.

(** [for i, chunk in enumerate(chunks): chunk.embedding = embs[i]]: the
    chunks as the loop leaves them, and whether it ran to its end (it stops
    with [IndexError] where [embs] is too short). *)
Fixpoint assign (chunks : list DocumentChunk) (embs : list vec)
    : list DocumentChunk * bool :=
  match chunks, embs with
  | [], _ => ([], true)
  | c :: cs, e :: es =>
      let (cs', done) := assign cs es in (set_embedding e c :: cs', done)
  | _ :: _, [] => (chunks, false)
  end.

(** [self.model.encode(texts, ...)]: every text, or the exception. *)
Definition encode_all (C : collaborators) (texts : list string) : option (list vec) :=
  mapM (fun t => encode C (JStr t)) texts.

Record embedded := {
  (** the chunks, as mutated in place *)
  chunks_after : list DocumentChunk;
  (** the cache file afterwards *)
  cache_after : cache_file;
  (** [self.model.encode] was called on the chunk texts *)
  recomputed : bool;
  (** the call returned the chunks; [false] when [encode] raised *)
  returned : bool
}.

(** [EmbeddingService.generate_embeddings]; [writable] tells whether the
    cache file can be written. *)
Definition generate_embeddings (C : collaborators) (chunks : list DocumentChunk)
    (cache : cache_file) (writable : bool) : embedded :=
  let from_cache :=
    match cache with
    | Pickled hashes embeddings =>
        if (length (default [] hashes) =? length chunks)%nat
        then assign chunks (default [] embeddings)
        else (chunks, false)
    | NoFile | Unreadable => (chunks, false)
    end in
  if from_cache.2 then
    {| chunks_after := from_cache.1; cache_after := cache;
       recomputed := false; returned := true |}
  else
    let chunks1 := from_cache.1 in
    match encode_all C (map text chunks1) with
    | None =>
        {| chunks_after := chunks1; cache_after := cache;
           recomputed := true; returned := false |}
    | Some embs =>
        let chunks2 := (assign chunks1 embs).1 in
        {| chunks_after := chunks2;
           cache_after :=
             if writable
             then Pickled (Some (map text_hash chunks2)) (Some embs)
             else cache;
           recomputed := true; returned := true |}
    end.

(** The loop of [find_relevant_chunks] over [top_idx], with its [break];
    [None] when an index is out of range ([IndexError]). *)
Fixpoint select (chunks_list : list DocumentChunk) (top_k : Z) (top_idx : list nat)
    (selected_chunks : list DocumentChunk) (selected_hashes : gset string)
    : option (list DocumentChunk) :=
  match top_idx with
  | [] => Some selected_chunks
  | i :: rest =>
      match chunks_list !! i with
      | None => None
      | Some chunk =>
          if decide (text_hash chunk ∈ selected_hashes)
          then select chunks_list top_k rest selected_chunks selected_hashes
          else
            let selected_chunks' := selected_chunks ++ [chunk] in
            if (top_k <=? Z.of_nat (length selected_chunks'))%Z
            then Some selected_chunks'
            else select chunks_list top_k rest selected_chunks'
                   ({[text_hash chunk]} ∪ selected_hashes)
      end
  end.

(** [[(c, c.embedding) for c in chunks if c.embedding is not None]] *)
Definition valid_pairs (chunks : list DocumentChunk) : list (DocumentChunk * vec) :=
  omap (fun c => match embedding c with
                 | Some e => Some (c, e)
                 | None => None
                 end) chunks.

(** The cosine similarity of a chunk to the query vector, where it
    exists, and the row [cosine_similarity([query_emb], embeddings)[0]]
    over the embedded chunks; [None] when the library raises. *)
Definition score (C : collaborators) (query_emb : vec) (c : DocumentChunk) : float :=
  match embedding c with
  | Some e => default 0%float (cosine_similarity C query_emb e)
  | None => 0%float
  end.

Definition similarities (C : collaborators) (query_emb : vec)
    (chunks : list DocumentChunk) : option (list float) :=
  mapM (fun ce => cosine_similarity C query_emb (snd ce)) (valid_pairs chunks).

(** [[chunks_list[i] for i in idx]], for the indices that are in range. *)
Definition at_indices (chunks_list : list DocumentChunk) (idx : list nat)
    : list DocumentChunk :=
  omap (fun i => chunks_list !! i) idx.

(** [EmbeddingService.find_relevant_chunks]: whatever raises inside its
    [try] (the model on the query, [cosine_similarity], an index out of
    range) gives [chunks[:top_k]]. *)
Definition find_relevant_chunks (C : collaborators) (query : string)
    (chunks : list DocumentChunk) (top_k : Z) : list DocumentChunk :=
  match encode C (JStr query) with
  | None => Py.slice_to top_k chunks
  | Some query_emb =>
      match valid_pairs chunks with
      | [] => Py.slice_to top_k chunks
      | valid =>
          let chunks_list := map fst valid in
          match mapM (fun ce => cosine_similarity C query_emb (snd ce)) valid with
          | None => Py.slice_to top_k chunks
          | Some similarities =>
              let top_idx := rev (Py.slice_last top_k (argsort C similarities)) in
              match select chunks_list top_k top_idx [] ∅ with
              | Some selected_chunks => selected_chunks
              | None => Py.slice_to top_k chunks
              end
          end
      end
  end.

(** [EmbeddingService.compute_similarity]: any exception gives [0.0]. *)
Definition compute_similarity (C : collaborators) (text1 text2 : json) : float :=
  match encode C text1, encode C text2 with
  | Some emb1, Some emb2 => default 0%float (cosine_similarity C emb1 emb2)
  | _, _ => 0%float
  end.

End DocumentProcessor.

(** ** legal_advisor.py *)

Module LegalAdvisor.
Import DocumentProcessor.

Definition MAX_QUESTIONS : nat := 15.
Definition MIN_QUESTIONS : nat := 3.
Definition CONFIDENCE_THRESHOLD : float := 0.75.
Definition DUPLICATE_SIMILARITY_THRESHOLD : float := 0.75.

(** One entry of [interview_history]: [{'question': ..., 'answer': ...}]. *)
Record qa := { question : string; answer : string }.

(** One value of [relevant_articles]. *)
Record article_info := { page : nat; excerpts : list string; full_text : string }.

(** The fields of a [LegalAdvisor] that its methods read and write.
    [asked_questions_texts] holds what [_generate_question] appends, the
    decoded [next_question] as it came. *)
Record advisor := {
  ai_act_chunks : list DocumentChunk;
  model_description : string;
  pending_description : string;
  interview_history : list qa;
  asked_questions_texts : list json;
  relevant_articles : list (string * article_info)
}.

Definition set_model_description (d : string) (a : advisor) : advisor :=
  {| ai_act_chunks := ai_act_chunks a; model_description := d;
     pending_description := pending_description a;
     interview_history := interview_history a;
     asked_questions_texts := asked_questions_texts a;
     relevant_articles := relevant_articles a |}.

Definition set_pending_description (d : string) (a : advisor) : advisor :=
  {| ai_act_chunks := ai_act_chunks a; model_description := model_description a;
     pending_description := d;
     interview_history := interview_history a;
     asked_questions_texts := asked_questions_texts a;
     relevant_articles := relevant_articles a |}.

(** [self.interview_history.append(entry)] *)
Definition append_history (entry : qa) (a : advisor) : advisor :=
  {| ai_act_chunks := ai_act_chunks a; model_description := model_description a;
     pending_description := pending_description a;
     interview_history := interview_history a ++ [entry];
     asked_questions_texts := asked_questions_texts a;
     relevant_articles := relevant_articles a |}.

(** [self.asked_questions_texts.append(q)] *)
Definition append_asked (q : json) (a : advisor) : advisor :=
  {| ai_act_chunks := ai_act_chunks a; model_description := model_description a;
     pending_description := pending_description a;
     interview_history := interview_history a;
     asked_questions_texts := asked_questions_texts a ++ [q];
     relevant_articles := relevant_articles a |}.

Definition set_relevant_articles (r : list (string * article_info)) (a : advisor)
    : advisor :=
  {| ai_act_chunks := ai_act_chunks a; model_description := model_description a;
     pending_description := pending_description a;
     interview_history := interview_history a;
     asked_questions_texts := asked_questions_texts a;
     relevant_articles := r |}.

(** What [datetime.now()] returns. *)
Record datetime := {
  year : nat; month : nat; day : nat; hour : nat; minute : nat; second : nat
}.

Fixpoint zeros (n : nat) : string :=
  match n with
  | O => EmptyString
  | S k => "0" +:+ zeros k
  end.

(** A number in at least [width] digits, as [%Y], [%m], [%d], [%H], [%M]
    and [%S] print it. *)
Definition padded (width n : nat) : string :=
  let s := Py.str_nat n in zeros (width - String.length s) +:+ s.

(** [d.strftime('%Y-%m-%d %H:%M:%S')] *)
Definition strftime (d : datetime) : string :=
  padded 4 (year d) +:+ "-" +:+ padded 2 (month d) +:+ "-" +:+ padded 2 (day d)
  +:+ " " +:+ padded 2 (hour d) +:+ ":" +:+ padded 2 (minute d) +:+ ":"
  +:+ padded 2 (second d).

(** The state a method runs in: the advisor, its identity [id(self)], the
    calls made to the text-completion service so far (latest first), and
    the clock. *)
Record machine := {
  self : advisor;
  self_id : Z;
  llm_log : list chat_call;
  now : datetime
}.

Definition with_self (a : advisor) (m : machine) : machine :=
  {| self := a; self_id := self_id m; llm_log := llm_log m; now := now m |}.

Definition with_log (l : list chat_call) (m : machine) : machine :=
  {| self := self m; self_id := self_id m; llm_log := l; now := now m |}.

(** A method: from a state to a result or an exception, and the state it
    leaves. What a method changed before it raised stays changed. *)
Definition M (A : Type) : Type := machine -> outcome A * machine.

Definition ret {A} (a : A) : M A := fun m => (Return a, m).

Definition raise {A} (e : exn) : M A := fun m => (Raise e, m).

Definition bind {A B} (c : M A) (k : A -> M B) : M B :=
  fun m =>
    match c m with
    | (Return a, m') => k a m'
    | (Raise e, m') => (Raise e, m')
    end.

Notation "'let*' x ':=' c 'in' k" := (bind c (fun x => k))
  (at level 10, x name, c at level 100, k at level 200).

(** [try: c  except Exception: h] *)
Definition catch {A} (c : M A) (h : M A) : M A :=
  fun m =>
    match c m with
    | (Return a, m') => (Return a, m')
    | (Raise _, m') => h m'
    end.

Definition lift {A} (o : outcome A) : M A := fun m => (o, m).

Definition get_self : M advisor := fun m => (Return (self m), m).

Definition update_self (f : advisor -> advisor) : M unit :=
  fun m => (Return tt, with_self (f (self m)) m).

(** [self.llm.chat(...)] *)
Definition llm_chat (C : collaborators) (call : chat_call) : M string :=
  fun m => (chat C (llm_log m) call, with_log (call :: llm_log m) m).

(** *** Decoded values *)

Fixpoint assoc (key : string) (members : list (string * json)) : option json :=
  match members with
  | [] => None
  | (k, v) :: rest => if String.eqb k key then Some v else assoc key rest
  end.

(** [d.get(key, default)]: only a [dict] has the method. *)
Definition dict_get (d : json) (key : string) (default : json) : outcome json :=
  match d with
  | JObj members => Return (from_option id default (assoc key members))
  | _ => Raise AttributeError
  end.

(** The truth value of a decoded value, as [if v:] and [not v] read it. *)
Definition truthy (v : json) : bool :=
  match v with
  | JNull => false
  | JBool b => b
  | JInt z => negb (z =? 0)%Z
  | JFloat f => negb (PrimFloat.eqb f 0)
  | JStr EmptyString => false
  | JStr _ => true
  | JArr [] => false
  | JArr _ => true
  | JObj [] => false
  | JObj _ => true
  end.

(** [v is None] *)
Definition is_none (v : json) : bool :=
  match v with
  | JNull => true
  | _ => false
  end.

(** [v == s] for a string [s] *)
Definition eq_str (v : json) (s : string) : bool :=
  match v with
  | JStr t => String.eqb t s
  | _ => false
  end.

(** [v >= CONFIDENCE_THRESHOLD]: an integer is at least 0.75 exactly when it
    is at least 1, [True] counts as 1 and [False] as 0; a value that is not
    a number raises. *)
Definition ge_threshold (v : json) : outcome bool :=
  match v with
  | JFloat f => Return (PrimFloat.leb CONFIDENCE_THRESHOLD f)
  | JInt z => Return (1 <=? z)%Z
  | JBool b => Return b
  | _ => Raise TypeError
  end.

(** [v.strip()]: only a [str] has the method. *)
Definition strip_value (v : json) : outcome string :=
  match v with
  | JStr s => Return (Py.strip s)
  | _ => Raise AttributeError
  end.

(** *** Question generation *)

(** [LegalAdvisor._is_duplicate_question] *)
Definition is_duplicate_question (C : collaborators) (a : advisor)
    (new_question : json) : bool :=
  match asked_questions_texts a with
  | [] => false
  | asked =>
      existsb
        (fun asked_q =>
           PrimFloat.ltb DUPLICATE_SIMILARITY_THRESHOLD
             (compute_similarity C new_question asked_q))
        (Py.slice_last 3 asked)
  end.

(** [LegalAdvisor._get_system_prompt_for_questions] *)
Definition system_prompt_for_questions : string :=
  "You are an EU AI Act compliance analyst conducting a structured interview.

RISK CLASSIFICATION FRAMEWORK:
1. PROHIBITED (Article 5): Social scoring, subliminal manipulation, real-time biometric surveillance
2. HIGH-RISK (Annex III): Biometrics, critical infrastructure, employment, education, law enforcement
3. LIMITED RISK (Article 52): Chatbots, deepfakes, emotion recognition - transparency required
4. MINIMAL RISK: General purpose AI with no special obligations

YOUR TASK:
- Ask ONE specific technical question to determine risk classification
- Focus on: purpose, data types, decision impact, human oversight, deployment context
- Avoid generic or repetitive questions
- After MIN_QUESTIONS, evaluate if you can confidently classify the system

RESPONSE FORMAT (JSON only):
{
  " +:+ Py.dq +:+ "assessment_status" +:+ Py.dq +:+ ": " +:+ Py.dq +:+ "need_more_info" +:+ Py.dq +:+ " or " +:+ Py.dq +:+ "ready_to_conclude" +:+ Py.dq +:+ ",
  " +:+ Py.dq +:+ "confidence" +:+ Py.dq +:+ ": 0.0-1.0,
  " +:+ Py.dq +:+ "risk_hypothesis" +:+ Py.dq +:+ ": " +:+ Py.dq +:+ "prohibited/high-risk/limited-risk/minimal-risk" +:+ Py.dq +:+ ",
  " +:+ Py.dq +:+ "reasoning" +:+ Py.dq +:+ ": " +:+ Py.dq +:+ "brief explanation of current assessment" +:+ Py.dq +:+ ",
  " +:+ Py.dq +:+ "missing_info" +:+ Py.dq +:+ ": [" +:+ Py.dq +:+ "specific gap 1" +:+ Py.dq +:+ ", " +:+ Py.dq +:+ "specific gap 2" +:+ Py.dq +:+ "],
  " +:+ Py.dq +:+ "next_question" +:+ Py.dq +:+ ": " +:+ Py.dq +:+ "your next question" +:+ Py.dq +:+ " or null
}".

(** [LegalAdvisor._get_system_prompt_for_final_report] *)
Definition system_prompt_for_final_report : string :=
  "You are an EU AI Act compliance expert generating the FINAL ASSESSMENT REPORT.

CITATION RULES:
1. Article 5 (Prohibited) - ONLY cite if system explicitly matches prohibited practices
2. Annex III (High-Risk) - ONLY cite if system is used in specific high-risk contexts
3. Article 52 (Transparency) - Cite for systems interacting with humans

REPORT STRUCTURE:

# EU AI ACT COMPLIANCE ASSESSMENT

## 1. RISK CLASSIFICATION
**Risk Level:** [PROHIBITED / HIGH-RISK / LIMITED RISK / MINIMAL RISK]
**Confidence:** [Low/Medium/High]
**Rationale:** Why this classification was chosen

## 2. IDENTIFIED VIOLATIONS & CONCERNS
List violations with Article references and evidence

## 3. APPLICABLE ARTICLES
For each article: requirement, current status, gap analysis

## 4. PENALTIES (Article 99)
- Prohibited AI: â‚¬35M or 7% turnover
- High-risk violations: â‚¬15M or 3% turnover
- Other violations: â‚¬7.5M or 1.5% turnover

## 5. COMPLIANCE ROADMAP
Prioritized actions with timeline

## 6. TECHNICAL RECOMMENDATIONS
Specific measures to address gaps

QUALITY STANDARDS:
âœ“ Cite ONLY articles with clear evidence
âœ“ Include page numbers for citations
âœ“ Distinguish violations from concerns
âœ“ Base conclusions on interview data".

Definition fallbacks : list string :=
  [ "What specific types of personal data does your AI system process?";
    "Describe the decision-making process: fully automated or human-reviewed?";
    "What are the consequences if your system makes an incorrect decision?";
    "In which EU member states will this system be deployed?";
    "What measures ensure accuracy and prevent bias?";
    "How are users notified they're interacting with an AI system?";
    "What documentation exists for training data and methodology?";
    "Describe your system's impact on fundamental rights." ].

(** The first of [questions] that is not a duplicate. *)
Fixpoint first_fresh (C : collaborators) (a : advisor) (questions : list string)
    : option string :=
  match questions with
  | [] => None
  | q :: rest =>
      if is_duplicate_question C a (JStr q) then first_fresh C a rest else Some q
  end.

(** [LegalAdvisor._generate_fallback_question] *)
Definition generate_fallback_question (C : collaborators) : M (option string) :=
  let* a := get_self in
  match first_fresh C a fallbacks with
  | Some q => let* _ := update_self (append_asked (JStr q)) in ret (Some q)
  | None => ret None
  end.

(** The reply without its code fence:
    [response.split(fence)[1].split("```")[0]]. *)
Definition inside_fence (fence response : string) : string :=
  nth 0 (Py.split_on "```" (nth 1 (Py.split_on fence response) EmptyString))
    EmptyString.

Definition unfence (response : string) : string :=
  if Py.contains "```json" response then inside_fence "```json" response
  else if Py.contains "```" response then inside_fence "```" response
  else response.

(** The user message of [_generate_question]. *)
Definition question_prompt (C : collaborators) (a : advisor) : string :=
  let all_content :=
    model_description a +:+ " " +:+ Py.join " " (map answer (interview_history a)) in
  let reference_questions := questions_context C all_content in
  let relevant_chunks :=
    find_relevant_chunks C (Py.str_last 500 all_content) (ai_act_chunks a) 5 in
  let context :=
    Py.join "

"
      (map (fun c => "[Article " +:+ Py.join ", " (extracted_articles c) +:+ "] "
                     +:+ Py.str_first 300 (text c) +:+ "...")
         (List.filter (fun c => match extracted_articles c with
                                | [] => false
                                | _ => true
                                end) relevant_chunks)) in
  let history_str :=
    Py.join "
"
      (map (fun iq => "Q" +:+ Py.str_nat (fst iq + 1) +:+ ": "
                      +:+ Py.str_first 80 (question (snd iq)) +:+ "... â†’ A: "
                      +:+ Py.str_first 100 (answer (snd iq)) +:+ "...")
         (Py.enumerate (Py.slice_last 3 (interview_history a)))) in
  "SYSTEM DESCRIPTION:
" +:+ Py.str_first 500 (model_description a) +:+ "

INTERVIEW HISTORY (" +:+ Py.str_nat (length (interview_history a)) +:+ " questions):
" +:+ history_str +:+ "

RELEVANT EU AI ACT CONTEXT:
" +:+ Py.str_first 1000 context +:+ "

REFERENCE AUDIT QUESTIONS:
" +:+ Py.str_first 800 reference_questions +:+ "

Generate your assessment and next question (or conclude if ready).
Questions asked: " +:+ Py.str_nat (length (interview_history a)) +:+ "/"
  +:+ Py.str_nat MAX_QUESTIONS.

(** The assessment that replaces a repeated question. *)
Definition forced_conclusion (risk_hypothesis : json) : json :=
  JObj [ ("assessment_status", JStr "ready_to_conclude");
         ("confidence", JFloat 0.9);
         ("risk_hypothesis", risk_hypothesis);
         ("reasoning", JStr "Sufficient information gathered");
         ("next_question", JNull) ].

(** [messages], with the temperature and the token limit of the call. *)
Definition question_request (C : collaborators) (a : advisor) : chat_call :=
  {| messages := [ ("system", system_prompt_for_questions);
                   ("user", question_prompt C a) ];
     temperature := 0.3; max_tokens := 1000 |}.

(** [LegalAdvisor._generate_question] *)
Definition generate_question (C : collaborators) : M json :=
  let* a := get_self in
  let* response := llm_chat C (question_request C a) in
  match json_loads C (Py.strip (unfence response)) with
  | Some data =>
      let* next_question := lift (dict_get data "next_question" JNull) in
      if truthy next_question then
        if is_duplicate_question C a next_question then
          let* risk_hypothesis :=
            lift (dict_get data "risk_hypothesis" (JStr "assessment_needed")) in
          ret (forced_conclusion risk_hypothesis)
        else
          let* _ := update_self (append_asked next_question) in
          ret data
      else ret data
  | None =>
      let* fallback_q := generate_fallback_question C in
      match fallback_q with
      | Some q =>
          ret (JObj [ ("assessment_status", JStr "need_more_info");
                      ("confidence", JFloat 0.5);
                      ("next_question", JStr q) ])
      | None =>
          ret (JObj [ ("assessment_status", JStr "ready_to_conclude");
                      ("confidence", JFloat 0.7);
                      ("next_question", JNull) ])
      end
  end.

(** [LegalAdvisor._should_conclude] *)
Definition should_conclude (a : advisor) (assessment : json) : outcome bool :=
  if (length (interview_history a) <? MIN_QUESTIONS)%nat then Return false
  else if (MAX_QUESTIONS <=? length (interview_history a))%nat then Return true
  else
    match dict_get assessment "next_question" JNull with
    | Raise e => Raise e
    | Return next_question =>
        if is_none next_question then Return true
        else
          match dict_get assessment "assessment_status" JNull with
          | Raise e => Raise e
          | Return status =>
              if eq_str status "ready_to_conclude" then
                match dict_get assessment "confidence" (JInt 0) with
                | Raise e => Raise e
                | Return confidence =>
                    match ge_threshold confidence with
                    | Raise e => Raise e
                    | Return true => Return true
                    | Return false => Return false
                    end
                end
              else Return false
          end
    end.

(** *** The final report *)

(** [LegalAdvisor._extract_articles_with_context]: the dictionary in the
    order its keys were first inserted. *)
Definition extract_articles_with_context (chunks : list DocumentChunk)
    : list (string * article_info) :=
  fold_left
    (fun articles_info chunk =>
       fold_left
         (fun articles_info article =>
            if existsb (String.eqb article) (map fst articles_info)
            then articles_info
            else articles_info ++
                 [(article, {| page := page_number chunk + 1; excerpts := [];
                               full_text := Py.str_first 500 (text chunk) |})])
         (extracted_articles chunk) articles_info)
    chunks [].

Definition key_le (p q : string * article_info) : Prop :=
  String.leb (fst p) (fst q) = true.

#[global] Instance key_le_dec p q : Decision (key_le p q).
Proof. unfold key_le. apply _. Defined.

(** [sorted(articles_info.items())]: the keys differ, so the order is the
    keys' order. *)
Definition sorted_items (articles_info : list (string * article_info))
    : list (string * article_info) :=
  merge_sort key_le articles_info.

(** [LegalAdvisor._generate_emergency_report] *)
Definition generate_emergency_report (a : advisor)
    (articles_info : list (string * article_info)) : string :=
  "# EU AI ACT PRELIMINARY ASSESSMENT

âš ï¸ **AUTOMATED ASSESSMENT - LEGAL REVIEW REQUIRED**

## SYSTEM DESCRIPTION
"
  +:+ Py.str_first 500 (model_description a) +:+ "

## INTERVIEW SUMMARY
Total questions: " +:+ Py.str_nat (length (interview_history a)) +:+ "

## POTENTIALLY RELEVANT ARTICLES
" +:+ Py.join "
"
        (map (fun ai => "- Article " +:+ fst ai +:+ " (Page "
                        +:+ Py.str_nat (page (snd ai)) +:+ ")")
           (take 15 (sorted_items articles_info))) +:+ "

## RECOMMENDED ACTIONS
1. Consult EU AI Act legal specialist
2. Determine definitive risk classification
3. Begin conformity assessment if high-risk

**DISCLAIMER:** NOT a legal opinion. Professional counsel required.".

(** The interview as the report request quotes it: [history_str]. *)
Definition report_history (history : list qa) : string :=
  Py.join "
"
    (map (fun iq => "Q" +:+ Py.str_nat (fst iq + 1) +:+ ": " +:+ question (snd iq)
                    +:+ "
A" +:+ Py.str_nat (fst iq + 1) +:+ ": " +:+ answer (snd iq))
       (Py.enumerate history)).

(** The user message of [_generate_final_analysis]. *)
Definition report_prompt (a : advisor)
    (articles_info : list (string * article_info)) : string :=
  let article_context :=
    Py.join "
"
      (map (fun ai => "
**Article " +:+ fst ai +:+ "** (Page " +:+ Py.str_nat (page (snd ai)) +:+ "):
" +:+ Py.str_first 400 (full_text (snd ai)) +:+ "...")
         (take 20 (sorted_items articles_info))) in
  "GENERATE COMPREHENSIVE EU AI ACT COMPLIANCE REPORT

SYSTEM ASSESSED:
" +:+ model_description a +:+ "

INTERVIEW DATA (" +:+ Py.str_nat (length (interview_history a)) +:+ " questions):
" +:+ report_history (interview_history a) +:+ "

RELEVANT EU AI ACT ARTICLES:
" +:+ Py.str_first 3000 article_context +:+ "

Generate complete compliance report with risk level, violations, and recommendations.".

(** [messages], with the temperature and the token limit of the call. *)
Definition report_request (a : advisor)
    (articles_info : list (string * article_info)) : chat_call :=
  {| messages := [ ("system", system_prompt_for_final_report);
                   ("user", report_prompt a articles_info) ];
     temperature := 0.2; max_tokens := 4000 |}.

(** [LegalAdvisor._generate_final_analysis] *)
Definition generate_final_analysis (C : collaborators) : M string :=
  let* a := get_self in
  let all_content :=
    model_description a +:+ " " +:+
    Py.join " " (map (fun e => question e +:+ " " +:+ answer e) (interview_history a)) in
  let relevant_chunks := find_relevant_chunks C all_content (ai_act_chunks a) 15 in
  let articles_info := extract_articles_with_context relevant_chunks in
  let* _ := update_self (set_relevant_articles articles_info) in
  let* a' := get_self in
  catch
    (llm_chat C (report_request a' articles_info))
    (ret (generate_emergency_report a' articles_info)).

(** *** The interview *)

(** [LegalAdvisor.ask_next_question] *)
Definition ask_next_question (C : collaborators) : M (string * bool) :=
  let* assessment := generate_question C in
  let* a := get_self in
  let* conclude := lift (should_conclude a assessment) in
  if conclude then
    let* report := generate_final_analysis C in ret (report, true)
  else
    let* next_q := lift (dict_get assessment "next_question" JNull) in
    if negb (truthy next_q) then
      let* report := generate_final_analysis C in ret (report, true)
    else
      let* q := lift (strip_value next_q) in ret (q, false).

(** [LegalAdvisor.process_answer]: [len(answer.split()) < 3] is the short
    answer. *)
Definition process_answer (C : collaborators) (answer question : string)
    : M (string * bool) :=
  let* a := get_self in
  if (length (Py.split answer) <? 3)%nat
     && (MIN_QUESTIONS <=? length (interview_history a))%nat
  then let* report := generate_final_analysis C in ret (report, true)
  else
    let* _ := update_self
                (append_history {| question := question; answer := answer |}) in
    ask_next_question C.

(** [LegalAdvisor.reset] *)
Definition reset : M unit :=
  update_self (fun a =>
    {| ai_act_chunks := ai_act_chunks a; model_description := EmptyString;
       pending_description := EmptyString; interview_history := [];
       asked_questions_texts := []; relevant_articles := [] |}).

(** *** The prohibited-system report *)

(** The template of [generate_prohibited_final_report], up to the description. *)
Definition prohibited_report_0 : string :=
  "# EU AI ACT COMPLIANCE ASSESSMENT - PROHIBITED SYSTEM

â›” **FINAL DETERMINATION: PROHIBITED AI SYSTEM**

## SYSTEM ASSESSED
".

(** The template of [generate_prohibited_final_report], from the description to the time of the assessment. *)
Definition prohibited_report_2 : string :=
  "

## RISK CLASSIFICATION
**Risk Level:** PROHIBITED
**Confidence:** High
**Legal Basis:** Article 5 - Prohibited Artificial Intelligence Practices

## VIOLATION SUMMARY

Based on the system description, this AI system falls under **Article 5(1)(d)** of the EU AI Act, which explicitly prohibits:

> " +:+ Py.dq +:+ "The use of 'real-time' remote biometric identification systems in publicly accessible spaces for the purpose of law enforcement, unless certain limited exceptions apply" +:+ Py.dq +:+ "

### Evidence of Prohibited Practice

This system exhibits the following prohibited characteristics:

1. **Real-time operation**: The system operates continuously and performs identification in real-time
2. **Biometric identification**: Uses facial recognition technology to identify individuals
3. **Publicly accessible spaces**: Deployed in streets, transport hubs, shopping centers, and other public areas
4. **Automated decision-making**: Makes identification decisions without human validation

**This combination is explicitly prohibited under EU law.**

## LEGAL CONSEQUENCES

### Penalties (Article 99)
- **Maximum fine**: â‚¬35,000,000 OR 7% of total worldwide annual turnover (whichever is higher)
- **Additional sanctions**:
  - Immediate system shutdown order
  - Market ban in the EU
  - Criminal liability (Member State dependent)
  - Civil liability for damages to affected individuals

### Regulatory Actions
- Mandatory notification to national market surveillance authorities
- Data Protection Authority notification (GDPR breach)
- Potential investigation and enforcement proceedings

## IMMEDIATE ACTIONS REQUIRED

### 1. HALT ALL OPERATIONS âš ï¸
- Immediately cease all deployment and use of this system
- Do NOT collect any further biometric data
- Preserve all system logs and documentation for regulatory review

### 2. LEGAL CONSULTATION ðŸ“‹
- Engage qualified EU AI Act legal counsel immediately
- Consult GDPR/data protection specialists
- Prepare for potential regulatory inquiries

### 3. DATA HANDLING ðŸ—‘ï¸
- Assess lawfulness of any data already collected
- Implement data deletion procedures for unlawfully obtained biometric data
- Document all data handling and deletion activities

### 4. NOTIFICATION OBLIGATIONS ðŸ“¢
If the system has been deployed:
- Notify affected individuals (GDPR Article 34)
- Report to Data Protection Authority within 72 hours (GDPR Article 33)
- Inform national AI market surveillance authority

## COMPLIANCE PATH ASSESSMENT

### Can This System Be Made Compliant?

**NO.** The core functionality of this system is fundamentally prohibited by Article 5(1)(d).

Unlike high-risk AI systems that can achieve compliance through documentation, testing, and oversight measures, **prohibited AI systems cannot be made compliant** through procedural improvements.

The only potential exceptions are:
- Law enforcement use with **judicial authorization** for specific serious crimes (Article 5(1)(d) exceptions)
- These exceptions have **extremely narrow conditions** and require Member State legislation

**For private security or commercial use: NO COMPLIANCE PATH EXISTS.**

## APPLICABLE EU AI ACT ARTICLES

### Article 5 - Prohibited Artificial Intelligence Practices
**Pages**: Throughout Title II of the AI Act
**Status**: VIOLATED
**Gap**: System performs real-time remote biometric identification in public spaces

### Article 99 - Penalties
**Pages**: Near end of the AI Act
**Requirement**: Member States shall establish penalties for violations
**Your exposure**: Maximum tier penalty (â‚¬35M or 7% turnover)

### GDPR Implications
This system also likely violates:
- **Article 5(1)(a)**: Unlawful processing (no legal basis)
- **Article 9**: Processing of special category data (biometric data)
- **Article 6**: Lack of lawful basis for processing
- **Article 35**: Required but likely missing DPIA

## DISCLAIMER

âš ï¸ **This is an automated preliminary assessment, NOT a legal opinion.**

However, the indicators detected are sufficiently clear that you should:
1. Treat this as a legal emergency
2. Seek immediate professional legal counsel
3. Halt all operations pending legal review
4. Preserve all documentation

The determination that this system is prohibited is based on established legal interpretation of Article 5(1)(d) and is consistent with guidance from the European Commission and national regulators.

---

**Assessment completed**: ".

(** The template of [generate_prohibited_final_report], between the time and the session identifier. *)
Definition prohibited_report_4 : string :=
  "
**Session ID**: ".

(** The template of [generate_prohibited_final_report], after the session identifier. *)
Definition prohibited_report_6 : string :=
  "

---

## NEXT STEPS

Type 'reset' to start a new assessment with a different system.

**DO NOT proceed with deployment or operation of this system.**
".

(** [LegalAdvisor.generate_prohibited_final_report];
    [self.pending_description or self.model_description] is the first of
    the two that is not empty. *)
Definition generate_prohibited_final_report : M string :=
  fun m =>
    let description :=
      match pending_description (self m) with
      | EmptyString => model_description (self m)
      | d => d
      end in
    (Return (prohibited_report_0 +:+ Py.str_first 1000 description
             +:+ prohibited_report_2 +:+ strftime (now m)
             +:+ prohibited_report_4 +:+ Py.str_int (self_id m)
             +:+ prohibited_report_6),
     m).

(** *** The prohibited-practice detectors *)

(** One entry of [prohibited_detections]; [matches] is absent from four of
    the six. *)
Record detection := {
  dtype : string;
  article : string;
  severity : string;
  evidence : string;
  criteria : string;
  matches : option (list (string * list string))
}.

Definition realtime_surveillance_patterns : list string :=
  [ "real-time identification"; "real time identification";
    "real-time recognition"; "real time recognition";
    "real-time biometric"; "real time biometric";
    "live identification"; "live recognition"; "live biometric";
    "continuous surveillance"; "continuous identification";
    "continuous tracking"; "continuous biometric";
    "ongoing surveillance"; "ongoing identification" ].

Definition simple_realtime : list string := [ "real-time"; "real time"; "live" ].

Definition biometric_indicators : list string :=
  [ "facial recognition"; "face recognition"; "biometric identification";
    "biometric"; "face id"; "facial id" ].

Definition public_indicators : list string :=
  [ "public space"; "publicly accessible"; "public area"; "street";
    "transport hub"; "shopping center"; "urban space"; "crowd";
    "publicly accessible urban" ].

Definition monitoring_keywords : list string :=
  [ "continuous monitoring"; "dashboard"; "audit"; "metric";
    "weekly"; "quarterly"; "logging"; "performance monitoring";
    "drift detection"; "accuracy monitoring" ].

Definition surveillance_context : list string :=
  [ "surveillance"; "tracking"; "identification"; "general public" ].

Definition sensitive_attrs : list string :=
  [ "race"; "ethnicity"; "ethnic"; "political opinion"; "religious belief";
    "sexual orientation"; "philosophical belief" ].

Definition biometric_inference : list string :=
  [ "infer"; "deduce"; "predict"; "categorize"; "categorise"; "classify" ].

Definition exclusion_contexts : list string :=
  [ "balanced across"; "balance across"; "balanced for";
    "no demographic classification"; "excluded scope";
    "does not infer"; "does not classify"; "does not categorize";
    "no inference"; "no classification"; "no categorization";
    "prevent bias"; "avoid bias"; "mitigate bias";
    "diversity in training"; "representative dataset" ].

Definition social_scoring : list string :=
  [ "social scoring"; "social credit"; "trustworthiness score";
    "citizen score"; "social ranking"; "reputation score" ].

Definition authority_indicators : list string :=
  [ "government"; "public authority"; "state"; "municipality"; "agency" ].

Definition manipulation : list string :=
  [ "subliminal"; "subconscious"; "manipulate behavior"; "manipulative technique";
    "exploit psychological" ].

Definition vulnerability_exploit : list string :=
  [ "exploit vulnerability"; "exploit disabilities"; "exploit age";
    "target vulnerable"; "exploit economic situation" ].

Definition predictive : list string :=
  [ "predictive policing"; "crime prediction"; "risk assessment";
    "recidivism prediction" ].

Definition profiling : list string :=
  [ "profiling"; "personality trait"; "behavioral pattern";
    "individual characteristic" ].

(** [has_realtime] once the monitoring exception has been applied. *)
Definition has_realtime (desc_lower : string) : bool :=
  let has_realtime := Py.any_in realtime_surveillance_patterns desc_lower in
  let has_realtime :=
    if negb has_realtime then Py.any_in simple_realtime desc_lower
    else has_realtime in
  if has_realtime && Py.contains "continuous" desc_lower then
    let is_technical_monitoring := Py.any_in monitoring_keywords desc_lower in
    let has_surveillance_context := Py.any_in surveillance_context desc_lower in
    if is_technical_monitoring && negb has_surveillance_context then false
    else has_realtime
  else has_realtime.

Definition has_biometric (desc_lower : string) : bool :=
  Py.any_in biometric_indicators desc_lower.

Definition has_public (desc_lower : string) : bool :=
  Py.any_in public_indicators desc_lower.

(** Article 5(1)(d) *)
Definition detect_realtime_biometric (desc_lower : string) : list detection :=
  if has_realtime desc_lower && has_biometric desc_lower && has_public desc_lower
  then
    [ {| dtype := "Real-Time Remote Biometric Identification in Public Spaces";
         article := "Article 5(1)(d)";
         severity := "CRITICAL";
         evidence := "System uses real-time facial recognition in publicly accessible spaces";
         criteria := "Prohibited for ALL entities (limited exceptions only for law enforcement with judicial authorization)";
         matches := Some
           [ ("real-time",
              Py.those_in (realtime_surveillance_patterns ++ simple_realtime) desc_lower);
             ("biometric", Py.those_in biometric_indicators desc_lower);
             ("public", Py.those_in public_indicators desc_lower) ] |} ]
  else [].

(** Article 5(1)(e) *)
Definition detect_sensitive_categorization (desc_lower : string) : list detection :=
  let has_sensitive := Py.any_in sensitive_attrs desc_lower in
  let has_inference := Py.any_in biometric_inference desc_lower in
  let is_compliance_context := Py.any_in exclusion_contexts desc_lower in
  if has_biometric desc_lower && has_sensitive
     && (has_inference || Py.contains "attribute" desc_lower)
     && negb is_compliance_context
  then
    let detected_attrs := Py.those_in sensitive_attrs desc_lower in
    [ {| dtype := "Biometric Categorization Based on Sensitive Attributes";
         article := "Article 5(1)(e)";
         severity := "CRITICAL";
         evidence := "System infers sensitive attributes: " +:+ Py.join ", " detected_attrs;
         criteria := "Biometric categorization to infer race, political opinions, religion, sexual orientation is PROHIBITED";
         matches := Some
           [ ("sensitive_attributes", detected_attrs);
             ("inference_method", Py.those_in biometric_inference desc_lower) ] |} ]
  else [].

(** Article 5(1)(c) *)
Definition detect_social_scoring (desc_lower : string) : list detection :=
  let has_social_scoring := Py.any_in social_scoring desc_lower in
  let has_authority := Py.any_in authority_indicators desc_lower in
  if has_social_scoring || (has_authority && Py.contains "trustworthiness" desc_lower)
  then
    [ {| dtype := "Social Scoring by Public Authorities";
         article := "Article 5(1)(c)";
         severity := "CRITICAL";
         evidence := "System evaluates trustworthiness/social behavior for governmental purposes";
         criteria := "Social scoring by public authorities leading to detrimental treatment is PROHIBITED";
         matches := None |} ]
  else [].

(** Article 5(1)(a) *)
Definition detect_manipulation (desc_lower : string) : list detection :=
  if Py.any_in manipulation desc_lower then
    [ {| dtype := "Subliminal Manipulation";
         article := "Article 5(1)(a)";
         severity := "CRITICAL";
         evidence := "System uses subliminal or manipulative techniques";
         criteria := "Techniques beyond consciousness causing harm are PROHIBITED";
         matches := None |} ]
  else [].

(** Article 5(1)(b) *)
Definition detect_vulnerability (desc_lower : string) : list detection :=
  if Py.any_in vulnerability_exploit desc_lower then
    [ {| dtype := "Exploitation of Vulnerabilities";
         article := "Article 5(1)(b)";
         severity := "CRITICAL";
         evidence := "System exploits vulnerabilities of specific groups";
         criteria := "Exploiting vulnerabilities (age, disability, socio-economic) is PROHIBITED";
         matches := None |} ]
  else [].

(** Article 5(1)(g) *)
Definition detect_predictive_policing (desc_lower : string) : list detection :=
  if Py.any_in predictive desc_lower && Py.any_in profiling desc_lower then
    [ {| dtype := "Predictive Policing Based on Profiling";
         article := "Article 5(1)(g)";
         severity := "HIGH";
         evidence := "System predicts criminal behavior based on profiling";
         criteria := "Risk assessment based SOLELY on profiling or personality traits is PROHIBITED";
         matches := None |} ]
  else [].

(** [prohibited_detections] when every detector has run. *)
Definition prohibited_detections (description : string) : list detection :=
  let desc_lower := Py.lower description in
  detect_realtime_biometric desc_lower
  ++ detect_sensitive_categorization desc_lower
  ++ detect_social_scoring desc_lower
  ++ detect_manipulation desc_lower
  ++ detect_vulnerability desc_lower
  ++ detect_predictive_policing desc_lower.

(** The penalties, actions and options that end the warning of [process_initial_description]. *)
Definition warning_footer : string :=
  "## ðŸ’° **PENALTIES - Article 99(3)**
  **Maximum fine:** â‚¬35,000,000 OR 7% of total worldwide annual turnover (whichever is higher)

  **Additional consequences:**
  - Immediate system shutdown order
  - Criminal liability (varies by Member State)
  - Civil liability for damages to affected individuals
  - Permanent market ban in the EU

  ---

  ## ðŸ›‘ **IMMEDIATE ACTIONS REQUIRED**

  1. **HALT all operations immediately** - Do NOT deploy or continue using this system
  2. **Engage qualified legal counsel** urgently (EU AI Act + GDPR specialist)
  3. **Document everything** - Preserve records of system capabilities and usage
  4. **Notify authorities if already deployed:**
    - Data Protection Authority (GDPR breach notification)
    - National AI Office / Market Surveillance Authority
  5. **Delete unlawfully collected data** - Especially biometric data obtained without consent

  ---

  ## âš ï¸ **CRITICAL NOTES**

  - These violations are **NOT fixable** through documentation or procedural changes
  - The core functionality of your system is fundamentally prohibited
  - There is NO compliance path that maintains this functionality
  - Even if you disagree with this assessment, you MUST consult legal counsel before proceeding

  ---

  ## ðŸ“‹ **LEGAL DISCLAIMER**

  This is an automated preliminary assessment based on pattern matching in your system description.
  It is NOT a legal opinion. However, the detected indicators are severe enough that you should
  treat this as a legal emergency requiring immediate professional legal consultation.

  ---

  **Your options:**
  - Type `quit` to exit and contact legal counsel (STRONGLY RECOMMENDED)
  - Type `continue` to proceed with detailed assessment (system remains prohibited regardless)
  - Type `dispute` if you believe the detection is incorrect (will ask clarifying questions)

  Your choice: ".

Definition render_matches (ms : list (string * list string)) : string :=
  "**Detected indicators:**
" +:+ String.concat EmptyString
        (map (fun ck =>
                match snd ck with
                | [] => EmptyString
                | keywords =>
                    "- " +:+ Py.title (Py.replace_char "_" " " (fst ck)) +:+ ": "
                    +:+ Py.join ", " keywords +:+ "
"
                end) ms) +:+ "
".

Definition render_detection (d : detection) : string :=
  "### ðŸš¨ " +:+ dtype d +:+ "
" +:+ "**" +:+ article d +:+ "** | Severity: " +:+ severity d +:+ "

" +:+ "**Evidence from your description:**
" +:+ evidence d +:+ "

" +:+ "**Legal requirement:**
" +:+ criteria d +:+ "

" +:+ match matches d with
      | Some ms => render_matches ms
      | None => EmptyString
      end +:+ "---

".

(** The warning report for detections that are not empty. *)
Definition warning_report (detections : list detection) : string :=
  let critical := List.filter (fun d => String.eqb (severity d) "CRITICAL") detections in
  let high := List.filter (fun d => String.eqb (severity d) "HIGH") detections in
  "â›” **PROHIBITED AI SYSTEM DETECTED**

"
  +:+ "**" +:+ Py.str_nat (length detections) +:+ " Article 5 violation(s) identified:**

" +:+ String.concat EmptyString (map render_detection (critical ++ high))
  +:+ warning_footer.

Definition no_violation_message : string :=
  "âœ… No obvious Article 5 violations detected in initial description. Proceeding with detailed compliance assessment...".

(** [LegalAdvisor.process_initial_description] *)
Definition process_initial_description (description : string) : M (string * bool) :=
  let temp_description := description in
  match prohibited_detections description with
  | [] => ret (no_violation_message, false)
  | detections =>
      let* _ := update_self (set_pending_description temp_description) in
      ret (warning_report detections, true)
  end.

End LegalAdvisor.

(** ** Consultations *)

Module Consultation.
Import DocumentProcessor LegalAdvisor.

(** What a shell calls on the advisor once a description is in place:
    [ask_next_question()] or [process_answer(answer, question)]. The shells
    catch what a call raises and go on with the next input. *)
Inductive call :=
| Ask
| Answer (answer question : string).

Definition perform (C : collaborators) (c : call) : M (string * bool) :=
  match c with
  | Ask => ask_next_question C
  | Answer a q => process_answer C a q
  end.

(** The calls in turn: what each returned or raised, and the last state. *)
Fixpoint consult (C : collaborators) (calls : list call) (m : machine)
    : list (outcome (string * bool)) * machine :=
  match calls with
  | [] => ([], m)
  | c :: rest =>
      let (o, m') := perform C c m in
      let (os, m'') := consult C rest m' in
      (o :: os, m'')
  end.

(** The end of a call that concludes:
    [return self._generate_final_analysis(), True]. *)
Definition finish (C : collaborators) (m : machine)
    : outcome (string * bool) * machine :=
  match generate_final_analysis C m with
  | (Return report, m') => (Return (report, true), m')
  | (Raise e, m') => (Raise e, m')
  end.

(** The state in which a call generates its question: [process_answer] has
    appended the answer by then. *)
Definition entering (c : call) (m : machine) : machine :=
  match c with
  | Ask => m
  | Answer a q => with_self (append_history {| question := q; answer := a |} (self m)) m
  end.

(** A call that gave the user a question: it returned with [done = False]. *)
Definition is_question (o : outcome (string * bool)) : bool :=
  match o with
  | Return (_, false) => true
  | _ => false
  end.

(** A call that returned, with a question or with the report. *)
Definition is_return (o : outcome (string * bool)) : bool :=
  match o with
  | Return _ => true
  | Raise _ => false
  end.

(** The calls in turn for as long as each gives a question: the
    consultation up to its conclusion or to the first exception. *)
Fixpoint interview (C : collaborators) (calls : list call) (m : machine)
    : list (outcome (string * bool)) * machine :=
  match calls with
  | [] => ([], m)
  | c :: rest =>
      let (o, m') := perform C c m in
      if is_question o then
        let (os, m'') := interview C rest m' in (o :: os, m'')
      else ([o], m')
  end.

(** The number of questions surfaced to the user. *)
Definition surfaced (os : list (outcome (string * bool))) : nat :=
  length (List.filter is_question os).

Definition is_answer (c : call) : bool :=
  match c with
  | Answer _ _ => true
  | Ask => false
  end.

(** A fresh advisor over a corpus, as [__init__] and [reset] leave it. *)
Definition fresh (chunks : list DocumentChunk) : advisor :=
  {| ai_act_chunks := chunks; model_description := EmptyString;
     pending_description := EmptyString; interview_history := [];
     asked_questions_texts := []; relevant_articles := [] |}.

End Consultation.

(** ** Concrete collaborators

    Stand-ins for the libraries and services, to run the code on concrete
    inputs. *)

Module Scenario.
Import DocumentProcessor LegalAdvisor Consultation.

(** A stand-in for the digest: equal texts have equal digests and
    different texts different ones. *)
Definition digest (t : string) : string := "md5:" +:+ t.

(** The embedding model on four families of texts, told apart by their
    first letter; the vectors are unit vectors at right angles. On any
    other value the model raises. *)
Definition embed (v : json) : option vec :=
  match v with
  | JStr (String "A" _) => Some [1; 0]%float
  | JStr (String "B" _) => Some [0; 1]%float
  | JStr (String "C" _) => Some [-1; 0]%float
  | JStr (String "D" _) => Some [0; -1]%float
  | _ => None
  end.

(** The cosine of two unit vectors: their dot product. On vectors of
    different dimensions the library raises. *)
Fixpoint dot (a b : vec) : option float :=
  match a, b with
  | [], [] => Some 0%float
  | x :: a', y :: b' =>
      match dot a' b' with
      | Some s => Some (x * y + s)%float
      | None => None
      end
  | _, _ => None
  end.

(** A stable sort of the indices by their value. *)
Fixpoint insert_index (xs : list float) (i : nat) (sorted : list nat) : list nat :=
  match sorted with
  | [] => [i]
  | j :: rest =>
      if PrimFloat.leb (nth i xs 0%float) (nth j xs 0%float)
      then i :: sorted
      else j :: insert_index xs i rest
  end.

Definition index_sort (xs : list float) : list nat :=
  fold_right (insert_index xs) [] (seq 0 (length xs)).

(** The text of a reply of the service: [{"assessment_status": ...,
    "confidence": ..., "next_question": ...}]. *)
Definition quoted (s : string) : string := Py.dq +:+ s +:+ Py.dq.

Definition reply_text (status confidence next_question : string) : string :=
  "{" +:+ quoted "assessment_status" +:+ ": " +:+ quoted status +:+ ", "
  +:+ quoted "confidence" +:+ ": " +:+ confidence +:+ ", "
  +:+ quoted "next_question" +:+ ": " +:+ next_question +:+ "}".

Definition reply_value (status : string) (confidence : float) (next_question : json)
    : json :=
  JObj [ ("assessment_status", JStr status);
         ("confidence", JFloat confidence);
         ("next_question", next_question) ].

(** The [i]-th question of the service: the letters A, B, C, D in turn,
    so that no question resembles the three before it. *)
Definition question_no (i : nat) : string :=
  match i mod 4 with
  | 0 => "A"
  | 1 => "B"
  | 2 => "C"
  | _ => "D"
  end +:+ Py.str_nat i +:+ ": what does the system do in case " +:+ Py.str_nat i +:+ "?".

(** The service asks question [i], and needs more information. *)
Definition asks (i : nat) : string :=
  reply_text "need_more_info" "0.4" (quoted (question_no i)).

(** The service is ready to conclude, and still proposes question [i]. *)
Definition ready_asking (i : nat) : string :=
  reply_text "ready_to_conclude" "0.9" (quoted (question_no i)).

(** The service is ready to conclude and proposes no question. *)
Definition ready_null : string := reply_text "ready_to_conclude" "0.9" "null".

(** What [json.loads] gives on these replies; anything else does not
    decode. *)
Definition replies : list (string * json) :=
  (ready_null, reply_value "ready_to_conclude" 0.9 JNull)
  :: flat_map
       (fun i =>
          [ (asks i, reply_value "need_more_info" 0.4 (JStr (question_no i)));
            (ready_asking i,
             reply_value "ready_to_conclude" 0.9 (JStr (question_no i))) ])
       (seq 0 20).

Fixpoint lookup_reply (t : string) (table : list (string * json)) : option json :=
  match table with
  | [] => None
  | (k, v) :: rest => if String.eqb k t then Some v else lookup_reply t rest
  end.

Definition decode (t : string) : option json := lookup_reply t replies.

(** A service that answers its [n]-th call with the [n]-th entry of
    [script], and is unreachable once the script is over. *)
Definition scripted (script : list (outcome string)) (log : list chat_call)
    (c : chat_call) : outcome string :=
  nth (length log) script (Raise ConnectionError).

Definition stage (script : list (outcome string)) : collaborators :=
  {| md5 := digest;
     extract_articles := fun _ => [];
     encode := embed;
     cosine_similarity := dot;
     argsort := index_sort;
     json_loads := decode;
     chat := scripted script;
     questions_context := fun _ => EmptyString |}.

Definition noon : datetime :=
  {| year := 2026; month := 3; day := 7; hour := 12; minute := 0; second := 0 |}.

Definition midnight : datetime :=
  {| year := 2026; month := 3; day := 8; hour := 0; minute := 0; second := 0 |}.

(** An advisor over an empty corpus whose shell has stored the
    description, before the first question. *)
Definition described (description : string) : machine :=
  {| self := set_model_description description (fresh []);
     self_id := 140234866093264; llm_log := []; now := noon |}.

(** A fresh advisor over an empty corpus. *)
Definition start : machine :=
  {| self := fresh []; self_id := 140234866093264; llm_log := []; now := noon |}.

(** The description of the specification's first scenario, and the same
    with a place that the detector lists. *)
Definition train_stations : string :=
  "We deploy real-time facial recognition cameras in train stations to identify passengers".

Definition transport_hubs : string :=
  "We deploy real-time facial recognition cameras in transport hubs to identify passengers".

(** The advisor after the warning on [transport_hubs], read at time [t]. *)
Definition warned (t : datetime) : machine :=
  {| self := set_pending_description transport_hubs (fresh []);
     self_id := 140234866093264; llm_log := []; now := t |}.

(** A cache written for another text, and the chunk of the current one. *)
Definition stale_cache : cache_file :=
  Pickled (Some [digest "Bylaws of the sailing club."]) (Some [[0; 1]%float]).

Definition current_chunks : list DocumentChunk :=
  [new_chunk (stage [])
     "Article 5 prohibits social scoring." 0 0 "EU_AI_Act"].

Definition chatbot : string :=
  "A chatbot answers customer FAQs using a retrieval-augmented language model".

(** An answer of six words, whatever the question. *)
Definition long_answer : string := "It only reads our public FAQ".

(** [n] answers, each to the question asked just before it. *)
Definition answers (n : nat) : list call :=
  map (fun i => Answer long_answer (Py.strip (question_no i))) (seq 0 n).

(** A paragraph of [n] times the same word. *)
Definition lorem (n : nat) : string := Py.join " " (repeat "lorem" n).

(** Two chunks with the same text, as the chunker makes them, not
    embedded. *)
Definition plain_a : DocumentChunk :=
  new_chunk (stage []) "Article 5 prohibits social scoring." 0 0 "EU_AI_Act".
Definition plain_a' : DocumentChunk :=
  new_chunk (stage []) "Article 5 prohibits social scoring." 2 1 "EU_AI_Act".

(** Three embedded chunks, two of them with the same text. *)
Definition chunk_a : DocumentChunk :=
  set_embedding [1; 0]%float (new_chunk (stage []) "Article 5 prohibits social scoring." 0 0 "EU_AI_Act").
Definition chunk_b : DocumentChunk :=
  set_embedding [0; 1]%float (new_chunk (stage []) "Article 52 requires transparency." 1 1 "EU_AI_Act").
Definition chunk_a' : DocumentChunk :=
  set_embedding [1; 0]%float (new_chunk (stage []) "Article 5 prohibits social scoring." 2 2 "EU_AI_Act").

End Scenario.

(** ** Statements about the chunker *)

Module Chunker.
Import DocumentProcessor.

(** What the chunker records in a chunk made on page [n]. *)
Definition made_on (C : collaborators) (n : nat) (c : DocumentChunk) : Prop :=
  page_number c = n /\ 50 < String.length (text c) /\ embedding c = None
  /\ document_name c = "EU_AI_Act" /\ text_hash c = md5 C (text c)
  /\ extracted_articles c = extract_articles C (text c).

(** A step of the chunker appends chunks of page [n], numbered from the
    length of the list on. *)
Definition extends (C : collaborators) (n : nat) (chunks chunks' : list DocumentChunk)
    : Prop :=
  exists extra, chunks' = chunks ++ extra
    /\ Forall (made_on C n) extra
    /\ map chunk_index extra = seq (length chunks) (length extra).

(** The chunker in the words of the specification, for the default
    processor. A paragraph of [n] words has a window at each of the words
    0, 650, 1300, ... below [n]. *)
Definition window_count (n : nat) : nat := (n + 649) / 650.

(** The texts of the chunks of one paragraph: the paragraph itself when it
    has at most 800 characters; otherwise its windows of 800 words, the
    windows of at most 100 characters left out. *)
Definition paragraph_texts (para : string) : list string :=
  if (800 <? String.length para)%nat then
    List.filter (fun t => (100 <? String.length (Py.strip t))%nat)
      (map (fun j => Py.join " " (Py.slice (j * 650) 800 (Py.split para)))
         (seq 0 (window_count (length (Py.split para)))))
  else [para].

(** The paragraphs of a page: those of its text behind the page mark, and
    none for a page without text. *)
Definition page_paragraphs (page_num : nat) (pg : page) : list string :=
  match pg with
  | PageText EmptyString | PageNone | PageFails => []
  | PageText t =>
      paragraphs_of ("[Page " +:+ Py.str_nat (page_num + 1) +:+ "] " +:+ t)
  end.

(** The page number and the text of every chunk of a document, in order. *)
Definition document_texts (pages : list page) : list (nat * string) :=
  flat_map
    (fun np => map (pair np.1) (flat_map paragraph_texts (page_paragraphs np.1 np.2)))
    (Py.enumerate pages).

End Chunker.

(** ** Statements about the embedding cache *)

Module Embeddings.
Import DocumentProcessor.

(** Two chunks that differ at most in their embedding. *)
Definition same_but_embedding (c c' : DocumentChunk) : Prop :=
  text c = text c' /\ page_number c = page_number c'
  /\ chunk_index c = chunk_index c' /\ document_name c = document_name c'
  /\ text_hash c = text_hash c' /\ extracted_articles c = extracted_articles c'.

End Embeddings.

(** ** legal_advisor.py: loading the corpus *)

Module Loading.
Import DocumentProcessor.

(** [LegalAdvisor._load_document]: [pdf] is what is at [path], [cache] the
    cache file. [None] when the embedding model raises, which neither this
    method nor [__init__] catches. *)
Definition load_document (C : collaborators) (pdf : option (list page))
    (cache : cache_file) (writable : bool) : option (list DocumentChunk) :=
  match pdf with
  | None => Some []
  | Some _ =>
      match load_and_chunk_document C default_processor pdf with
      | [] => Some []
      | chunks =>
          let r := generate_embeddings C chunks cache writable in
          if returned r then Some (chunks_after r) else None
      end
  end.

End Loading.

(** ** Statements about consultations *)

Module Interview.
Import DocumentProcessor LegalAdvisor Consultation.

(** The short-answer exit of [process_answer]: fewer than three words once
    the history has MIN_QUESTIONS entries. *)
Definition short_exit (c : call) (m : machine) : bool :=
  match c with
  | Ask => false
  | Answer a _ =>
      (length (Py.split a) <? 3)%nat
      && (MIN_QUESTIONS <=? length (interview_history (self m)))%nat
  end.

(** The entries that a list of calls hands to [process_answer]. *)
Definition handed (calls : list call) : list qa :=
  omap (fun c => match c with
                 | Ask => None
                 | Answer a q => Some {| question := q; answer := a |}
                 end) calls.

(** What no call of the interview writes: the corpus, the two
    descriptions, the identity of the advisor and the clock. *)
Definition same_setting (m m' : machine) : Prop :=
  ai_act_chunks (self m') = ai_act_chunks (self m)
  /\ model_description (self m') = model_description (self m)
  /\ pending_description (self m') = pending_description (self m)
  /\ self_id m' = self_id m
  /\ now m' = now m.

End Interview.

(** ** More concrete collaborators *)

Module Malformed.
Import DocumentProcessor LegalAdvisor Consultation.

(** The service is ready to conclude and gives its confidence in a word. *)
Definition ready_in_words (i : nat) : string :=
  Scenario.reply_text "ready_to_conclude" (Scenario.quoted "high")
    (Scenario.quoted (Scenario.question_no i)).

(** The service asks a question of three spaces. *)
Definition asks_blank : string :=
  Scenario.reply_text "need_more_info" "0.4" (Scenario.quoted "   ").

(** [json.loads] on three texts that are JSON but no object and on the
    two replies above, and as [Scenario.decode] on every other text. *)
Definition decode (t : string) : option json :=
  if String.eqb t "[]" then Some (JArr [])
  else if String.eqb t "null" then Some JNull
  else if String.eqb t "7" then Some (JInt 7)
  else if String.eqb t (ready_in_words 3) then
    Some (JObj [ ("assessment_status", JStr "ready_to_conclude");
                 ("confidence", JStr "high");
                 ("next_question", JStr (Scenario.question_no 3)) ])
  else if String.eqb t asks_blank then
    Some (Scenario.reply_value "need_more_info" 0.4 (JStr "   "))
  else Scenario.decode t.

(** [Scenario.stage] with this decoder. *)
Definition stage (script : list (outcome string)) : collaborators :=
  {| md5 := Scenario.digest;
     extract_articles := fun _ => [];
     encode := Scenario.embed;
     cosine_similarity := Scenario.dot;
     argsort := Scenario.index_sort;
     json_loads := decode;
     chat := Scenario.scripted script;
     questions_context := fun _ => EmptyString |}.

End Malformed.

(** ** Statements about the report texts *)

Module Reports.
Import DocumentProcessor LegalAdvisor.

(** A detector gives nothing or one finding, of a fixed article and
    severity. *)
Definition one_finding (art sev : string) (l : list detection) : Prop :=
  l = [] \/ exists x, l = [x] /\ article x = art /\ severity x = sev.

(** What [_extract_articles_with_context] records for an article first
    seen in [chunk]. *)
Definition info_from (chunk : DocumentChunk) : article_info :=
  {| page := page_number chunk + 1; excerpts := [];
     full_text := Py.str_first 500 (text chunk) |}.

(** [self.pending_description or self.model_description] *)
Definition reported_description (a : advisor) : string :=
  match pending_description a with
  | EmptyString => model_description a
  | d => d
  end.

(** The heading of the warning, which counts the findings. *)
Definition warning_heading (n : nat) : string :=
  "â›” **PROHIBITED AI SYSTEM DETECTED**

"
  +:+ "**" +:+ Py.str_nat n +:+ " Article 5 violation(s) identified:**

".

End Reports.

(** ** More concrete inputs *)

Module Inputs.
Import DocumentProcessor LegalAdvisor Consultation.

(** The text of a page with two paragraphs, the second of 700 words. *)
Definition page_of_700_words : string :=
  "Article 5 lists the practices that the Act prohibits in the Union.

" +:+ Scenario.lorem 700.

(** A description of more than 1000 characters that ends in [ending]. *)
Definition long_description (ending : string) : string :=
  Scenario.transport_hubs +:+ ". " +:+ Scenario.lorem 200 +:+ ending.

(** The advisor after the warning on a long description. *)
Definition warned_at_length (ending : string) : machine :=
  {| self := set_pending_description (long_description ending) (fresh []);
     self_id := 140234866093264; llm_log := []; now := Scenario.noon |}.

(** Two chunks with the same text, as a cache of vectors of three entries
    embeds them. *)
Definition cached_3d : list DocumentChunk :=
  chunks_after
    (generate_embeddings (Scenario.stage []) [Scenario.plain_a; Scenario.plain_a']
       (Pickled (Some [EmptyString; EmptyString])
          (Some [[1; 0; 0]%float; [1; 0; 0]%float])) false).

End Inputs.

(** ** api.py *)

Module Api.
Import DocumentProcessor LegalAdvisor.

(** [get_initial_prompt()] *)
Definition get_initial_prompt : string :=
  "Please describe your AI system in detail. Include:
- Primary purpose and functionality
- Technical approach (ML model type, algorithms)
- Data processed (types, sources, sensitivity)
- Deployment context (where, when, who uses it)
- Decision-making role (automated, human-in-loop)
- Potential impact on individuals

Be specific to enable accurate risk classification.".

(** The dictionary that [LegalAdvisor.get_progress] returns. *)
Record progress := {
  questions_asked : nat;
  max_questions : nat;
  min_questions : nat;
  has_description : bool
}.

(** [LegalAdvisor.get_progress] *)
Definition get_progress (a : advisor) : progress :=
  {| questions_asked := length (interview_history a);
     max_questions := MAX_QUESTIONS;
     min_questions := MIN_QUESTIONS;
     has_description := negb (String.eqb (model_description a) EmptyString) |}.

(** One value of [sessions]. [s_advisor] is [session["advisor"]] with
    what the advisor runs against: the calls made to the service so far
    and the clock. Nothing in api.py appends to [chat_history]. *)
Record session := {
  s_advisor : machine;
  current_question : string;
  awaiting_confirmation : bool;
  chat_history : list (string * string)
}.

(** The session that [get_or_create_session] stores for a new id, around
    an advisor as [LegalAdvisor()] made it. *)
Definition new_session (chunks : list DocumentChunk) (id : Z)
    (log : list chat_call) (t : datetime) : session :=
  {| s_advisor := {| self := Consultation.fresh chunks; self_id := id;
                     llm_log := log; now := t |};
     current_question := EmptyString;
     awaiting_confirmation := false;
     chat_history := [] |}.

(** What the endpoint answers: a [ChatResponse], an [HTTPException] that
    it raises itself, or an exception that it does not catch. *)
Inductive reply :=
| ChatResponse (message : string) (is_done : bool) (progress_ : progress)
| HTTPException (status_code : nat) (detail : string)
| Uncaught (e : exn).

(** [x in items] for strings *)
Definition among (x : string) (items : list string) : bool :=
  existsb (String.eqb x) items.

(** [f"[Q{progress['questions_asked']+1}/{progress['max_questions']}"] *)
Definition question_number (p : progress) : string :=
  "[Q" +:+ Py.str_nat (questions_asked p + 1) +:+ "/" +:+ Py.str_nat (max_questions p).

(** The body of [reset_session], and of the reset command of [chat]. *)
Definition reset_session (s : session) : session :=
  {| s_advisor := (reset (s_advisor s)).2;
     current_question := EmptyString;
     awaiting_confirmation := false;
     chat_history := [] |}.

(** [chat(message)] on the session that [get_or_create_session] returned
    for [message.session_id]; [str_exn] is [str(e)]. *)
Definition chat (C : collaborators) (str_exn : exn -> string) (content : string)
    (s : session) : reply * session :=
  if String.eqb (Py.strip content) EmptyString then
    (HTTPException 400 "Message content cannot be empty", s)
  else
    let advisor := s_advisor s in
    let current_question := current_question s in
    let awaiting_confirmation := awaiting_confirmation s in
    let store m q awaiting :=
      {| s_advisor := m; current_question := q;
         awaiting_confirmation := awaiting; chat_history := chat_history s |} in
    if String.eqb (Py.lower content) "reset" then
      let s' := reset_session s in
      (ChatResponse ("🔄 System reset.

" +:+ get_initial_prompt) false
         (get_progress (self (s_advisor s'))),
       s')
    else if awaiting_confirmation then
      if among (Py.lower content) ["yes"; "y"] then
        match ask_next_question C advisor with
        | (Raise e, m) => (Uncaught e, store m current_question false)
        | (Return (next_q, is_done), m) =>
            let progress := get_progress (self m) in
            if is_done then
              (ChatResponse ("📊 **FINAL ASSESSMENT**

" +:+ next_q) is_done progress,
               store m current_question false)
            else
              (ChatResponse (question_number progress +:+ "]

" +:+ next_q) is_done progress,
               store m next_q false)
        end
      else if among (Py.lower content) ["no"; "n"] then
        match generate_prohibited_final_report advisor with
        | (Raise e, m) => (Uncaught e, store m current_question false)
        | (Return final_report, m) =>
            let m' := (reset m).2 in
            (ChatResponse ("📊 **FINAL ASSESSMENT - PROHIBITED SYSTEM**

" +:+ final_report)
               true (get_progress (self m')),
             store m' current_question false)
        end
      else
        let m' := (reset advisor).2 in
        (ChatResponse "⚠️ Assessment cancelled. Type your system description to start again." false (get_progress (self m')),
         store m' current_question false)
    else if String.eqb (model_description (self advisor)) EmptyString then
      match process_initial_description content advisor with
      | (Raise e, m) => (Uncaught e, store m current_question awaiting_confirmation)
      | (Return (response, is_prohibited), m) =>
          if is_prohibited then
            (ChatResponse response false (get_progress (self m)),
             store m current_question true)
          else
            let m1 := with_self (set_model_description content (self m)) m in
            match ask_next_question C m1 with
            | (Raise e, m2) =>
                (Uncaught e, store m2 current_question awaiting_confirmation)
            | (Return (next_q, is_done), m2) =>
                let progress := get_progress (self m2) in
                if is_done then
                  (ChatResponse ("📊 **FINAL ASSESSMENT**

" +:+ next_q) is_done progress,
                   store m2 current_question awaiting_confirmation)
                else
                  (ChatResponse
                     ("✅ Description received.

[Q" +:+ Py.str_nat (questions_asked progress + 1)
                      +:+ "/" +:+ Py.str_nat (max_questions progress) +:+ "] " +:+ next_q)
                     is_done progress,
                   store m2 next_q awaiting_confirmation)
            end
      end
    else
      match process_answer C content current_question advisor with
      | (Raise e, m) =>
          (HTTPException 500 ("Error: " +:+ str_exn e),
           store m current_question awaiting_confirmation)
      | (Return (next_q, is_done), m) =>
          let progress := get_progress (self m) in
          if is_done then
            (ChatResponse ("📊 **FINAL COMPLIANCE ASSESSMENT**

" +:+ next_q
                           +:+ "

---
Type 'reset' to start a new assessment.") is_done progress,
             store m current_question awaiting_confirmation)
          else
            let emoji :=
              if (min_questions progress <=? questions_asked progress)%nat
              then "🎯" else EmptyString in
            (ChatResponse (question_number progress +:+ "]" +:+ emoji +:+ "

" +:+ next_q) is_done progress,
             store m next_q awaiting_confirmation)
      end.

(** Between two messages of a session the other sessions call the service
    and time passes. *)
Definition meanwhile (log : list chat_call) (t : datetime) (s : session) : session :=
  {| s_advisor := {| self := self (s_advisor s); self_id := self_id (s_advisor s);
                     llm_log := log; now := t |};
     current_question := current_question s;
     awaiting_confirmation := awaiting_confirmation s;
     chat_history := chat_history s |}.

(** The states of a session: from its creation, through messages to
    [/chat] and calls of [/session/{session_id}/reset]. *)
Inductive reachable (C : collaborators) (str_exn : exn -> string) : session -> Prop :=
| reach_new chunks id log t :
    reachable C str_exn (new_session chunks id log t)
| reach_chat content s :
    reachable C str_exn s -> reachable C str_exn (chat C str_exn content s).2
| reach_reset s :
    reachable C str_exn s -> reachable C str_exn (reset_session s)
| reach_meanwhile log t s :
    reachable C str_exn s -> reachable C str_exn (meanwhile log t s).

(** What holds of a session between two requests. *)
Definition consistent (s : session) : Prop :=
  let a := self (s_advisor s) in
  (awaiting_confirmation s = true ->
     model_description a = EmptyString
     /\ prohibited_detections (pending_description a) <> [])
  /\ prohibited_detections (model_description a) = []
  /\ (model_description a = EmptyString -> interview_history a = [])
  /\ chat_history s = [].

End Api.

(** * Properties *)

Import DocumentProcessor LegalAdvisor Consultation Scenario.
Import Chunker Embeddings Loading Interview Reports Inputs.

(** ** The primitives on examples *)

Example lower_ex : Py.lower "Real-Time ID" = "real-time id".
Proof. reflexivity. Qed.

Example contains_ex :
  Py.contains "street" "main street" = true /\ Py.contains "state" "stations" = false.
Proof. split; reflexivity. Qed.

Example split_ex : Py.split "  a  bc
 d " = ["a"; "bc"; "d"].
Proof. reflexivity. Qed.

Example split_on_ex : Py.split_on "--" "a--b---c" = ["a"; "b"; "-c"].
Proof. reflexivity. Qed.

Example strip_ex : Py.strip "  a b  " = "a b".
Proof. reflexivity. Qed.

Example range_ex : Py.range 1400 650 = [0; 650; 1300].
Proof. vm_compute. reflexivity. Qed.

Example slice_last_ex :
  Py.slice_last 2 [1; 2; 3] = [2; 3] /\ Py.slice_last 0 [1; 2; 3] = [1; 2; 3]
  /\ Py.slice_last 5 [1; 2; 3] = [1; 2; 3].
Proof. repeat split; reflexivity. Qed.

Example slice_to_ex :
  Py.slice_to 2 [1; 2; 3] = [1; 2] /\ Py.slice_to (-1) [1; 2; 3] = [1; 2].
Proof. split; reflexivity. Qed.

Example title_ex :
  Py.title (Py.replace_char "_" " " "sensitive_attributes") = "Sensitive Attributes"
  /\ Py.title "real-time" = "Real-Time".
Proof. split; reflexivity. Qed.

Example strftime_ex :
  strftime {| year := 2026; month := 3; day := 7; hour := 9; minute := 5; second := 0 |}
  = "2026-03-07 09:05:00".
Proof. reflexivity. Qed.

Example unfence_ex :
  unfence "Here:
```json
{}
``` done" = "
{}
".
Proof. reflexivity. Qed.

(** ** The corpus chunker *)

Lemma flush_length (cur : string) (rest : list string) :
  length (Py.flush cur rest) <= S (length rest)
  /\ (cur = EmptyString -> Py.flush cur rest = rest).
Proof. destruct cur; cbn; split; try lia; try reflexivity; discriminate. Qed.

(** A text has at most as many words as characters. *)
Lemma split_go_length (s : string) :
  forall cur, length (Py.split_go s cur) <= S (String.length s)
              /\ length (Py.split_go s EmptyString) <= String.length s.
Proof.
  induction s as [|c r IH]; intros cur.
  - cbn. destruct cur; cbn; lia.
  - cbn [Py.split_go String.length]. destruct (Py.is_space c).
    + destruct (IH EmptyString) as [_ H0].
      split.
      * destruct (flush_length cur (Py.split_go r EmptyString)) as [H _]. lia.
      * cbn [Py.flush]. lia.
    + split.
      * destruct (IH (Py.snoc cur c)) as [H _]. lia.
      * destruct (IH (Py.snoc EmptyString c)) as [H _]. lia.
Qed.

Lemma split_length (s : string) : length (Py.split s) <= String.length s.
Proof. apply (split_go_length s EmptyString). Qed.

(** [range(0, stop, step)] is [0, step, 2*step, ...] below [stop]. *)
Lemma range_go_spec (step stop : nat) :
  0 < step ->
  forall fuel i, stop - i <= fuel ->
    exists n, Py.range_go fuel i stop step = map (fun j => i + j * step) (seq 0 n)
              /\ forall j, j < n <-> i + j * step < stop.
Proof.
  intros Hstep. induction fuel as [|f IH]; intros i Hf.
  - exists 0. cbn. split; [reflexivity|]. intros j. split; [lia|]. nia.
  - cbn [Py.range_go]. destruct (i <? stop)%nat eqn:E.
    + apply Nat.ltb_lt in E.
      destruct (IH (i + step)) as (n & Hn & Hj); [lia|].
      exists (S n). split.
      * cbn [seq map]. f_equal; [lia|].
        rewrite Hn, <- seq_shift, map_map. apply map_ext. intros j. lia.
      * intros [|j]; [split; [intros _; lia|lia]|].
        specialize (Hj j). split; intros H; [apply Nat.succ_lt_mono in H|apply -> Nat.succ_lt_mono];
          [apply Hj in H; lia|apply Hj; lia].
    + apply Nat.ltb_ge in E. exists 0. cbn. split; [reflexivity|].
      intros j. split; [lia|]. nia.
Qed.

Lemma range_spec (stop step : nat) :
  0 < step ->
  exists n, Py.range stop step = map (fun j => j * step) (seq 0 n)
            /\ forall j, j < n <-> j * step < stop.
Proof.
  intros Hstep. destruct (range_go_spec step stop Hstep stop 0 ltac:(lia)) as (n & Hn & Hj).
  exists n. split; [exact Hn|exact Hj].
Qed.

(** The texts that the windows of a long paragraph add. *)
Lemma add_windows_texts (C : collaborators) (dp : processor) (page_num : nat)
    (words : list string) (starts : list nat) :
  forall chunks,
    map text (fold_left (add_window C dp page_num words) starts chunks)
    = map text chunks
      ++ List.filter (fun t => (100 <? String.length (Py.strip t))%nat)
           (map (fun i => Py.join " " (Py.slice i (chunk_size dp) words)) starts).
Proof.
  induction starts as [|i rest IH]; intros chunks; cbn [fold_left map List.filter].
  - rewrite app_nil_r. reflexivity.
  - rewrite IH. unfold add_window.
    destruct (100 <? String.length (Py.strip (Py.join " " (Py.slice i (chunk_size dp) words))))%nat.
    + unfold append_chunk. rewrite map_app. cbn. rewrite <- app_assoc. reflexivity.
    + reflexivity.
Qed.

Lemma window_count_spec (n j : nat) : j < window_count n <-> j * 650 < n.
Proof.
  unfold window_count.
  pose proof (Nat.div_mod_eq (n + 649) 650) as Hd.
  pose proof (Nat.mod_upper_bound (n + 649) 650 ltac:(lia)) as Hm.
  lia.
Qed.

(** The window starts that [range] gives for the default processor. *)
Lemma range_650 (n : nat) :
  Py.range n 650 = map (fun j => j * 650) (seq 0 (window_count n)).
Proof.
  destruct (range_spec n 650 ltac:(lia)) as (k & -> & Hk).
  replace k with (window_count n); [reflexivity|].
  pose proof (window_count_spec n) as Hw.
  destruct (Nat.lt_trichotomy (window_count n) k) as [H|[H|H]]; [|exact H|].
  - apply Hk, Hw in H. lia.
  - apply Hw, Hk in H. lia.
Qed.

(** The page and the text of the chunks that the windows of a long
    paragraph add. *)
Lemma add_windows_pairs (C : collaborators) (dp : processor) (page_num : nat)
    (words : list string) (starts : list nat) :
  forall chunks,
    map (fun c => (page_number c, text c))
      (fold_left (add_window C dp page_num words) starts chunks)
    = map (fun c => (page_number c, text c)) chunks
      ++ map (pair page_num)
           (List.filter (fun t => (100 <? String.length (Py.strip t))%nat)
              (map (fun i => Py.join " " (Py.slice i (chunk_size dp) words)) starts)).
Proof.
  induction starts as [|i rest IH]; intros chunks; cbn [fold_left map List.filter].
  - rewrite app_nil_r. reflexivity.
  - rewrite IH. unfold add_window.
    destruct (100 <? String.length (Py.strip (Py.join " " (Py.slice i (chunk_size dp) words))))%nat.
    + unfold append_chunk. rewrite map_app. cbn [map new_chunk page_number text].
      rewrite <- app_assoc. reflexivity.
    + reflexivity.
Qed.

(** One paragraph under the default processor. *)
Lemma add_paragraph_default (C : collaborators) (page_num : nat) (para : string)
    (chunks : list DocumentChunk) :
  exists chunks',
    add_paragraph C default_processor page_num para chunks = Some chunks'
    /\ map (fun c => (page_number c, text c)) chunks'
       = map (fun c => (page_number c, text c)) chunks
         ++ map (pair page_num) (paragraph_texts para).
Proof.
  unfold add_paragraph, paragraph_texts. cbn [chunk_size default_processor].
  destruct (800 <? String.length para)%nat.
  - unfold stride_range. cbn [chunk_size overlap default_processor].
    change (Z.of_nat 800 - Z.of_nat 150)%Z with 650%Z.
    change (650 =? 0)%Z with false. change (650 <? 0)%Z with false. cbn iota.
    change (Z.to_nat 650) with 650.
    eexists. split; [reflexivity|].
    rewrite add_windows_pairs, range_650, map_map. reflexivity.
  - eexists. split; [reflexivity|].
    unfold append_chunk. rewrite map_app. reflexivity.
Qed.

Lemma add_paragraphs_default (C : collaborators) (page_num : nat) (paras : list string) :
  forall chunks,
    map (fun c => (page_number c, text c))
      (add_paragraphs C default_processor page_num paras chunks)
    = map (fun c => (page_number c, text c)) chunks
      ++ map (pair page_num) (flat_map paragraph_texts paras).
Proof.
  induction paras as [|para rest IH]; intros chunks; cbn [add_paragraphs flat_map map].
  - rewrite app_nil_r. reflexivity.
  - destruct (add_paragraph_default C page_num para chunks) as (chunks' & -> & Hc).
    rewrite IH, Hc, map_app, <- app_assoc. reflexivity.
Qed.

Lemma add_page_default (C : collaborators) (page_num : nat) (pg : DocumentProcessor.page)
    (chunks : list DocumentChunk) :
  map (fun c => (page_number c, text c)) (add_page C default_processor chunks (page_num, pg))
  = map (fun c => (page_number c, text c)) chunks
    ++ map (pair page_num) (flat_map paragraph_texts (page_paragraphs page_num pg)).
Proof.
  unfold add_page, page_paragraphs.
  destruct pg as [[|c t]| |]; try (cbn [flat_map map]; rewrite app_nil_r; reflexivity).
  apply add_paragraphs_default.
Qed.

Lemma add_pages_default (C : collaborators) (pages : list DocumentProcessor.page) :
  forall (k : nat) (chunks : list DocumentChunk),
    map (fun c => (page_number c, text c))
      (fold_left (add_page C default_processor) (combine (seq k (length pages)) pages) chunks)
    = map (fun c => (page_number c, text c)) chunks
      ++ flat_map
           (fun np => map (pair np.1)
                        (flat_map paragraph_texts (page_paragraphs np.1 np.2)))
           (combine (seq k (length pages)) pages).
Proof.
  induction pages as [|pg rest IH]; intros k chunks;
    cbn [length seq combine fold_left flat_map].
  - rewrite app_nil_r. reflexivity.
  - rewrite IH, add_page_default, <- app_assoc. reflexivity.
Qed.

(** C6, as stated, fails: on a page with two paragraphs, the second of
    700 words, which is within the budget of 800 words and has 4199
    characters, [load_and_chunk_document] makes three chunks: the first
    paragraph, the 700 words, and the last 50 of them again. *)
Lemma paragraph_of_700_words :
  let pages := [PageText page_of_700_words] in
  map (fun para => (length (Py.split para), String.length para)) (page_paragraphs 0 (PageText page_of_700_words))
  = [(14, 75); (700, 4199)]
  /\ map (fun c => length (Py.split (text c)))
       (load_and_chunk_document (stage []) default_processor (Some pages))
     = [14; 700; 50].
Proof.
  cbv zeta. split; vm_compute; reflexivity.
Qed.

(** C6, amended: under the default processor the chunks that
    [load_and_chunk_document] returns are, page by page and paragraph by
    paragraph in order, these. A paragraph of at most 800 characters
    becomes exactly one chunk, with its own text. A paragraph of more
    than 800 characters, which every paragraph of more than 800 words is,
    is split into words and cut into the windows of 800 words that start
    at the words 0, 650, 1300, ... below the number of words; each window
    of more than 100 characters becomes a chunk, and the others are
    discarded. The budget is tested on the characters of the paragraph. *)
Theorem load_and_chunk_document_default (C : collaborators)
    (pages : list DocumentProcessor.page) :
  map (fun c => (page_number c, text c))
    (load_and_chunk_document C default_processor (Some pages))
  = document_texts pages
  /\ (forall para, String.length para <= 800 -> paragraph_texts para = [para])
  /\ (forall para, 800 < length (Py.split para) -> 800 < String.length para)
  /\ (forall para, 800 < String.length para ->
        paragraph_texts para
        = List.filter (fun t => (100 <? String.length (Py.strip t))%nat)
            (map (fun j => Py.join " " (Py.slice (j * 650) 800 (Py.split para)))
               (seq 0 (window_count (length (Py.split para))))))
  /\ (forall n j, j < window_count n <-> j * 650 < n).
Proof.
  split; [|split; [|split; [|split]]].
  - cbn [load_and_chunk_document]. unfold Py.enumerate, document_texts.
    rewrite add_pages_default. reflexivity.
  - intros para H. unfold paragraph_texts. apply Nat.ltb_ge in H. rewrite H. reflexivity.
  - intros para H. pose proof (split_length para). lia.
  - intros para H. unfold paragraph_texts. apply Nat.ltb_lt in H. rewrite H. reflexivity.
  - apply window_count_spec.
Qed.

(** ** The embedding cache *)

Lemma assign_enough (chunks : list DocumentChunk) (embs : list vec) :
  length chunks <= length embs -> (assign chunks embs).2 = true.
Proof.
  revert embs. induction chunks as [|c cs IH]; intros [|e es] Hl; simpl in *;
    try reflexivity; try lia.
  specialize (IH es ltac:(lia)). destruct (assign cs es). assumption.
Qed.

(** A cache with as many hashes as there are chunks is used, whatever the
    hashes are. *)
Lemma generate_embeddings_by_length (C : collaborators)
    (chunks : list DocumentChunk) (hashes : list string) (embs : list vec)
    (writable : bool) :
  length hashes = length chunks -> length chunks <= length embs ->
  recomputed (generate_embeddings C chunks (Pickled (Some hashes) (Some embs)) writable)
  = false.
Proof.
  intros Hh He. unfold generate_embeddings. simpl.
  rewrite Hh, Nat.eqb_refl. rewrite (assign_enough _ _ He). reflexivity.
Qed.

(** A cache whose hash list has another length is never used. *)
Lemma generate_embeddings_other_length (C : collaborators)
    (chunks : list DocumentChunk) (hashes : list string) (embs : option (list vec))
    (writable : bool) :
  length hashes <> length chunks ->
  recomputed (generate_embeddings C chunks (Pickled (Some hashes) embs) writable)
  = true.
Proof.
  intros Hh. unfold generate_embeddings. simpl.
  apply Nat.eqb_neq in Hh. rewrite Hh. simpl.
  destruct (encode_all C (map text chunks)); reflexivity.
Qed.

(** C2: the code at a cache whose one hash differs from the hash of the one
    current chunk: the model is not called, the chunk receives the cached
    vector, not the vector of its text, and the cache file stays. *)
Theorem generate_embeddings_stale_cache :
  let r := generate_embeddings (stage []) current_chunks stale_cache true in
  map text_hash current_chunks <> [digest "Bylaws of the sailing club."]
  /\ recomputed r = false
  /\ returned r = true
  /\ map embedding (chunks_after r) = [Some [0; 1]%float]
  /\ encode_all (stage []) (map text current_chunks) = Some [[1; 0]%float]
  /\ cache_after r = stale_cache.
Proof.
  vm_compute. repeat split; try reflexivity. intros H. discriminate H.
Qed.

(** ** Retrieval *)


Lemma valid_pairs_In (chunks : list DocumentChunk) (c : DocumentChunk) (e : vec) :
  In (c, e) (valid_pairs chunks) -> In c chunks /\ embedding c = Some e.
Proof.
  unfold valid_pairs. induction chunks as [|x xs IH]; cbn; [tauto|].
  destruct (embedding x) as [ex|] eqn:Hx; cbn.
  - intros [[= <- <-]|H]; [split; [left; reflexivity|assumption]|].
    destruct (IH H). split; [right|]; assumption.
  - intros H. destruct (IH H). split; [right|]; assumption.
Qed.

Lemma valid_pairs_length (chunks : list DocumentChunk) :
  length (valid_pairs chunks) <= length chunks.
Proof.
  unfold valid_pairs. induction chunks as [|x xs IH]; cbn; [lia|].
  destruct (embedding x); cbn; lia.
Qed.

Lemma strongly_sorted_drop {A} (R : A -> A -> Prop) (n : nat) (l : list A) :
  StronglySorted R l -> StronglySorted R (drop n l).
Proof.
  intros H. rewrite <- (take_drop n l) in H.
  apply StronglySorted_app in H. tauto.
Qed.

Lemma strongly_sorted_rev {A} (R : A -> A -> Prop) (l : list A) :
  StronglySorted R l -> StronglySorted (fun x y => R y x) (rev l).
Proof.
  induction 1 as [|x l Hl IH Hx]; cbn; [constructor|].
  apply StronglySorted_app. split; [|split; [assumption|repeat constructor]].
  intros x1 x2 H1 H2. apply list_elem_of_In in H1, H2.
  destruct H2 as [<-|[]]. apply in_rev in H1.
  rewrite Forall_forall in Hx. apply Hx. apply list_elem_of_In. assumption.
Qed.

Lemma strongly_sorted_without {A} (R : A -> A -> Prop) (a b : list A) (x : A) :
  StronglySorted R (a ++ x :: b) -> StronglySorted R (a ++ b).
Proof.
  rewrite !StronglySorted_app, StronglySorted_cons.
  intros (H1 & H2 & H3 & H4). split; [|tauto].
  intros x1 x2 Hx1 Hx2. apply H1; [assumption|]. right. assumption.
Qed.

Lemma at_indices_In (cl : list DocumentChunk) (idx : list nat) (c : DocumentChunk) :
  In c (at_indices cl idx) -> exists i, In i idx /\ cl !! i = Some c.
Proof.
  unfold at_indices. induction idx as [|i rest IH]; cbn; [tauto|].
  destruct (cl !! i) as [x|] eqn:Hx; cbn.
  - intros [<-|H]; [exists i; split; [left; reflexivity|assumption]|].
    destruct (IH H) as (j & Hj & Hc). exists j. split; [right|]; assumption.
  - intros H. destruct (IH H) as (j & Hj & Hc). exists j. split; [right|]; assumption.
Qed.

Lemma at_indices_length (cl : list DocumentChunk) (idx : list nat) :
  length (at_indices cl idx) <= length idx.
Proof.
  unfold at_indices. induction idx as [|i rest IH]; cbn; [lia|].
  destruct (cl !! i); cbn; lia.
Qed.

(** The loop keeps the order of [top_idx], never takes a hash twice, and
    takes chunks of [chunks_list] only. *)
Lemma select_spec (R : DocumentChunk -> DocumentChunk -> Prop)
    (cl : list DocumentChunk) (k : Z) (idx : list nat) :
  forall (sel : list DocumentChunk) (hs : gset string) (r : list DocumentChunk),
    select cl k idx sel hs = Some r ->
    (forall h, h ∈ hs <-> In h (map text_hash sel)) ->
    NoDup (map text_hash sel) ->
    StronglySorted R (sel ++ at_indices cl idx) ->
    NoDup (map text_hash r) /\ StronglySorted R r
    /\ length r <= length sel + length idx
    /\ (forall c, In c r -> In c sel \/ In c (at_indices cl idx)).
Proof.
  induction idx as [|i rest IH]; intros sel hs r Hsel Hhs Hnd Hss.
  - cbn in Hsel. injection Hsel as <-. cbn in Hss. rewrite app_nil_r in Hss.
    repeat split; try assumption; [lia|]. intros c Hc. left. assumption.
  - cbn [select] in Hsel. unfold at_indices in Hss. cbn [omap list_omap] in Hss.
    destruct (cl !! i) as [chunk|] eqn:Hi; [|discriminate].
    fold (at_indices cl rest) in Hss.
    assert (Hat : forall c, In c (at_indices cl rest) -> In c (at_indices cl (i :: rest))).
    { intros c Hc. unfold at_indices. cbn. rewrite Hi. right. exact Hc. }
    destruct (decide (text_hash chunk ∈ hs)) as [Hin|Hnin].
    + destruct (IH sel hs r Hsel Hhs Hnd) as (H1 & H2 & H3 & H4).
      { eapply strongly_sorted_without. exact Hss. }
      repeat split; try assumption; [cbn; lia|].
      intros c Hc. destruct (H4 c Hc); [left|right]; auto.
    + assert (Hnd' : NoDup (map text_hash (sel ++ [chunk]))).
      { rewrite map_app. cbn. apply NoDup_app. split; [assumption|]. split.
        - intros h Hh Hh'. apply list_elem_of_In in Hh, Hh'.
          destruct Hh' as [<-|[]]. apply Hnin. apply Hhs. assumption.
        - repeat constructor. intros H. apply list_elem_of_In in H. destruct H. }
      assert (Hss' : StronglySorted R ((sel ++ [chunk]) ++ at_indices cl rest)).
      { rewrite <- app_assoc. exact Hss. }
      destruct (k <=? Z.of_nat (length (sel ++ [chunk])))%Z.
      * injection Hsel as <-. repeat split.
        -- assumption.
        -- apply StronglySorted_app in Hss'. tauto.
        -- rewrite length_app. cbn. lia.
        -- intros c Hc. apply in_app_iff in Hc as [Hc|[<-|[]]]; [left; assumption|].
           right. unfold at_indices. cbn. rewrite Hi. left. reflexivity.
      * destruct (IH _ _ r Hsel) as (H1 & H2 & H3 & H4); try assumption.
        { intros h. rewrite map_app, in_app_iff, elem_of_union, elem_of_singleton.
          cbn. rewrite <- Hhs. intuition congruence. }
        repeat split; try assumption.
        -- rewrite length_app in H3. cbn in *. lia.
        -- intros c Hc. destruct (H4 c Hc) as [Hc'|Hc'].
           ++ apply in_app_iff in Hc' as [Hc'|[<-|[]]]; [left; assumption|].
              right. unfold at_indices. cbn. rewrite Hi. left. reflexivity.
           ++ right. auto.
Qed.

Lemma select_total (cl : list DocumentChunk) (k : Z) (idx : list nat) :
  Forall (fun i => i < length cl) idx ->
  forall sel hs, exists r, select cl k idx sel hs = Some r.
Proof.
  induction 1 as [|i rest Hi _ IH]; intros sel hs; cbn [select]; [eexists; reflexivity|].
  destruct (lookup_lt_is_Some_2 cl i Hi) as [chunk ->].
  destruct (decide (text_hash chunk ∈ hs)); [apply IH|].
  destruct (k <=? Z.of_nat (length (sel ++ [chunk])))%Z; [eexists; reflexivity|apply IH].
Qed.


Lemma lookup_map_fst {A B} (l : list (A * B)) (i : nat) (a : A) :
  map fst l !! i = Some a -> exists b, l !! i = Some (a, b).
Proof.
  revert i. induction l as [|[x y] l IH]; intros [|i]; cbn; try discriminate.
  - intros [= <-]. exists y. reflexivity.
  - apply IH.
Qed.

Lemma lookup_In {A} (l : list A) (i : nat) (a : A) : l !! i = Some a -> In a l.
Proof.
  revert i. induction l as [|x l IH]; intros [|i]; cbn; try discriminate.
  - intros [= <-]. left. reflexivity.
  - intros H. right. eapply IH. exact H.
Qed.

(** The chunk at an index of [chunks_list] is a chunk of the corpus with an
    embedding, and the similarity at that index is its score. *)
Lemma chunks_list_lookup (C : collaborators) (query_emb : vec)
    (chunks : list DocumentChunk) (sims : list float) (i : nat) (c : DocumentChunk) :
  similarities C query_emb chunks = Some sims ->
  map fst (valid_pairs chunks) !! i = Some c ->
  nth i sims 0%float = score C query_emb c
  /\ In c chunks
  /\ exists e, embedding c = Some e
               /\ cosine_similarity C query_emb e = Some (score C query_emb c).
Proof.
  intros Hs H. destruct (lookup_map_fst _ _ _ H) as [e He].
  destruct (valid_pairs_In chunks c e (lookup_In _ _ _ He)) as [Hc Hemb].
  apply mapM_Some_1 in Hs.
  destruct (Forall2_lookup_l _ _ _ _ _ Hs He) as (s & Hsi & Hse). cbn [snd] in Hse.
  assert (Hscore : score C query_emb c = s).
  { unfold score. rewrite Hemb, Hse. reflexivity. }
  rewrite Hscore. split; [|split; [exact Hc|exists e; split; assumption]].
  rewrite nth_lookup, Hsi. reflexivity.
Qed.

Lemma similarities_length (C : collaborators) (query_emb : vec)
    (chunks : list DocumentChunk) (sims : list float) :
  similarities C query_emb chunks = Some sims ->
  length sims = length (valid_pairs chunks).
Proof. intros H. symmetry. exact (length_mapM _ _ _ H). Qed.

Lemma sorted_at_indices (C : collaborators) (query_emb : vec)
    (chunks : list DocumentChunk) (sims : list float) (idx : list nat) :
  similarities C query_emb chunks = Some sims ->
  StronglySorted
    (fun i j => PrimFloat.leb (nth j sims 0%float) (nth i sims 0%float) = true) idx ->
  StronglySorted
    (fun c1 c2 => PrimFloat.leb (score C query_emb c2) (score C query_emb c1) = true)
    (at_indices (map fst (valid_pairs chunks)) idx).
Proof.
  intros Hs. induction 1 as [|i rest Hrest IH Hi]; [constructor|].
  unfold at_indices. cbn.
  destruct (map fst (valid_pairs chunks) !! i) as [c|] eqn:Hc; [|exact IH].
  cbn. constructor; [exact IH|].
  apply Forall_forall. intros c' Hc'. apply list_elem_of_In in Hc'.
  destruct (at_indices_In _ _ _ Hc') as (j & Hj & Hcj).
  rewrite Forall_forall in Hi. specialize (Hi j (proj2 (list_elem_of_In _ _) Hj)).
  destruct (chunks_list_lookup C query_emb chunks sims i c Hs Hc) as [E1 _].
  destruct (chunks_list_lookup C query_emb chunks sims j c' Hs Hcj) as [E2 _].
  rewrite <- E1, <- E2. exact Hi.
Qed.

(** With [top_k] at most one more than what is selected, the loop leaves
    at its first new chunk. *)
Lemma select_short (cl : list DocumentChunk) (k : Z) (idx : list nat) :
  forall (sel : list DocumentChunk) (hs : gset string) (r : list DocumentChunk),
    (k <= Z.of_nat (length sel) + 1)%Z ->
    select cl k idx sel hs = Some r -> length r <= length sel + 1.
Proof.
  induction idx as [|i rest IH]; intros sel hs r Hk; cbn [select].
  - intros [= <-]. lia.
  - destruct (cl !! i) as [chunk|]; [|discriminate].
    destruct (decide (text_hash chunk ∈ hs)); [apply IH; exact Hk|].
    destruct (k <=? Z.of_nat (length (sel ++ [chunk])))%Z eqn:E.
    + intros [= <-]. rewrite length_app. cbn. lia.
    + apply Z.leb_gt in E. rewrite length_app in E. cbn [length] in E. lia.
Qed.

Lemma drop_In {A} (n : nat) (l : list A) (x : A) : In x (drop n l) -> In x l.
Proof.
  revert n. induction l as [|y l IH]; intros [|n]; cbn; try tauto.
  intros H. right. eapply IH. exact H.
Qed.

Lemma slice_last_In {A} (k : Z) (l : list A) (x : A) :
  In x (Py.slice_last k l) -> In x l.
Proof. unfold Py.slice_last. destruct (0 <? k)%Z; apply drop_In. Qed.

Lemma slice_last_length {A} (k : Z) (l : list A) :
  (1 <= k)%Z -> length (Py.slice_last k l) <= Z.to_nat k
                /\ length (Py.slice_last k l) <= length l.
Proof.
  intros Hk. unfold Py.slice_last.
  destruct (0 <? k)%Z eqn:E; [|apply Z.ltb_ge in E; lia].
  rewrite length_drop. lia.
Qed.

Lemma slice_to_length {A} (k : Z) (l : list A) :
  (0 <= k)%Z -> Py.slice_to k l = take (Z.to_nat k) l
                /\ (Z.of_nat (length (Py.slice_to k l)) <= Z.min k (Z.of_nat (length l)))%Z.
Proof.
  intros Hk. unfold Py.slice_to.
  destruct (0 <=? k)%Z eqn:E; [|apply Z.leb_gt in E; lia].
  split; [reflexivity|]. rewrite length_take. lia.
Qed.

(** C5, amended: with [numpy.argsort] returning the indices in ascending
    order of similarity, for every [top_k]. When the query cannot be
    embedded, no chunk is embedded, or the similarity computation raises,
    [find_relevant_chunks] returns [chunks[:top_k]]: the first [top_k]
    chunks of the corpus as they are. Otherwise it returns embedded chunks
    of the corpus, no two with the same content hash, in non-increasing
    order of cosine similarity to the query, and one at most for
    [top_k <= 1]. For [top_k >= 1] it returns at most min(top_k, number of
    chunks) items. *)
Theorem find_relevant_chunks_ranked (C : collaborators) (query : string)
    (chunks : list DocumentChunk) (top_k : Z) :
  (forall query_emb sims,
     encode C (JStr query) = Some query_emb ->
     similarities C query_emb chunks = Some sims ->
     Permutation (argsort C sims) (seq 0 (length sims))
     /\ StronglySorted
          (fun i j => PrimFloat.leb (nth i sims 0%float) (nth j sims 0%float) = true)
          (argsort C sims)) ->
  let r := find_relevant_chunks C query chunks top_k in
  ((1 <= top_k)%Z ->
   (Z.of_nat (length r) <= Z.min top_k (Z.of_nat (length chunks)))%Z)
  /\ (encode C (JStr query) = None \/ valid_pairs chunks = []
      \/ (exists query_emb, encode C (JStr query) = Some query_emb
                            /\ similarities C query_emb chunks = None) ->
      r = Py.slice_to top_k chunks
      /\ ((0 <= top_k)%Z -> r = take (Z.to_nat top_k) chunks))
  /\ (forall query_emb sims,
        encode C (JStr query) = Some query_emb -> valid_pairs chunks <> [] ->
        similarities C query_emb chunks = Some sims ->
        NoDup (map text_hash r)
        /\ StronglySorted
             (fun c1 c2 => PrimFloat.leb (score C query_emb c2) (score C query_emb c1)
                           = true) r
        /\ Forall (fun c => In c chunks
                            /\ exists e, embedding c = Some e
                                 /\ cosine_similarity C query_emb e
                                    = Some (score C query_emb c)) r
        /\ ((top_k <= 1)%Z -> length r <= 1)).
Proof.
  intros Hsort r. subst r. unfold find_relevant_chunks.
  assert (Hfall : ((1 <= top_k)%Z ->
                   (Z.of_nat (length (Py.slice_to top_k chunks))
                    <= Z.min top_k (Z.of_nat (length chunks)))%Z)
                  /\ (Py.slice_to top_k chunks = Py.slice_to top_k chunks
                      /\ ((0 <= top_k)%Z ->
                          Py.slice_to top_k chunks = take (Z.to_nat top_k) chunks))).
  { split; [intros Hk; apply slice_to_length; lia|].
    split; [reflexivity|]. intros Hk. apply slice_to_length. exact Hk. }
  destruct Hfall as [Hfl Hfs].
  destruct (encode C (JStr query)) as [qe|] eqn:He.
  2:{ split; [exact Hfl|]. split; [intros _; exact Hfs|]. intros ? ? [=]. }
  destruct (valid_pairs chunks) as [|p valid'] eqn:Hv.
  { split; [exact Hfl|]. split; [intros _; exact Hfs|]. intros ? ? _ H. contradiction. }
  rewrite <- Hv. fold (similarities C qe chunks).
  destruct (similarities C qe chunks) as [sims|] eqn:Hs.
  2:{ split; [exact Hfl|]. split; [intros _; exact Hfs|].
      intros qe' sims' Hq _ H. injection Hq as <-. congruence. }
  destruct (Hsort qe sims eq_refl Hs) as [Hperm Hss].
  set (cl := map fst (valid_pairs chunks)).
  set (top_idx := rev (Py.slice_last top_k (argsort C sims))).
  assert (Hlen : length cl = length sims).
  { unfold cl. rewrite length_map. symmetry. apply (similarities_length C qe). exact Hs. }
  assert (Hvalid : Forall (fun i => i < length cl) top_idx).
  { apply Forall_forall. intros i Hi. apply list_elem_of_In in Hi.
    unfold top_idx in Hi. apply in_rev, slice_last_In in Hi.
    apply (Permutation_in _ Hperm), in_seq in Hi. lia. }
  destruct (select_total cl top_k top_idx Hvalid [] ∅) as [r Hr]. rewrite Hr.
  destruct (select_spec
              (fun c1 c2 => PrimFloat.leb (score C qe c2) (score C qe c1) = true)
              cl top_k top_idx [] ∅ r Hr) as (Hnd & Hsorted & Hlr & Hin).
  { intros h. cbn. rewrite elem_of_empty. tauto. }
  { constructor. }
  { cbn. apply (sorted_at_indices C qe chunks sims); [exact Hs|]. unfold top_idx.
    apply (strongly_sorted_rev
             (fun i j => PrimFloat.leb (nth i sims 0%float) (nth j sims 0%float) = true)).
    unfold Py.slice_last. destruct (0 <? top_k)%Z; apply strongly_sorted_drop; exact Hss. }
  split; [|split].
  - intros Hk. cbn [length Nat.add] in Hlr. unfold top_idx in Hlr.
    rewrite length_rev in Hlr.
    destruct (slice_last_length top_k (argsort C sims) Hk) as [H1 H2].
    rewrite (Permutation_length Hperm), length_seq in H2.
    pose proof (valid_pairs_length chunks) as H3.
    pose proof (similarities_length C qe chunks sims Hs) as H4.
    lia.
  - intros [H|[H|(qe' & [= <-] & H)]]; [discriminate H| |congruence].
    rewrite Hv in H. discriminate H.
  - intros qe' sims' Hq _ Hs'.
    assert (qe' = qe) by congruence. assert (sims' = sims) by congruence.
    subst qe' sims'. split; [exact Hnd|]. split; [exact Hsorted|].
    split.
    + apply Forall_forall. intros c Hc. apply list_elem_of_In in Hc.
      destruct (Hin c Hc) as [[]|Hc'].
      destruct (at_indices_In cl top_idx c Hc') as (i & _ & Hi).
      destruct (chunks_list_lookup C qe chunks sims i c Hs Hi) as (_ & H1 & H2).
      split; assumption.
    + intros Hk. apply (select_short cl top_k top_idx [] ∅ r); [cbn; lia|exact Hr].
Qed.

(** C5, as stated, fails: two chunks with the same text, not embedded, are
    both returned for [top_k = 2]: the same content hash twice. *)
Lemma same_hash_returned_twice :
  let r := find_relevant_chunks (stage []) "A query on scoring" [plain_a; plain_a'] 2 in
  r = [plain_a; plain_a'] /\ ~ NoDup (map text_hash r).
Proof.
  vm_compute. split; [reflexivity|].
  intros H. inversion H as [|? ? Hn _]. apply Hn. left.
Qed.

(** With [top_k = 0] the slice [[-0:]] is the whole ranking, and the loop
    takes one chunk before its [break]. *)
Example top_k_zero :
  map text (find_relevant_chunks (stage []) "A query on scoring" [chunk_b; chunk_a] 0)
  = ["Article 5 prohibits social scoring."].
Proof. vm_compute. reflexivity. Qed.

(** The fallback on a failing similarity computation: a cache of
    vectors of three entries has embedded two chunks with the same text,
    the query has a vector of two entries, [cosine_similarity] raises, and
    both chunks are returned as they are. *)
Example similarity_failure_returns_prefix :
  map embedding cached_3d = [Some [1; 0; 0]%float; Some [1; 0; 0]%float]
  /\ encode (stage []) (JStr "A query on scoring") = Some [1; 0]%float
  /\ similarities (stage []) [1; 0]%float cached_3d = None
  /\ find_relevant_chunks (stage []) "A query on scoring" cached_3d 2 = cached_3d
  /\ map text_hash cached_3d
     = [digest "Article 5 prohibits social scoring.";
        digest "Article 5 prohibits social scoring."].
Proof. vm_compute. repeat split; reflexivity. Qed.

(** A witness of [find_relevant_chunks_ranked]: three embedded chunks, two
    of them with the same text, and [top_k = 3]; the better of the two
    equal ones comes first, its twin is left out, and the third follows. *)
Lemma find_relevant_chunks_ranked_witness :
  let r := find_relevant_chunks (stage []) "A query on scoring"
             [chunk_b; chunk_a; chunk_a'] 3 in
  r = [chunk_a'; chunk_b]
  /\ (Z.of_nat (length r) <= Z.min 3 3)%Z
  /\ NoDup (map text_hash r)
  /\ StronglySorted
       (fun c1 c2 => PrimFloat.leb (score (stage []) [1; 0]%float c2)
                       (score (stage []) [1; 0]%float c1) = true) r.
Proof.
  intros r. split; [vm_compute; reflexivity|].
  destruct (find_relevant_chunks_ranked (stage []) "A query on scoring"
              [chunk_b; chunk_a; chunk_a'] 3) as (Hlen & _ & Hrank).
  - intros query_emb sims H Hs. vm_compute in H. injection H as <-.
    vm_compute in Hs. injection Hs as <-.
    vm_compute. split; [reflexivity|]. repeat constructor.
  - destruct (Hrank [1; 0]%float [0; 1; 1]%float) as (Hnd & Hss & _).
    + vm_compute. reflexivity.
    + vm_compute. discriminate.
    + vm_compute. reflexivity.
    + split; [apply Hlen; lia|]. split; assumption.
Defined.
(** ** The prohibited-practice detectors *)

(** Detector 1 is the conjunction of its three signals. *)
Lemma detect_realtime_biometric_fires (desc_lower : string) :
  detect_realtime_biometric desc_lower <> []
  <-> has_realtime desc_lower = true /\ has_biometric desc_lower = true
      /\ has_public desc_lower = true.
Proof.
  unfold detect_realtime_biometric.
  destruct (has_realtime desc_lower), (has_biometric desc_lower),
    (has_public desc_lower); cbn [andb]; split;
    try (intros (? & ? & ?); discriminate); try (intros H; contradiction);
    try (intros _ H; discriminate H).
  intros _. repeat split.
Qed.

(** C1, as stated, fails: on the description with the train stations the
    real-time and the biometric signals are there, no public-space
    indicator is, detector 1 does not fire and [is_prohibited] is false. *)
Lemma train_stations_not_prohibited :
  ~ (detect_realtime_biometric (Py.lower train_stations) <> []
     /\ exists report m,
          process_initial_description train_stations start
          = (Return (report, true), m)).
Proof.
  intros [_ (report & m & H)]. vm_compute in H. discriminate H.
Qed.

(** C1, amended: on the description with the train stations the real-time
    and biometric signals hold and the public-space signal does not; no
    detector fires, the advisor is left as it was and [is_prohibited] is
    false. With [transport hubs] in place of [train stations], detector 1
    alone fires (CRITICAL, Article 5(1)(d)), the description becomes the
    pending one and [is_prohibited] is true. *)
Theorem process_initial_description_stations (m : machine) :
  (has_realtime (Py.lower train_stations) = true
   /\ has_biometric (Py.lower train_stations) = true
   /\ has_public (Py.lower train_stations) = false
   /\ prohibited_detections train_stations = []
   /\ process_initial_description train_stations m
      = (Return (no_violation_message, false), m))
  /\ (map (fun d => (dtype d, article d, severity d))
        (prohibited_detections transport_hubs)
      = [("Real-Time Remote Biometric Identification in Public Spaces",
          "Article 5(1)(d)", "CRITICAL")]
      /\ process_initial_description transport_hubs m
         = (Return (warning_report (prohibited_detections transport_hubs), true),
            with_self (set_pending_description transport_hubs (self m)) m)).
Proof.
  assert (Hs : prohibited_detections train_stations = []) by (vm_compute; reflexivity).
  split.
  - repeat split; try assumption; try (vm_compute; reflexivity).
  - split; [vm_compute; reflexivity|].
    unfold process_initial_description.
    destruct (prohibited_detections transport_hubs) eqn:Hd.
    + vm_compute in Hd. discriminate Hd.
    + reflexivity.
Qed.


(** The two other scenarios of the specification: compliance vocabulary
    suppresses detector 2, and the chatbot fires no detector. *)
Example hiring_tool_not_prohibited :
  prohibited_detections
    "Our hiring tool scores candidates using a trained classifier; no demographic categorization is performed, and we prevent bias via a balanced dataset"
  = [].
Proof. vm_compute. reflexivity. Qed.

Example chatbot_not_prohibited (m : machine) :
  process_initial_description chatbot m = (Return (no_violation_message, false), m).
Proof.
  unfold process_initial_description.
  replace (prohibited_detections chatbot) with (@nil detection) by (vm_compute; reflexivity).
  reflexivity.
Qed.

(** ** The interview: what each method leaves behind *)



Ltac run :=
  unfold bind, ret, lift, raise, catch, get_self, update_self, llm_chat;
  cbn [self with_self llm_log with_log self_id now fst snd].

Lemma generate_final_analysis_returns (C : collaborators) (m : machine) :
  exists report info,
    generate_final_analysis C m
    = (Return report,
       with_log (report_request (set_relevant_articles info (self m)) info :: llm_log m)
         (with_self (set_relevant_articles info (self m)) m)).
Proof.
  unfold generate_final_analysis. run.
  match goal with
  | |- context [chat C ?l ?c] => destruct (chat C l c) as [r|e]
  end; eexists; eexists; reflexivity.
Qed.

Lemma first_fresh_In (C : collaborators) (a : advisor) (qs : list string) (q : string) :
  first_fresh C a qs = Some q -> In q qs.
Proof.
  induction qs as [|x xs IH]; simpl; [discriminate|].
  destruct (is_duplicate_question C a (JStr x)).
  - intros H. right. auto.
  - intros [= ->]. left. reflexivity.
Qed.

Lemma fallbacks_truthy (q : string) : In q fallbacks -> truthy (JStr q) = true.
Proof.
  unfold fallbacks. simpl. intros H.
  repeat (destruct H as [<-|H]; [reflexivity|]). destruct H.
Qed.

(** What [_generate_question] leaves behind. *)
Lemma generate_question_cases (C : collaborators) (m : machine)
    (o : outcome json) (m' : machine) :
  generate_question C m = (o, m') ->
  interview_history (self m') = interview_history (self m)
  /\ ((asked_questions_texts (self m') = asked_questions_texts (self m)
       /\ forall a, o = Return a ->
            exists v, dict_get a "next_question" JNull = Return v /\ truthy v = false)
      \/ (exists q a,
            asked_questions_texts (self m') = asked_questions_texts (self m) ++ [q]
            /\ o = Return a
            /\ dict_get a "next_question" JNull = Return q /\ truthy q = true)).
Proof.
  unfold generate_question. run.
  destruct (chat C (llm_log m) (question_request C (self m))) as [response|e].
  2:{ intros [= <- <-]. split; [reflexivity|]. left. split; [reflexivity|].
      intros a [=]. }
  destruct (json_loads C (Py.strip (unfence response))) as [data|].
  - destruct (dict_get data "next_question" JNull) as [nq|e] eqn:Hnq.
    2:{ intros [= <- <-]. split; [reflexivity|]. left. split; [reflexivity|].
        intros a [=]. }
    cbn [self with_self llm_log with_log].
    destruct (truthy nq) eqn:Ht.
    + destruct (is_duplicate_question C (self m) nq).
      * destruct data; try discriminate Hnq. cbn [dict_get].
        intros [= <- <-]. split; [reflexivity|]. left. split; [reflexivity|].
        intros a [= <-]. exists JNull. split; reflexivity.
      * intros [= <- <-]. split; [reflexivity|]. right.
        exists nq, data. repeat split; assumption.
    + intros [= <- <-]. split; [reflexivity|]. left. split; [reflexivity|].
      intros a [= <-]. exists nq. split; assumption.
  - unfold generate_fallback_question. run.
    destruct (first_fresh C (self m) fallbacks) as [q|] eqn:Hq.
    + run. intros [= <- <-]. split; [reflexivity|]. right.
      exists (JStr q). eexists. repeat split.
      apply fallbacks_truthy. eapply first_fresh_In; eassumption.
    + intros [= <- <-]. split; [reflexivity|]. left. split; [reflexivity|].
      intros a [= <-]. exists JNull. split; reflexivity.
Qed.

Lemma ask_next_question_unfold (C : collaborators) (m : machine) :
  ask_next_question C m =
  match generate_question C m with
  | (Raise e, m1) => (Raise e, m1)
  | (Return a, m1) =>
      match should_conclude (self m1) a with
      | Raise e => (Raise e, m1)
      | Return true => finish C m1
      | Return false =>
          match dict_get a "next_question" JNull with
          | Raise e => (Raise e, m1)
          | Return next_q =>
              if truthy next_q then
                match strip_value next_q with
                | Return q => (Return (q, false), m1)
                | Raise e => (Raise e, m1)
                end
              else finish C m1
          end
      end
  end.
Proof.
  unfold ask_next_question, finish. run.
  destruct (generate_question C m) as [[a|e] m1]; [|reflexivity].
  destruct (should_conclude (self m1) a) as [[|]|e]; try reflexivity.
  destruct (dict_get a "next_question" JNull) as [nq|e]; [|reflexivity].
  destruct (truthy nq); cbn [negb]; [|reflexivity].
  destruct (strip_value nq); reflexivity.
Qed.

Lemma finish_spec (C : collaborators) (m : machine) :
  exists report info,
    finish C m
    = (Return (report, true),
       with_log (report_request (set_relevant_articles info (self m)) info :: llm_log m)
         (with_self (set_relevant_articles info (self m)) m)).
Proof.
  unfold finish. destruct (generate_final_analysis_returns C m) as (r & info & ->).
  exists r, info. reflexivity.
Qed.

Lemma process_answer_unfold (C : collaborators) (answer question : string) (m : machine) :
  process_answer C answer question m =
  if (length (Py.split answer) <? 3)%nat
     && (MIN_QUESTIONS <=? length (interview_history (self m)))%nat
  then finish C m
  else ask_next_question C
         (with_self (append_history {| question := question; answer := answer |} (self m)) m).
Proof.
  unfold process_answer, finish. run.
  destruct ((length (Py.split answer) <? 3)%nat
            && (MIN_QUESTIONS <=? length (interview_history (self m)))%nat).
  - reflexivity.
  - reflexivity.
Qed.


Lemma should_conclude_early (a : advisor) (assessment : json) :
  length (interview_history a) < MIN_QUESTIONS ->
  should_conclude a assessment = Return false.
Proof.
  intros H. unfold should_conclude.
  apply Nat.ltb_lt in H. rewrite H. reflexivity.
Qed.

Lemma should_conclude_late (a : advisor) (assessment : json) :
  MAX_QUESTIONS <= length (interview_history a) ->
  should_conclude a assessment = Return true.
Proof.
  intros H. unfold should_conclude.
  destruct (length (interview_history a) <? MIN_QUESTIONS)%nat eqn:E.
  - apply Nat.ltb_lt in E. unfold MIN_QUESTIONS, MAX_QUESTIONS in *. lia.
  - apply Nat.leb_le in H. rewrite H. reflexivity.
Qed.

(** What a call of [ask_next_question] leaves behind: the history as it
    was; at most one more asked question, and exactly the question it
    surfaces when it surfaces one. *)
Lemma ask_next_question_effect (C : collaborators) (m : machine)
    (o : outcome (string * bool)) (m' : machine) :
  ask_next_question C m = (o, m') ->
  interview_history (self m') = interview_history (self m)
  /\ (asked_questions_texts (self m') = asked_questions_texts (self m)
      \/ exists q, asked_questions_texts (self m')
                   = asked_questions_texts (self m) ++ [q])
  /\ (forall s, o = Return (s, false) ->
        exists q, asked_questions_texts (self m')
                  = asked_questions_texts (self m) ++ [JStr q]
                  /\ s = Py.strip q).
Proof.
  rewrite ask_next_question_unfold.
  destruct (generate_question C m) as [[a|e] m1] eqn:Hg;
    destruct (generate_question_cases C m _ _ Hg) as [Hh Ha].
  2:{ intros [= <- <-]. split; [assumption|]. split.
      - destruct Ha as [[Ha _]|(q & a & Ha & _)]; [left|right; exists q]; assumption.
      - intros s [=]. }
  assert (Hgrow : asked_questions_texts (self m1) = asked_questions_texts (self m)
                  \/ exists q, asked_questions_texts (self m1)
                               = asked_questions_texts (self m) ++ [q]).
  { destruct Ha as [[Ha _]|(q & a' & Ha & _)]; [left|right; exists q]; assumption. }
  assert (Hfin : forall o m', finish C m1 = (o, m') ->
            interview_history (self m') = interview_history (self m)
            /\ (asked_questions_texts (self m') = asked_questions_texts (self m)
                \/ exists q, asked_questions_texts (self m')
                             = asked_questions_texts (self m) ++ [q])
            /\ (forall s, o = Return (s, false) ->
                  exists q, asked_questions_texts (self m')
                            = asked_questions_texts (self m) ++ [JStr q]
                            /\ s = Py.strip q)).
  { intros o0 m0. destruct (finish_spec C m1) as (r & info & ->).
    intros [= <- <-]. cbn. split; [assumption|]. split; [assumption|].
    intros s [=]. }
  destruct (should_conclude (self m1) a) as [[|]|e].
  - apply Hfin.
  - destruct (dict_get a "next_question" JNull) as [nq|e] eqn:Hnq.
    2:{ intros [= <- <-]. split; [assumption|]. split; [assumption|]. intros s [=]. }
    destruct (truthy nq) eqn:Ht; [|apply Hfin].
    destruct Ha as [[_ Ha]|(q & a' & Ha & [= <-] & Hq & _)].
    { destruct (Ha a eq_refl) as (v & Hv & Hf). congruence. }
    assert (q = nq) by congruence. subst q.
    destruct nq as [| | | |s0| |]; cbn [strip_value];
      intros [= <- <-]; (split; [assumption|]); (split; [right; eexists; eassumption|]);
      intros s; try discriminate.
    intros [= <-]. exists s0. split; [assumption|reflexivity].
  - intros [= <- <-]. split; [assumption|]. split; [assumption|]. intros s [=].
Qed.

(** [process_answer] appends at most one entry to the history. *)
Lemma perform_effect (C : collaborators) (c : call) (m : machine)
    (o : outcome (string * bool)) (m' : machine) :
  perform C c m = (o, m') ->
  (interview_history (self m') = interview_history (self m)
   \/ interview_history (self m') = interview_history (self (entering c m)))
  /\ (asked_questions_texts (self m') = asked_questions_texts (self m)
      \/ exists q, asked_questions_texts (self m')
                   = asked_questions_texts (self m) ++ [q])
  /\ (forall s, o = Return (s, false) ->
        interview_history (self m') = interview_history (self (entering c m))
        /\ exists q, asked_questions_texts (self m')
                     = asked_questions_texts (self m) ++ [JStr q]
                     /\ s = Py.strip q).
Proof.
  destruct c as [|ans qu]; cbn [perform entering].
  - intros H. destruct (ask_next_question_effect C m o m' H) as (Hh & Ha & Hs).
    split; [left; assumption|]. split; [assumption|].
    intros s Ho. split; [assumption|]. apply Hs. assumption.
  - rewrite process_answer_unfold.
    destruct ((length (Py.split ans) <? 3)%nat
              && (MIN_QUESTIONS <=? length (interview_history (self m)))%nat).
    + destruct (finish_spec C m) as (r & info & ->). intros [= <- <-]. cbn.
      split; [left; reflexivity|]. split; [left; reflexivity|]. intros s [=].
    + intros H.
      destruct (ask_next_question_effect C _ o m' H) as (Hh & Ha & Hs).
      cbn in Hh, Ha, Hs.
      split; [right; assumption|]. split; [assumption|].
      intros s Ho. split; [assumption|]. apply Hs. assumption.
Qed.


(** A call that surfaces a question found [_should_conclude] false. *)
Lemma question_not_concluded (C : collaborators) (c : call) (m : machine)
    (s : string) (m' : machine) :
  perform C c m = (Return (s, false), m') ->
  length (interview_history (self m')) < MAX_QUESTIONS.
Proof.
  intros H.
  assert (Hask : ask_next_question C (entering c m) = (Return (s, false), m')).
  { destruct c as [|ans qu]; cbn [perform entering] in *; [assumption|].
    rewrite process_answer_unfold in H.
    destruct ((length (Py.split ans) <? 3)%nat
              && (MIN_QUESTIONS <=? length (interview_history (self m)))%nat).
    - destruct (finish_spec C m) as (r & info & Hf). rewrite Hf in H. discriminate H.
    - assumption. }
  destruct (ask_next_question_effect C _ _ _ Hask) as (Hh & _ & _).
  rewrite ask_next_question_unfold in Hask.
  destruct (generate_question C (entering c m)) as [[a|e] m1] eqn:Hg; [|discriminate].
  destruct (generate_question_cases C _ _ _ Hg) as [Hh1 _].
  destruct (Nat.lt_ge_cases (length (interview_history (self m'))) MAX_QUESTIONS)
    as [|Hge]; [assumption|exfalso].
  rewrite Hh, <- Hh1 in Hge.
  rewrite (should_conclude_late _ a Hge) in Hask.
  destruct (finish_spec C m1) as (r & info & Hf). rewrite Hf in Hask. discriminate.
Qed.


(** ** The interview *)

(** C3, as stated, fails: the first answer, of six words, is appended to an
    empty history, the service proposes no further question, and
    [process_answer] returns the report with [done = True] on a history of
    one entry. *)
Lemma conclusion_after_one_answer :
  exists report m',
    process_answer (stage [Return ready_null; Return "The report."])
      long_answer (question_no 0) (described chatbot)
    = (Return (report, true), m')
    /\ length (interview_history (self m')) = 1
    /\ (length (Py.split long_answer) <? 3)%nat = false.
Proof.
  eexists. eexists. vm_compute. repeat split.
Qed.

(** C3, amended: while [interview_history] has fewer than MIN_QUESTIONS
    entries [_should_conclude] is false, and a call of [ask_next_question]
    or [process_answer] that returns [done = True] there went through
    question generation (the short-answer exit did not fire) and received
    an assessment whose [next_question] is [None], empty or otherwise
    false. *)
Theorem early_conclusion_without_question (C : collaborators) (c : call)
    (m : machine) (report : string) (m' : machine) :
  perform C c m = (Return (report, true), m') ->
  length (interview_history (self m')) < MIN_QUESTIONS ->
  perform C c m = ask_next_question C (entering c m)
  /\ exists assessment m1 v,
       generate_question C (entering c m) = (Return assessment, m1)
       /\ should_conclude (self m1) assessment = Return false
       /\ dict_get assessment "next_question" JNull = Return v
       /\ truthy v = false.
Proof.
  intros H Hlen.
  assert (Hask : perform C c m = ask_next_question C (entering c m)).
  { destruct c as [|ans qu]; cbn [perform entering] in *; [reflexivity|].
    rewrite process_answer_unfold in *.
    destruct ((length (Py.split ans) <? 3)%nat
              && (MIN_QUESTIONS <=? length (interview_history (self m)))%nat) eqn:E;
      [|reflexivity].
    exfalso. apply andb_true_iff in E as [_ E]. apply Nat.leb_le in E.
    destruct (finish_spec C m) as (r & info & Hf). rewrite Hf in H.
    injection H as _ <-. cbn in Hlen. lia. }
  split; [assumption|]. rewrite Hask in H.
  destruct (ask_next_question_effect C _ _ _ H) as (Hh & _ & _).
  rewrite ask_next_question_unfold in H.
  destruct (generate_question C (entering c m)) as [[a|e] m1] eqn:Hg; [|discriminate].
  destruct (generate_question_cases C _ _ _ Hg) as [Hh1 _].
  assert (Hsc : should_conclude (self m1) a = Return false).
  { apply should_conclude_early. rewrite Hh1, <- Hh. assumption. }
  rewrite Hsc in H.
  destruct (dict_get a "next_question" JNull) as [nq|e] eqn:Hnq; [|discriminate].
  destruct (truthy nq) eqn:Ht.
  - destruct (strip_value nq); discriminate.
  - exists a, m1, nq. repeat split; assumption.
Qed.

(** A witness of [early_conclusion_without_question]: the first answer,
    after which the service proposes no question. *)
Lemma early_conclusion_without_question_witness :
  exists report m',
    perform (stage [Return ready_null; Return "The report."])
      (Answer long_answer (question_no 0)) (described chatbot)
    = (Return (report, true), m')
    /\ exists assessment m1 v,
         generate_question (stage [Return ready_null; Return "The report."])
           (entering (Answer long_answer (question_no 0)) (described chatbot))
         = (Return assessment, m1)
         /\ should_conclude (self m1) assessment = Return false
         /\ dict_get assessment "next_question" JNull = Return v
         /\ truthy v = false.
Proof.
  eexists. eexists. split; [vm_compute; reflexivity|].
  eapply early_conclusion_without_question.
  - vm_compute. reflexivity.
  - vm_compute. lia.
Defined.

(** C4, as stated, fails: fourteen answers bring the history to fourteen
    entries; the fifteenth is appended and the service times out, so the
    call raises instead of concluding; the shell goes on, the user answers
    again, and the history has sixteen entries. *)
Lemma history_exceeds_max_after_timeout :
  let script :=
    map (fun i => Return (asks i)) (seq 0 15)
    ++ [Raise TimeoutError; Return (asks 15); Return "The report."] in
  let calls := Ask :: answers 15 ++ [Answer long_answer (question_no 14)] in
  let run := consult (stage script) calls (described chatbot) in
  map is_return run.1 = repeat true 15 ++ [false; true]
  /\ surfaced run.1 = 15
  /\ length (interview_history (self run.2)) = 16
  /\ MAX_QUESTIONS < length (interview_history (self run.2)).
Proof.
  vm_compute. repeat split. lia.
Qed.

Lemma interview_bounded_from (C : collaborators) (calls : list call) (m : machine) :
  length (interview_history (self m)) < MAX_QUESTIONS ->
  Forall (fun c => is_answer c = true) calls ->
  length (interview C calls m).1 + length (interview_history (self m)) <= MAX_QUESTIONS
  /\ length (interview_history (self (interview C calls m).2)) <= MAX_QUESTIONS
  /\ (MAX_QUESTIONS <= length calls + length (interview_history (self m)) ->
      exists o, last (interview C calls m).1 = Some o /\ is_question o = false).
Proof.
  revert m. induction calls as [|c rest IH]; intros m Hm Hc.
  - cbn. repeat split; try lia.
  - inversion Hc as [|? ? Hans Hrest]; subst.
    cbn [interview]. destruct (perform C c m) as [o m1] eqn:Hp.
    destruct (perform_effect C c m o m1 Hp) as (Hh & _ & Hs).
    assert (Hent : length (interview_history (self (entering c m)))
                   = S (length (interview_history (self m)))).
    { destruct c; [discriminate|]. cbn. rewrite length_app. cbn. lia. }
    destruct (is_question o) eqn:Hq.
    + destruct o as [[s [|]]|e]; try discriminate.
      destruct (Hs s eq_refl) as [Hh1 _].
      pose proof (question_not_concluded C c m s m1 Hp) as Hlt.
      specialize (IH m1 Hlt Hrest).
      destruct (interview C rest m1) as [os m2]. cbn [fst snd] in *.
      destruct IH as (IH1 & IH2 & IH3).
      rewrite Hh1, Hent in IH1, IH3. cbn [length].
      repeat split; [lia|assumption|].
      intros Hge. destruct IH3 as (o' & Hl & Hq'); [lia|].
      exists o'. split; [|assumption].
      destruct os; [discriminate|]. exact Hl.
    + cbn [fst snd length]. repeat split; try lia.
      * destruct Hh as [-> | ->]; lia.
      * intros _. exists o. split; [reflexivity|assumption].
Qed.

(** C4, amended: a call that surfaces a question leaves fewer than
    MAX_QUESTIONS entries, so a consultation from an empty history, taken up
    to its conclusion or first exception, makes at most MAX_QUESTIONS calls
    of [process_answer], never has more than MAX_QUESTIONS entries, and its
    MAX_QUESTIONS-th call, if it comes to it, concludes or raises. *)
Theorem interview_bounded (C : collaborators) (calls : list call) (m : machine) :
  interview_history (self m) = [] ->
  Forall (fun c => is_answer c = true) calls ->
  length (interview C calls m).1 <= MAX_QUESTIONS
  /\ length (interview_history (self (interview C calls m).2)) <= MAX_QUESTIONS
  /\ (MAX_QUESTIONS <= length calls ->
      exists o, last (interview C calls m).1 = Some o /\ is_question o = false)
  /\ (forall c m0 r d m1,
        perform C c m0 = (Return (r, d), m1) ->
        MAX_QUESTIONS <= length (interview_history (self m1)) -> d = true).
Proof.
  intros Hm Hc.
  destruct (interview_bounded_from C calls m) as (H1 & H2 & H3).
  { rewrite Hm. cbn. unfold MAX_QUESTIONS. lia. }
  { assumption. }
  rewrite Hm in H1, H3. cbn [length] in H1, H3.
  repeat split; [lia|assumption|intros; apply H3; lia|].
  intros c m0 r [|] m1 Hp Hge; [reflexivity|].
  pose proof (question_not_concluded C c m0 r m1 Hp). lia.
Qed.


(** A witness of [interview_bounded]: the service asks a new question after
    each of fourteen answers and again after the fifteenth, which then
    concludes all the same. *)
Lemma interview_bounded_witness :
  let C := stage (map (fun i => Return (asks (S i))) (seq 0 15) ++ [Return "The report."]) in
  length (interview C (answers 15) (described chatbot)).1 <= MAX_QUESTIONS
  /\ length (interview_history (self (interview C (answers 15) (described chatbot)).2))
     <= MAX_QUESTIONS
  /\ (MAX_QUESTIONS <= length (answers 15) ->
      exists o, last (interview C (answers 15) (described chatbot)).1 = Some o
                /\ is_question o = false).
Proof.
  intros C.
  destruct (interview_bounded C (answers 15) (described chatbot)) as (H1 & H2 & H3 & _).
  - reflexivity.
  - vm_compute. repeat constructor.
  - repeat split; assumption.
Defined.

Example interview_of_fifteen_answers :
  let C := stage (map (fun i => Return (asks (S i))) (seq 0 15) ++ [Return "The report."]) in
  map is_question (interview C (answers 15) (described chatbot)).1
  = repeat true 14 ++ [false]
  /\ last (interview C (answers 15) (described chatbot)).1
     = Some (Return ("The report.", true))
  /\ length (interview_history (self (interview C (answers 15) (described chatbot)).2)) = 15.
Proof. vm_compute. repeat split. Qed.

(** C8, as stated, fails: three questions are surfaced and answered; after
    the third answer the service is ready to conclude and still proposes a
    question, which is appended to [asked_questions_texts] before the call
    concludes with the report: four asked questions, three surfaced. *)
Lemma asked_exceeds_surfaced :
  let script :=
    [ Return (asks 0); Return (asks 1); Return (asks 2);
      Return (ready_asking 3); Return "The report." ] in
  let run := consult (stage script) (Ask :: answers 3) (described chatbot) in
  surfaced run.1 = 3
  /\ length (asked_questions_texts (self run.2)) = 4
  /\ last run.1 = Some (Return ("The report.", true))
  /\ ~ length (asked_questions_texts (self run.2)) <= surfaced run.1.
Proof.
  vm_compute. repeat split. lia.
Qed.

(** C8, amended: over any sequence of calls, every call that surfaces a
    question has appended it, and a call appends at most one question, also
    one that its conclusion or an exception then swallows: the questions
    surfaced are at most the asked ones, which are at most the calls. *)
Theorem asked_between_surfaced_and_calls (C : collaborators) (calls : list call)
    (m : machine) :
  length (asked_questions_texts (self m)) + surfaced (consult C calls m).1
  <= length (asked_questions_texts (self (consult C calls m).2))
  /\ length (asked_questions_texts (self (consult C calls m).2))
     <= length (asked_questions_texts (self m)) + length calls.
Proof.
  revert m. induction calls as [|c rest IH]; intros m.
  - cbn. lia.
  - cbn [consult]. destruct (perform C c m) as [o m1] eqn:Hp.
    specialize (IH m1). destruct (consult C rest m1) as [os m2].
    cbn [fst snd length] in *.
    destruct (perform_effect C c m o m1 Hp) as (_ & Ha & Hs).
    unfold surfaced in *. cbn [List.filter].
    assert (Hq : is_question o = true ->
                 length (asked_questions_texts (self m1))
                 = S (length (asked_questions_texts (self m)))).
    { intros Hq. destruct o as [[s [|]]|e]; try discriminate.
      destruct (Hs s eq_refl) as (_ & q & -> & _). rewrite length_app. cbn. lia. }
    assert (Hle : length (asked_questions_texts (self m))
                  <= length (asked_questions_texts (self m1))
                  <= S (length (asked_questions_texts (self m)))).
    { destruct Ha as [-> | [q ->]]; [lia|]. rewrite length_app. cbn. lia. }
    destruct (is_question o); cbn [length]; [specialize (Hq eq_refl)|]; lia.
Qed.

(** ** Duplicate suppression *)

(** C7: when the decoded reply proposes a question that resembles one of
    the last three asked ones by more than 0.75, [_generate_question]
    returns the forced conclusion (ready_to_conclude, confidence 0.9, no
    next question) without appending the question, and
    [ask_next_question] returns the report with [done = True]: the question
    is not surfaced. *)
Theorem duplicate_question_suppressed (C : collaborators) (m : machine)
    (response : string) (data q asked_q : json) :
  chat C (llm_log m) (question_request C (self m)) = Return response ->
  json_loads C (Py.strip (unfence response)) = Some data ->
  dict_get data "next_question" JNull = Return q ->
  truthy q = true ->
  In asked_q (Py.slice_last 3 (asked_questions_texts (self m))) ->
  PrimFloat.ltb DUPLICATE_SIMILARITY_THRESHOLD (compute_similarity C q asked_q) = true ->
  exists risk_hypothesis report m',
    generate_question C m
    = (Return (forced_conclusion risk_hypothesis),
       with_log (question_request C (self m) :: llm_log m) m)
    /\ dict_get (forced_conclusion risk_hypothesis) "assessment_status" JNull
       = Return (JStr "ready_to_conclude")
    /\ dict_get (forced_conclusion risk_hypothesis) "confidence" (JInt 0)
       = Return (JFloat 0.9)
    /\ dict_get (forced_conclusion risk_hypothesis) "next_question" JNull
       = Return JNull
    /\ ask_next_question C m = (Return (report, true), m')
    /\ asked_questions_texts (self m') = asked_questions_texts (self m).
Proof.
  intros Hchat Hjson Hq Ht Hin Hsim.
  assert (Hdup : is_duplicate_question C (self m) q = true).
  { unfold is_duplicate_question.
    destruct (asked_questions_texts (self m)) as [|x xs] eqn:Hasked.
    - unfold Py.slice_last in Hin. cbn in Hin. destruct Hin.
    - apply existsb_exists. exists asked_q. split; assumption. }
  destruct data as [| | | | | |members]; try discriminate Hq.
  set (risk := from_option id (JStr "assessment_needed") (assoc "risk_hypothesis" members)).
  assert (Hg : generate_question C m
               = (Return (forced_conclusion risk),
                  with_log (question_request C (self m) :: llm_log m) m)).
  { unfold generate_question. run. rewrite Hchat, Hjson, Hq. run.
    rewrite Ht, Hdup. reflexivity. }
  set (m1 := with_log (question_request C (self m) :: llm_log m) m) in *.
  destruct (finish_spec C m1) as (report & info & Hf).
  exists risk, report. eexists.
  split; [exact Hg|]. repeat (split; [reflexivity|]).
  rewrite ask_next_question_unfold, Hg.
  assert (Hsc : should_conclude (self m1) (forced_conclusion risk) = Return true
                \/ should_conclude (self m1) (forced_conclusion risk) = Return false).
  { unfold should_conclude.
    destruct (length (interview_history (self m1)) <? MIN_QUESTIONS)%nat; [right; reflexivity|].
    destruct (MAX_QUESTIONS <=? length (interview_history (self m1)))%nat; left; reflexivity. }
  destruct Hsc as [-> | ->].
  - rewrite Hf. split; reflexivity.
  - cbn [forced_conclusion dict_get assoc String.eqb Ascii.eqb Bool.eqb from_option id truthy].
    rewrite Hf. split; reflexivity.
Qed.


(** A witness of [duplicate_question_suppressed]: after the first answer
    the service proposes a question of the same family as the one already
    asked (similarity 1.0). *)
Lemma duplicate_question_suppressed_witness :
  let C := stage [Return (asks 0); Return (asks 4); Return "The report."] in
  let m := entering (Answer long_answer (question_no 0))
             (consult C [Ask] (described chatbot)).2 in
  compute_similarity C (JStr (question_no 4)) (JStr (question_no 0)) = 1%float
  /\ exists risk_hypothesis report m',
       generate_question C m
       = (Return (forced_conclusion risk_hypothesis),
          with_log (question_request C (self m) :: llm_log m) m)
       /\ ask_next_question C m = (Return (report, true), m')
       /\ asked_questions_texts (self m') = asked_questions_texts (self m).
Proof.
  intros C m. split; [vm_compute; reflexivity|].
  destruct (duplicate_question_suppressed C m (asks 4)
              (reply_value "need_more_info" 0.4 (JStr (question_no 4)))
              (JStr (question_no 4)) (JStr (question_no 0)))
    as (risk & report & m' & Hg & _ & _ & _ & Ha & Hk);
    try (vm_compute; reflexivity).
  - vm_compute. left. reflexivity.
  - exists risk, report, m'. repeat split; assumption.
Defined.

(** ** The short-answer exit *)

(** C10: an answer of fewer than three words on a history of at least
    MIN_QUESTIONS entries ends the interview. [process_answer] is then
    [_generate_final_analysis] on the state as it was, with [done = True]:
    neither the answer nor its question is appended, or read; the history
    is unchanged, and the request sent to the service quotes that
    history. *)
Theorem short_answer_exit (C : collaborators) (answer question : string)
    (m : machine) :
  length (Py.split answer) < 3 ->
  MIN_QUESTIONS <= length (interview_history (self m)) ->
  process_answer C answer question m = finish C m
  /\ exists report info,
       process_answer C answer question m
       = (Return (report, true),
          with_log (report_request (set_relevant_articles info (self m)) info
                    :: llm_log m)
            (with_self (set_relevant_articles info (self m)) m))
       /\ interview_history (set_relevant_articles info (self m))
          = interview_history (self m).
Proof.
  intros Hshort Hmin. rewrite process_answer_unfold.
  apply Nat.ltb_lt in Hshort. apply Nat.leb_le in Hmin.
  rewrite Hshort, Hmin. cbn [andb]. split; [reflexivity|].
  destruct (finish_spec C m) as (report & info & Hf).
  exists report, info. split; [assumption|reflexivity].
Qed.

(** A witness of [short_answer_exit]: three questions answered, then
    [Not sure]. *)
Lemma short_answer_exit_witness :
  let C := stage [ Return (asks 0); Return (asks 1); Return (asks 2);
                   Return (asks 3); Return "The report." ] in
  let m := (consult C (Ask :: answers 3) (described chatbot)).2 in
  length (interview_history (self m)) = 3
  /\ exists report m',
       process_answer C "Not sure" (question_no 3) m = (Return (report, true), m')
       /\ interview_history (self m') = interview_history (self m).
Proof.
  intros C m. split; [vm_compute; reflexivity|].
  destruct (short_answer_exit C "Not sure" (question_no 3) m)
    as (_ & report & info & Hp & Hh).
  - vm_compute. lia.
  - vm_compute. lia.
  - exists report. eexists. split; [exact Hp|exact Hh].
Defined.

(** ** The prohibited-system report *)

(** C9, as stated, fails: the same advisor, with the same stored
    descriptions, read at noon and at the next midnight gives two different
    reports. *)
Lemma prohibited_report_depends_on_clock :
  self (warned noon) = self (warned midnight)
  /\ (generate_prohibited_final_report (warned noon)).1
     <> (generate_prohibited_final_report (warned midnight)).1.
Proof.
  split; [reflexivity|].
  intros H.
  assert (E : match (generate_prohibited_final_report (warned noon)).1,
                    (generate_prohibited_final_report (warned midnight)).1 with
              | Return a, Return b => String.eqb a b
              | _, _ => false
              end = false) by (vm_compute; reflexivity).
  rewrite H in E.
  destruct (generate_prohibited_final_report (warned midnight)).1 as [b|]; [|discriminate].
  rewrite String.eqb_refl in E. discriminate E.
Qed.

(** C9, amended: [generate_prohibited_final_report] makes no call to the
    text-completion service and changes nothing; its report is a function
    of the first 1000 characters of the pending description (of
    [model_description] when that one is empty), of the time and of the
    advisor's identity, and two runs that agree on these give the same
    text. *)
Theorem prohibited_report_deterministic (m1 m2 : machine) :
  Py.str_first 1000 (reported_description (self m1))
  = Py.str_first 1000 (reported_description (self m2)) ->
  now m1 = now m2 ->
  self_id m1 = self_id m2 ->
  (generate_prohibited_final_report m1).1 = (generate_prohibited_final_report m2).1
  /\ (generate_prohibited_final_report m1).2 = m1
  /\ llm_log (generate_prohibited_final_report m1).2 = llm_log m1
  /\ exists report, (generate_prohibited_final_report m1).1 = Return report.
Proof.
  intros Hd Hn Hi. unfold generate_prohibited_final_report. cbn [fst snd].
  repeat split; [|eexists; reflexivity].
  fold (reported_description (self m1)). fold (reported_description (self m2)).
  rewrite Hd, Hn, Hi. reflexivity.
Qed.

(** A witness of [prohibited_report_deterministic]: two advisors whose
    pending descriptions, of 1306 characters, agree on the first 1000 and
    end differently, read at the same time. *)
Lemma prohibited_report_deterministic_witness :
  String.length (long_description " It runs in Paris.") = 1306
  /\ pending_description (self (warned_at_length " It runs in Paris."))
     <> pending_description (self (warned_at_length " It runs in Lyons."))
  /\ (generate_prohibited_final_report (warned_at_length " It runs in Paris.")).1
     = (generate_prohibited_final_report (warned_at_length " It runs in Lyons.")).1.
Proof.
  split; [vm_compute; reflexivity|]. split.
  - intros H.
    assert (E : String.eqb (pending_description (self (warned_at_length " It runs in Paris.")))
                  (pending_description (self (warned_at_length " It runs in Lyons.")))
                = false) by (vm_compute; reflexivity).
    rewrite H, String.eqb_refl in E. discriminate E.
  - apply (prohibited_report_deterministic (warned_at_length " It runs in Paris.")
             (warned_at_length " It runs in Lyons.")).
    + vm_compute. reflexivity.
    + reflexivity.
    + reflexivity.
Defined.

(** * Further properties *)

(** ** The chunker over a whole document *)

Lemma lstrip_length (s : string) : String.length (Py.lstrip s) <= String.length s.
Proof.
  induction s as [|c r IH]; cbn [Py.lstrip String.length]; [lia|].
  destruct (Py.is_space c); cbn [String.length]; lia.
Qed.

Lemma rstrip_length (s : string) : String.length (Py.rstrip s) <= String.length s.
Proof.
  induction s as [|c r IH]; cbn [Py.rstrip String.length]; [lia|].
  destruct (Py.rstrip r) eqn:E.
  - destruct (Py.is_space c); cbn [String.length]; lia.
  - cbn [String.length] in *. lia.
Qed.

Lemma strip_length (s : string) : String.length (Py.strip s) <= String.length s.
Proof.
  unfold Py.strip. pose proof (lstrip_length (Py.rstrip s)).
  pose proof (rstrip_length s). lia.
Qed.

Lemma extends_refl (C : collaborators) (n : nat) (chunks : list DocumentChunk) :
  extends C n chunks chunks.
Proof. exists []. rewrite app_nil_r. repeat split; constructor. Qed.

Lemma extends_trans (C : collaborators) (n : nat) (a b c : list DocumentChunk) :
  extends C n a b -> extends C n b c -> extends C n a c.
Proof.
  intros (x & -> & Hx & Ix) (y & -> & Hy & Iy).
  exists (x ++ y). rewrite app_assoc. split; [reflexivity|]. split.
  - apply Forall_app. split; assumption.
  - rewrite map_app, Ix, Iy, !length_app, seq_app. reflexivity.
Qed.

Lemma append_chunk_extends (C : collaborators) (n : nat) (t : string)
    (chunks : list DocumentChunk) :
  50 < String.length t -> extends C n chunks (append_chunk C n t chunks).
Proof.
  intros Ht. unfold append_chunk. eexists. split; [reflexivity|]. split.
  - repeat constructor. exact Ht.
  - reflexivity.
Qed.

Lemma add_windows_extends (C : collaborators) (dp : processor) (n : nat)
    (words : list string) (starts : list nat) :
  forall chunks,
    extends C n chunks (fold_left (add_window C dp n words) starts chunks).
Proof.
  induction starts as [|i rest IH]; intros chunks; cbn [fold_left].
  - apply extends_refl.
  - eapply extends_trans; [|apply IH].
    unfold add_window.
    destruct (100 <? String.length
                (Py.strip (Py.join " " (Py.slice i (chunk_size dp) words))))%nat eqn:E.
    + apply append_chunk_extends. apply Nat.ltb_lt in E.
      pose proof (strip_length (Py.join " " (Py.slice i (chunk_size dp) words))). lia.
    + apply extends_refl.
Qed.

Lemma add_paragraphs_extends (C : collaborators) (dp : processor) (n : nat)
    (paras : list string) :
  Forall (fun p => 50 < String.length p) paras ->
  forall chunks, extends C n chunks (add_paragraphs C dp n paras chunks).
Proof.
  induction 1 as [|para rest Hp _ IH]; intros chunks; cbn [add_paragraphs].
  - apply extends_refl.
  - destruct (add_paragraph C dp n para chunks) as [chunks'|] eqn:E;
      [|apply extends_refl].
    eapply extends_trans; [|apply IH].
    unfold add_paragraph in E.
    destruct (chunk_size dp <? String.length para)%nat.
    + destruct (stride_range dp (length (Py.split para))); [|discriminate].
      injection E as <-. apply add_windows_extends.
    + injection E as <-. apply append_chunk_extends. exact Hp.
Qed.

Lemma paragraphs_of_long (t : string) :
  Forall (fun p => 50 < String.length p) (paragraphs_of t).
Proof.
  unfold paragraphs_of. apply Forall_forall. intros p Hp.
  apply list_elem_of_In, in_map_iff in Hp as (q & <- & Hq).
  apply filter_In in Hq as [_ Hq]. apply Nat.ltb_lt in Hq. exact Hq.
Qed.

(** A page appends chunks only if it has text, and then chunks of that
    page. *)
Lemma add_page_extends (C : collaborators) (dp : processor) (n : nat) (pg : DocumentProcessor.page)
    (chunks : list DocumentChunk) :
  extends C n chunks (add_page C dp chunks (n, pg))
  /\ (add_page C dp chunks (n, pg) <> chunks -> exists t, pg = PageText t).
Proof.
  unfold add_page. destruct pg as [[|c t]| |].
  - split; [apply extends_refl|]. intros H. contradiction.
  - split; [|intros _; eexists; reflexivity].
    apply add_paragraphs_extends, paragraphs_of_long.
  - split; [apply extends_refl|]. intros H. contradiction.
  - split; [apply extends_refl|]. intros H. contradiction.
Qed.

Lemma same_page_sorted (k : nat) (l : list DocumentChunk) :
  Forall (fun c => page_number c = k) l -> StronglySorted le (map page_number l).
Proof.
  induction 1 as [|c l Hc Hl IH]; cbn [map]; constructor; [assumption|].
  apply Forall_forall. intros n Hn.
  apply list_elem_of_In, in_map_iff in Hn as (c' & <- & Hc').
  rewrite Forall_forall in Hl. rewrite (Hl c'); [lia|]. apply list_elem_of_In. exact Hc'.
Qed.

(** The pages from [k] on, numbered as [enumerate] numbers them. *)
Lemma add_pages_spec (C : collaborators) (dp : processor)
    (pages : list DocumentProcessor.page) :
  forall (k : nat) (chunks : list DocumentChunk),
    exists extra,
      fold_left (add_page C dp) (combine (seq k (length pages)) pages) chunks
      = chunks ++ extra
      /\ Forall (fun c => exists n t, pages !! (n - k) = Some (PageText t) /\ k <= n
                                      /\ made_on C n c) extra
      /\ map chunk_index extra = seq (length chunks) (length extra)
      /\ StronglySorted le (map page_number extra).
Proof.
  induction pages as [|pg rest IH]; intros k chunks; cbn [length seq combine fold_left].
  - exists []. rewrite app_nil_r. repeat split; constructor.
  - destruct (add_page_extends C dp k pg chunks) as [(x & Hx & Fx & Ix) Hpg].
    destruct (IH (S k) (add_page C dp chunks (k, pg))) as (y & Hy & Fy & Iy & Sy).
    exists (x ++ y). rewrite Hy, Hx, <- app_assoc. split; [reflexivity|].
    assert (Px : Forall (fun c => page_number c = k) x).
    { eapply Forall_impl; [exact Fx|]. intros c Hc. apply Hc. }
    split; [|split].
    + apply Forall_app. split.
      * destruct x as [|c0 x'].
        { constructor. }
        destruct Hpg as [t ->].
        { rewrite Hx. intros H. apply (f_equal (@length _)) in H.
          rewrite length_app in H. cbn in H. lia. }
        eapply Forall_impl; [exact Fx|]. intros c Hc. cbn beta in Hc.
        exists k, t. rewrite Nat.sub_diag. repeat split; try apply Hc. lia.
      * eapply Forall_impl; [exact Fy|]. intros c (n & t & Hn & Hk & Hc).
        exists n, t. split; [|split; [lia|exact Hc]].
        replace (n - k) with (S (n - S k)) by lia. exact Hn.
    + rewrite map_app, Ix, Iy, Hx, !length_app, seq_app. reflexivity.
    + rewrite map_app. apply StronglySorted_app_2.
      * intros a b Ha Hb.
        apply list_elem_of_In, in_map_iff in Ha as (ca & <- & Hca).
        apply list_elem_of_In, in_map_iff in Hb as (cb & <- & Hcb).
        rewrite Forall_forall in Px, Fy.
        rewrite (Px ca) by (apply list_elem_of_In; exact Hca).
        destruct (Fy cb) as (n & _ & _ & Hn & Hm & _);
          [apply list_elem_of_In; exact Hcb|]. lia.
      * apply (same_page_sorted k). exact Px.
      * exact Sy.
Qed.

(** X1: in the list that [load_and_chunk_document] returns, the
    [chunk_index] of every chunk is its position in the list, whatever
    the pages and whichever fragments were discarded on the way. *)
Theorem chunk_index_is_position (C : collaborators) (dp : processor)
    (pdf : option (list DocumentProcessor.page)) :
  map chunk_index (load_and_chunk_document C dp pdf)
  = seq 0 (length (load_and_chunk_document C dp pdf)).
Proof.
  destruct pdf as [pages|]; cbn [load_and_chunk_document]; [|reflexivity].
  unfold Py.enumerate.
  destruct (add_pages_spec C dp pages 0 []) as (extra & -> & _ & Hidx & _).
  exact Hidx.
Qed.

(** X2: every chunk that [load_and_chunk_document] returns was made on a
    page of the document whose [extract_text()] gave text, carries that
    page's number, has a text of more than 50 characters, no embedding
    yet, the document name "EU_AI_Act", and the digest and the article
    references of its own text. *)
Theorem chunks_made_on_text_pages (C : collaborators) (dp : processor)
    (pages : list DocumentProcessor.page) :
  Forall (fun c => (exists t, pages !! page_number c = Some (PageText t))
                   /\ made_on C (page_number c) c)
    (load_and_chunk_document C dp (Some pages)).
Proof.
  cbn [load_and_chunk_document]. unfold Py.enumerate.
  destruct (add_pages_spec C dp pages 0 []) as (extra & -> & Hmade & _).
  cbn [app]. eapply Forall_impl; [exact Hmade|].
  intros c (n & t & Hn & _ & Hc). rewrite Nat.sub_0_r in Hn.
  assert (page_number c = n) as -> by apply Hc.
  split; [exists t; exact Hn|exact Hc].
Qed.

(** X3: [load_and_chunk_document] returns the chunks in page order: the
    page numbers never decrease along the list. *)
Theorem chunks_in_page_order (C : collaborators) (dp : processor)
    (pdf : option (list DocumentProcessor.page)) :
  StronglySorted le (map page_number (load_and_chunk_document C dp pdf)).
Proof.
  destruct pdf as [pages|]; cbn [load_and_chunk_document]; [|constructor].
  unfold Py.enumerate.
  destruct (add_pages_spec C dp pages 0 []) as (extra & -> & _ & _ & Hs).
  exact Hs.
Qed.

(** X4: a processor whose overlap is not below its chunk size makes no
    chunk of a paragraph longer than the chunk size: with
    [overlap > chunk_size] the range of window starts is empty and the
    paragraph is skipped; with [overlap = chunk_size] the step is zero,
    [range] raises, and the rest of the page is lost with it. *)
Theorem overlap_not_below_chunk_size (C : collaborators) (dp : processor)
    (page_num : nat) (para : string) (rest : list string)
    (chunks : list DocumentChunk) :
  chunk_size dp <= overlap dp ->
  chunk_size dp < String.length para ->
  add_paragraphs C dp page_num (para :: rest) chunks
  = if (chunk_size dp =? overlap dp)%nat then chunks
    else add_paragraphs C dp page_num rest chunks.
Proof.
  intros Hov Hlen. cbn [add_paragraphs]. unfold add_paragraph, stride_range.
  apply Nat.ltb_lt in Hlen. rewrite Hlen.
  destruct (chunk_size dp =? overlap dp)%nat eqn:E.
  - apply Nat.eqb_eq in E. rewrite E, Z.sub_diag. reflexivity.
  - apply Nat.eqb_neq in E.
    destruct (Z.of_nat (chunk_size dp) - Z.of_nat (overlap dp) =? 0)%Z eqn:E0;
      [apply Z.eqb_eq in E0; lia|].
    destruct (Z.of_nat (chunk_size dp) - Z.of_nat (overlap dp) <? 0)%Z eqn:E1;
      [|apply Z.ltb_ge in E1; lia].
    reflexivity.
Qed.

Lemma overlap_not_below_chunk_size_witness :
  add_paragraphs (stage []) {| chunk_size := 10; overlap := 10 |} 0
    ["Article 5 prohibits the following practices."; lorem 20] []
  = [].
Proof.
  apply (overlap_not_below_chunk_size (stage []) {| chunk_size := 10; overlap := 10 |} 0
           "Article 5 prohibits the following practices." [lorem 20] []).
  - cbn [chunk_size overlap]. lia.
  - vm_compute. lia.
Defined.

(** ** The embedding cache, there and back *)

Lemma set_embedding_same (e : vec) (c c' : DocumentChunk) :
  same_but_embedding c c' -> set_embedding e c = set_embedding e c'.
Proof.
  intros (H1 & H2 & H3 & H4 & H5 & H6). unfold set_embedding.
  rewrite H1, H2, H3, H4, H5, H6. reflexivity.
Qed.

Lemma same_but_embedding_set (e : vec) (c : DocumentChunk) :
  same_but_embedding c (set_embedding e c).
Proof. repeat split. Qed.

Lemma same_but_embedding_trans (a b c : DocumentChunk) :
  same_but_embedding a b -> same_but_embedding b c -> same_but_embedding a c.
Proof.
  intros (H1 & H2 & H3 & H4 & H5 & H6) (K1 & K2 & K3 & K4 & K5 & K6).
  repeat split; congruence.
Qed.

Lemma same_but_embedding_sym (a b : DocumentChunk) :
  same_but_embedding a b -> same_but_embedding b a.
Proof. intros (H1 & H2 & H3 & H4 & H5 & H6). repeat split; congruence. Qed.

(** The loop over [enumerate(chunks)] touches the embedding only. *)
Lemma assign_same (chunks : list DocumentChunk) (embs : list vec) :
  Forall2 same_but_embedding chunks (assign chunks embs).1.
Proof.
  revert embs. induction chunks as [|c cs IH]; intros [|e es]; cbn [assign];
    try constructor.
  - repeat split.
  - apply Forall2_same_length_lookup_2; [reflexivity|].
    intros i x y Hx Hy. assert (x = y) by congruence. subst. repeat split.
  - specialize (IH es). destruct (assign cs es) as [cs' done]. cbn [fst] in *.
    constructor; [apply same_but_embedding_set|exact IH].
Qed.

(** With a vector for every chunk the loop runs to its end and gives each
    chunk the vector at its position. *)
Lemma assign_all (chunks : list DocumentChunk) (embs : list vec) :
  length chunks <= length embs ->
  assign chunks embs
  = (zip_with (fun c e => set_embedding e c) chunks embs, true).
Proof.
  revert embs. induction chunks as [|c cs IH]; intros [|e es] Hl;
    cbn [assign zip_with length] in *; try reflexivity; try lia.
  rewrite IH by lia. reflexivity.
Qed.

(** Where the loop ran to its end there was a vector for every chunk. *)
Lemma assign_done (chunks : list DocumentChunk) (embs : list vec) :
  (assign chunks embs).2 = true -> length chunks <= length embs.
Proof.
  revert embs. induction chunks as [|c cs IH]; intros [|e es];
    cbn [assign length]; try lia; try discriminate.
  specialize (IH es). destruct (assign cs es) as [cs' done]. cbn [snd] in *.
  intros H. specialize (IH H). lia.
Qed.

Lemma zip_set_embedding_same (a b : list DocumentChunk) (embs : list vec) :
  Forall2 same_but_embedding a b ->
  zip_with (fun c e => set_embedding e c) a embs
  = zip_with (fun c e => set_embedding e c) b embs.
Proof.
  intros H. revert embs. induction H as [|x y a b Hxy Hab IH]; intros [|e es];
    cbn [zip_with]; try reflexivity.
  rewrite IH, (set_embedding_same e x y Hxy). reflexivity.
Qed.

(** What a run that returned did: either the cache had a vector for every
    chunk, or the model gave one for every text. *)
Lemma generate_embeddings_returned (C : collaborators) (chunks : list DocumentChunk)
    (cache : cache_file) (writable : bool) :
  let r := generate_embeddings C chunks cache writable in
  returned r = true ->
  exists embs,
    length chunks <= length embs
    /\ chunks_after r = zip_with (fun c e => set_embedding e c) chunks embs
    /\ (if recomputed r
        then encode_all C (map text chunks) = Some embs
             /\ cache_after r
                = (if writable
                   then Pickled (Some (map text_hash chunks)) (Some embs)
                   else cache)
        else exists hashes embeddings,
               cache = Pickled hashes embeddings
               /\ embs = default [] embeddings
               /\ length (default [] hashes) = length chunks
               /\ cache_after r = cache).
Proof.
  intros r. subst r. unfold generate_embeddings.
  set (from_cache := match cache with
                     | Pickled hashes embeddings =>
                         if (length (default [] hashes) =? length chunks)%nat
                         then assign chunks (default [] embeddings)
                         else (chunks, false)
                     | _ => (chunks, false)
                     end).
  assert (Hsame : Forall2 same_but_embedding chunks from_cache.1).
  { subst from_cache. destruct cache as [| |hashes embeddings].
    - apply Forall2_same_length_lookup_2; [reflexivity|].
      intros i x y Hx Hy. assert (x = y) by (cbn in Hy; congruence). subst. repeat split.
    - apply Forall2_same_length_lookup_2; [reflexivity|].
      intros i x y Hx Hy. assert (x = y) by (cbn in Hy; congruence). subst. repeat split.
    - destruct (length (default [] hashes) =? length chunks)%nat.
      + apply assign_same.
      + apply Forall2_same_length_lookup_2; [reflexivity|].
        intros i x y Hx Hy. assert (x = y) by (cbn in Hy; congruence). subst.
        repeat split. }
  destruct from_cache.2 eqn:Hdone.
  - cbn [returned recomputed chunks_after cache_after]. intros _.
    subst from_cache. destruct cache as [| |hashes embeddings]; try discriminate.
    destruct (length (default [] hashes) =? length chunks)%nat eqn:Hlen;
      [|discriminate].
    apply Nat.eqb_eq in Hlen. pose proof (assign_done _ _ Hdone) as Hle.
    exists (default [] embeddings). rewrite (assign_all _ _ Hle). cbn [fst].
    split; [exact Hle|]. split; [reflexivity|].
    exists hashes, embeddings. repeat split. exact Hlen.
  - set (chunks1 := from_cache.1) in *.
    destruct (encode_all C (map text chunks1)) as [embs|] eqn:Henc;
      cbn [returned recomputed chunks_after cache_after]; [intros _|discriminate].
    assert (Htext : map text chunks1 = map text chunks).
    { clear -Hsame. induction Hsame as [|x y a b Hxy Hab IH]; cbn [map];
        [reflexivity|]. rewrite IH. destruct Hxy as [-> _]. reflexivity. }
    assert (Hhash : forall embs, map text_hash
                      (zip_with (fun c e => set_embedding e c) chunks embs)
                    = map text_hash (take (length embs) chunks)).
    { clear. induction chunks as [|c cs IH]; intros [|e es]; cbn; try reflexivity.
      rewrite IH. reflexivity. }
    pose proof (length_mapM _ _ _ Henc) as Hlen. rewrite length_map in Hlen.
    pose proof (Forall2_length _ _ _ Hsame) as Hlen'.
    exists embs. rewrite assign_all by lia. cbn [fst].
    rewrite <- (zip_set_embedding_same _ _ embs Hsame).
    split; [lia|]. split; [reflexivity|]. rewrite <- Htext. split; [exact Henc|].
    rewrite Hhash, firstn_all2 by lia. reflexivity.
Qed.

(** X5: when [generate_embeddings] returns, every chunk of the list has an
    embedding, and nothing but the embeddings has changed: the list has
    the same chunks in the same order, each with its text, its page, its
    index, its digest and its article references as before. *)
Theorem generate_embeddings_embeds_all (C : collaborators)
    (chunks : list DocumentChunk) (cache : cache_file) (writable : bool) :
  returned (generate_embeddings C chunks cache writable) = true ->
  Forall2 (fun c c' => same_but_embedding c c' /\ exists e, embedding c' = Some e)
    chunks (chunks_after (generate_embeddings C chunks cache writable)).
Proof.
  intros Hret.
  destruct (generate_embeddings_returned C chunks cache writable Hret)
    as (embs & Hlen & -> & _).
  clear Hret. revert embs Hlen.
  induction chunks as [|c cs IH]; intros [|e es] Hlen; cbn [zip_with length] in *;
    try constructor; try lia.
  - split; [apply same_but_embedding_set|exists e; reflexivity].
  - apply IH. lia.
Qed.

Lemma generate_embeddings_embeds_all_witness :
  Forall2 (fun c c' => same_but_embedding c c' /\ exists e, embedding c' = Some e)
    [plain_a; plain_a']
    (chunks_after (generate_embeddings (stage []) [plain_a; plain_a'] NoFile true)).
Proof.
  apply (generate_embeddings_embeds_all (stage []) [plain_a; plain_a'] NoFile true).
  vm_compute. reflexivity.
Defined.

(** X6: when [generate_embeddings] has called the model and returns, the
    embedding of every chunk is the model's vector for that chunk's own
    text, whatever embeddings the chunks had before. *)
Theorem generate_embeddings_of_own_text (C : collaborators)
    (chunks : list DocumentChunk) (cache : cache_file) (writable : bool) :
  recomputed (generate_embeddings C chunks cache writable) = true ->
  returned (generate_embeddings C chunks cache writable) = true ->
  Forall (fun c => embedding c = encode C (JStr (text c)))
    (chunks_after (generate_embeddings C chunks cache writable)).
Proof.
  intros Hrec Hret.
  destruct (generate_embeddings_returned C chunks cache writable Hret)
    as (embs & Hlen & -> & Hcase).
  rewrite Hrec in Hcase. destruct Hcase as [Henc _].
  apply mapM_Some_1 in Henc. clear -Henc.
  remember (map text chunks) as texts eqn:Ht. revert chunks Ht.
  induction Henc as [|t e texts embs Hte Hrest IH]; intros [|c cs] Ht;
    cbn [map zip_with] in *; try constructor; try discriminate.
  - cbn [set_embedding embedding text]. injection Ht as -> _. symmetry. exact Hte.
  - apply IH. injection Ht as _ ->. reflexivity.
Qed.

Lemma generate_embeddings_of_own_text_witness :
  Forall (fun c => embedding c = encode (stage []) (JStr (text c)))
    (chunks_after (generate_embeddings (stage []) [chunk_b; plain_a] NoFile false)).
Proof.
  apply (generate_embeddings_of_own_text (stage []) [chunk_b; plain_a] NoFile false);
    vm_compute; reflexivity.
Defined.

(** X7: the cache round trip. After a run of [generate_embeddings] that
    returned and could write its cache file, a later run on the same
    chunks (the list as the first run left it, or the same document
    chunked again) with that cache file does not call the model, leaves
    the file as it is, and gives the very chunks the first run gave. *)
Theorem generate_embeddings_round_trip (C : collaborators)
    (chunks again : list DocumentChunk) (cache : cache_file) (writable : bool) :
  returned (generate_embeddings C chunks cache true) = true ->
  Forall2 same_but_embedding chunks again ->
  generate_embeddings C again
    (cache_after (generate_embeddings C chunks cache true)) writable
  = {| chunks_after := chunks_after (generate_embeddings C chunks cache true);
       cache_after := cache_after (generate_embeddings C chunks cache true);
       recomputed := false; returned := true |}.
Proof.
  intros Hret Hsame.
  destruct (generate_embeddings_returned C chunks cache true Hret)
    as (embs & Hlen & -> & Hcase).
  pose proof (Forall2_length _ _ _ Hsame) as Hl.
  assert (Hagain : forall hashes,
            length (default [] hashes) = length chunks ->
            generate_embeddings C again (Pickled hashes (Some embs)) writable
            = {| chunks_after := zip_with (fun c e => set_embedding e c) chunks embs;
                 cache_after := Pickled hashes (Some embs);
                 recomputed := false; returned := true |}).
  { intros hashes Hh. unfold generate_embeddings.
    rewrite Hh, Hl, Nat.eqb_refl. cbn [from_option id].
    rewrite assign_all by lia. cbn [fst snd].
    rewrite (zip_set_embedding_same _ _ embs Hsame). reflexivity. }
  destruct (recomputed (generate_embeddings C chunks cache true)).
  - destruct Hcase as [_ ->]. apply Hagain. cbn [from_option id]. apply length_map.
  - destruct Hcase as (hashes & embeddings & -> & -> & Hh & ->).
    destruct embeddings as [embs|]; cbn [from_option id] in *.
    + apply Hagain. exact Hh.
    + destruct chunks; cbn [length] in Hlen; [|lia].
      destruct again; [|discriminate Hl].
      unfold generate_embeddings. rewrite Hh. reflexivity.
Qed.

Lemma generate_embeddings_round_trip_witness :
  generate_embeddings (stage []) [plain_a; plain_a']
    (cache_after (generate_embeddings (stage []) [plain_a; plain_a'] stale_cache true))
    false
  = {| chunks_after :=
         chunks_after (generate_embeddings (stage []) [plain_a; plain_a'] stale_cache true);
       cache_after :=
         cache_after (generate_embeddings (stage []) [plain_a; plain_a'] stale_cache true);
       recomputed := false; returned := true |}.
Proof.
  apply (generate_embeddings_round_trip (stage []) [plain_a; plain_a'] [plain_a; plain_a']
           stale_cache false).
  - vm_compute. reflexivity.
  - repeat constructor.
Defined.

(** ** The corpus of an advisor *)

Lemma valid_pairs_all (chunks : list DocumentChunk) :
  Forall (fun c => exists e, embedding c = Some e) chunks ->
  map fst (valid_pairs chunks) = chunks.
Proof.
  unfold valid_pairs. induction 1 as [|c cs [e He] _ IH]; [reflexivity|].
  cbn [omap list_omap]. rewrite He. cbn [map fst]. f_equal. exact IH.
Qed.

(** X8: the corpus that [_load_document] gives an advisor is embedded
    throughout and numbered by position: every chunk is a candidate of
    [find_relevant_chunks], none is left out for want of an embedding,
    and [chunk_index] is the position in the list. *)
Theorem load_document_embedded (C : collaborators)
    (pdf : option (list DocumentProcessor.page)) (cache : cache_file)
    (writable : bool) (chunks : list DocumentChunk) :
  load_document C pdf cache writable = Some chunks ->
  map fst (valid_pairs chunks) = chunks
  /\ map chunk_index chunks = seq 0 (length chunks).
Proof.
  unfold load_document. destruct pdf as [pages|]; [|intros [= <-]; split; reflexivity].
  set (made := load_and_chunk_document C default_processor (Some pages)).
  assert (Hidx : map chunk_index made = seq 0 (length made)).
  { subst made. cbn [load_and_chunk_document]. unfold Py.enumerate.
    destruct (add_pages_spec C default_processor pages 0 [])
      as (extra & -> & _ & Hidx & _). exact Hidx. }
  destruct made as [|c cs] eqn:Hmade; [intros [= <-]; split; reflexivity|].
  rewrite <- Hmade in *. clear Hmade c cs.
  destruct (returned (generate_embeddings C made cache writable)) eqn:Hret;
    [|discriminate].
  intros [= <-].
  destruct (generate_embeddings_returned C made cache writable Hret)
    as (embs & Hlen & -> & _).
  clear Hret. split.
  - apply valid_pairs_all. clear Hidx. revert embs Hlen.
    induction made as [|c cs IH]; intros [|e es] Hlen; cbn [zip_with length] in *;
      try constructor; try lia.
    + exists e. reflexivity.
    + apply IH. lia.
  - assert (Hmap : map chunk_index (zip_with (fun c e => set_embedding e c) made embs)
                   = map chunk_index made).
    { clear Hidx. revert embs Hlen.
      induction made as [|c cs IH]; intros [|e es] Hlen; cbn [zip_with length map] in *;
        try reflexivity; try lia.
      rewrite IH by lia. reflexivity. }
    rewrite Hmap, Hidx. f_equal.
    apply (f_equal (@length _)) in Hmap. rewrite !length_map in Hmap. congruence.
Qed.

Lemma load_document_embedded_witness :
  exists chunks,
    load_document (stage [])
      (Some [PageText "Article 5 of the Act prohibits social scoring by public authorities."])
      stale_cache false = Some chunks
    /\ length chunks = 1
    /\ map fst (valid_pairs chunks) = chunks
    /\ map chunk_index chunks = seq 0 (length chunks).
Proof.
  eexists. split; [vm_compute; reflexivity|]. split; [reflexivity|].
  apply (load_document_embedded (stage [])
           (Some [PageText "Article 5 of the Act prohibits social scoring by public authorities."])
           stale_cache false).
  vm_compute. reflexivity.
Defined.

(** ** Retrieval on any input *)

Lemma slice_to_In {A} (k : Z) (l : list A) (x : A) :
  In x (Py.slice_to k l) -> In x l.
Proof.
  unfold Py.slice_to. destruct (0 <=? k)%Z; intros H;
    apply list_elem_of_In in H; apply list_elem_of_In;
    apply elem_of_take in H as (i & Hi & _); eapply list_elem_of_lookup_2; exact Hi.
Qed.

Lemma slice_to_shorter {A} (k : Z) (l : list A) :
  length (Py.slice_to k l) <= length l.
Proof.
  unfold Py.slice_to. destruct (0 <=? k)%Z; rewrite length_take; lia.
Qed.

(** X9: whatever the query, the chunks, [top_k] (also zero or negative)
    and the collaborators do (the model failing, [argsort] returning
    anything), [find_relevant_chunks] returns chunks of the list it was
    given, and no more of them than the list has. *)
Theorem find_relevant_chunks_from_corpus (C : collaborators) (query : string)
    (chunks : list DocumentChunk) (top_k : Z) :
  Forall (fun c => In c chunks) (find_relevant_chunks C query chunks top_k)
  /\ length (find_relevant_chunks C query chunks top_k) <= length chunks.
Proof.
  assert (Hfall : Forall (fun c => In c chunks) (Py.slice_to top_k chunks)
                  /\ length (Py.slice_to top_k chunks) <= length chunks).
  { split; [|apply slice_to_shorter].
    apply Forall_forall. intros c Hc. apply list_elem_of_In in Hc.
    eapply slice_to_In. exact Hc. }
  unfold find_relevant_chunks.
  destruct (encode C (JStr query)) as [query_emb|]; [|exact Hfall].
  destruct (valid_pairs chunks) as [|v vs] eqn:Hv; [exact Hfall|].
  rewrite <- Hv.
  destruct (mapM (fun ce => cosine_similarity C query_emb ce.2) (valid_pairs chunks))
    as [sims|]; [|exact Hfall].
  set (idx := rev (Py.slice_last top_k (argsort C sims))).
  destruct (select (map fst (valid_pairs chunks)) top_k idx [] ∅) as [r|] eqn:Hsel;
    [|exact Hfall].
  destruct (select_spec (fun _ _ => True) _ _ _ _ _ _ Hsel) as (Hnd & _ & _ & Hin).
  { intros h. cbn. rewrite elem_of_empty. tauto. }
  { constructor. }
  { cbn [app]. generalize (at_indices (map fst (valid_pairs chunks)) idx).
    induction l; constructor; [assumption|]. apply Forall_forall. intros; exact I. }
  assert (Hsub : forall c, In c r -> In c chunks).
  { intros c Hc. destruct (Hin c Hc) as [[]|Hat].
    apply at_indices_In in Hat as (i & _ & Hi).
    apply lookup_In, in_map_iff in Hi as ([c' e] & <- & Hce).
    apply valid_pairs_In in Hce. apply Hce. }
  split.
  - apply Forall_forall. intros c Hc. apply Hsub, list_elem_of_In. exact Hc.
  - apply submseteq_length, NoDup_submseteq.
    + eapply NoDup_fmap_1. exact Hnd.
    + intros c Hc. apply list_elem_of_In, Hsub, list_elem_of_In. exact Hc.
Qed.

(** ** Question generation *)

Lemma slice_last_app {A} (older recent : list A) (k : nat) :
  length recent = k -> 0 < k ->
  Py.slice_last (Z.of_nat k) (older ++ recent) = recent.
Proof.
  intros Hl Hk. unfold Py.slice_last.
  destruct (0 <? Z.of_nat k)%Z eqn:E; [|apply Z.ltb_ge in E; lia].
  rewrite Nat2Z.id, length_app, Hl.
  replace (length older + k - k) with (length older) by lia.
  apply drop_app_length.
Qed.

(** X10: [_is_duplicate_question] compares the new question with the last
    three asked questions only: what was asked before them has no
    influence, so a question that repeats an older one is accepted unless
    it also resembles one of the last three. *)
Theorem duplicate_check_sees_last_three (C : collaborators) (a : advisor)
    (older recent : list json) (new_question : json) :
  asked_questions_texts a = older ++ recent ->
  length recent = 3 ->
  is_duplicate_question C a new_question
  = existsb (fun asked_q =>
               PrimFloat.ltb DUPLICATE_SIMILARITY_THRESHOLD
                 (compute_similarity C new_question asked_q)) recent.
Proof.
  intros Ha Hl. unfold is_duplicate_question. rewrite Ha.
  destruct (older ++ recent) eqn:E.
  - apply (f_equal (@length _)) in E. rewrite length_app, Hl in E. cbn in E. lia.
  - rewrite <- E. change 3%Z with (Z.of_nat 3).
    rewrite (slice_last_app older recent 3 Hl) by lia. reflexivity.
Qed.

Lemma duplicate_check_sees_last_three_witness :
  is_duplicate_question (stage [])
    {| ai_act_chunks := []; model_description := chatbot;
       pending_description := EmptyString; interview_history := [];
       asked_questions_texts :=
         [JStr (question_no 0); JStr (question_no 1); JStr (question_no 2);
          JStr (question_no 3)];
       relevant_articles := [] |}
    (JStr (question_no 0))
  = false.
Proof.
  apply (duplicate_check_sees_last_three (stage []) _ [JStr (question_no 0)]
           [JStr (question_no 1); JStr (question_no 2); JStr (question_no 3)]
           (JStr (question_no 0))).
  - reflexivity.
  - reflexivity.
Defined.

Lemma first_fresh_spec (C : collaborators) (a : advisor) (qs : list string) :
  match first_fresh C a qs with
  | Some q =>
      exists before after,
        qs = before ++ q :: after
        /\ Forall (fun p => is_duplicate_question C a (JStr p) = true) before
        /\ is_duplicate_question C a (JStr q) = false
  | None => Forall (fun p => is_duplicate_question C a (JStr p) = true) qs
  end.
Proof.
  induction qs as [|x xs IH]; cbn [first_fresh]; [constructor|].
  destruct (is_duplicate_question C a (JStr x)) eqn:E.
  - destruct (first_fresh C a xs) as [q|].
    + destruct IH as (before & after & -> & Hb & Hq).
      exists (x :: before), after. repeat split; [constructor|]; assumption.
    + constructor; assumption.
  - exists [], xs. repeat split. constructor. exact E.
Qed.

(** X11: [_generate_fallback_question] never raises and calls no service.
    It returns the first question of its fixed list that the duplicate
    check lets through, every question before it in the list being a
    duplicate, and appends that question to [asked_questions_texts]; when
    the check stops all eight it returns [None] and changes nothing. *)
Theorem fallback_question_is_first_fresh (C : collaborators) (m : machine) :
  (exists q before after,
     generate_fallback_question C m
     = (Return (Some q), with_self (append_asked (JStr q) (self m)) m)
     /\ fallbacks = before ++ q :: after
     /\ Forall (fun p => is_duplicate_question C (self m) (JStr p) = true) before
     /\ is_duplicate_question C (self m) (JStr q) = false)
  \/ (generate_fallback_question C m = (Return None, m)
      /\ Forall (fun p => is_duplicate_question C (self m) (JStr p) = true) fallbacks).
Proof.
  unfold generate_fallback_question. run.
  pose proof (first_fresh_spec C (self m) fallbacks) as H.
  destruct (first_fresh C (self m) fallbacks) as [q|].
  - left. destruct H as (before & after & H1 & H2 & H3).
    exists q, before, after. repeat split; assumption.
  - right. split; [reflexivity|exact H].
Qed.

(** ** Replies the service should not give *)

(** The state after the service was asked for a question. *)
Lemma generate_question_undecodable (C : collaborators) (m : machine) (r : string) :
  chat C (llm_log m) (question_request C (self m)) = Return r ->
  json_loads C (Py.strip (unfence r)) = None ->
  generate_question C m
  = let m1 := with_log (question_request C (self m) :: llm_log m) m in
    match first_fresh C (self m) fallbacks with
    | Some q =>
        (Return (JObj [ ("assessment_status", JStr "need_more_info");
                        ("confidence", JFloat 0.5);
                        ("next_question", JStr q) ]),
         with_self (append_asked (JStr q) (self m)) m1)
    | None =>
        (Return (JObj [ ("assessment_status", JStr "ready_to_conclude");
                        ("confidence", JFloat 0.7);
                        ("next_question", JNull) ]), m1)
    end.
Proof.
  intros Hchat Hjson. unfold generate_question. run. rewrite Hchat, Hjson.
  unfold generate_fallback_question. run.
  destruct (first_fresh C (self m) fallbacks); reflexivity.
Qed.

(** X12: a reply of the service that does not decode as JSON never makes
    [ask_next_question] raise. The user gets the first fallback question
    that is not a duplicate, stripped, as long as the history has fewer
    than MAX_QUESTIONS entries; with a full history, or when every
    fallback is a duplicate, the call concludes with the report. *)
Theorem undecodable_reply_falls_back (C : collaborators) (m : machine) (r : string) :
  chat C (llm_log m) (question_request C (self m)) = Return r ->
  json_loads C (Py.strip (unfence r)) = None ->
  ask_next_question C m
  = let m1 := with_log (question_request C (self m) :: llm_log m) m in
    match first_fresh C (self m) fallbacks with
    | Some q =>
        let m2 := with_self (append_asked (JStr q) (self m)) m1 in
        if (length (interview_history (self m)) <? MAX_QUESTIONS)%nat
        then (Return (Py.strip q, false), m2)
        else finish C m2
    | None => finish C m1
    end.
Proof.
  intros Hchat Hjson. rewrite ask_next_question_unfold.
  rewrite (generate_question_undecodable C m r Hchat Hjson). cbv zeta.
  destruct (first_fresh C (self m) fallbacks) as [q|] eqn:Hq.
  - cbn [self with_self with_log append_asked interview_history].
    unfold should_conclude. cbn [append_asked interview_history].
    destruct (length (interview_history (self m)) <? MIN_QUESTIONS)%nat eqn:E1.
    + assert (E2 : (length (interview_history (self m)) <? MAX_QUESTIONS)%nat = true).
      { apply Nat.ltb_lt in E1. apply Nat.ltb_lt.
        unfold MIN_QUESTIONS, MAX_QUESTIONS in *. lia. }
      rewrite E2. cbn [dict_get assoc String.eqb Ascii.eqb Bool.eqb from_option id].
      rewrite (fallbacks_truthy q (first_fresh_In _ _ _ _ Hq)). reflexivity.
    + destruct (MAX_QUESTIONS <=? length (interview_history (self m)))%nat eqn:E2.
      * apply Nat.leb_le in E2. apply Nat.ltb_ge in E2. rewrite E2. reflexivity.
      * apply Nat.leb_gt in E2. apply Nat.ltb_lt in E2. rewrite E2.
        cbn [dict_get assoc String.eqb Ascii.eqb Bool.eqb from_option id is_none eq_str].
        rewrite (fallbacks_truthy q (first_fresh_In _ _ _ _ Hq)). reflexivity.
  - cbn [self with_self with_log].
    unfold should_conclude.
    destruct (length (interview_history (self m)) <? MIN_QUESTIONS)%nat; [reflexivity|].
    destruct (MAX_QUESTIONS <=? length (interview_history (self m)))%nat; reflexivity.
Qed.

Lemma undecodable_reply_falls_back_witness :
  exists m',
    ask_next_question (stage [Return "I am sorry, I cannot help with that."])
      (described chatbot)
    = (Return ("What specific types of personal data does your AI system process?",
               false), m')
    /\ asked_questions_texts (self m')
       = [JStr "What specific types of personal data does your AI system process?"].
Proof.
  eexists. split.
  - rewrite (undecodable_reply_falls_back
               (stage [Return "I am sorry, I cannot help with that."])
               (described chatbot) "I am sorry, I cannot help with that.");
      [vm_compute; reflexivity|reflexivity|vm_compute; reflexivity].
  - reflexivity.
Defined.

Lemma perform_entering (C : collaborators) (c : call) (m : machine) :
  short_exit c m = false -> perform C c m = ask_next_question C (entering c m).
Proof.
  destruct c as [|a q]; cbn [perform entering short_exit]; [reflexivity|].
  intros H. rewrite process_answer_unfold, H. reflexivity.
Qed.

Lemma perform_short_exit (C : collaborators) (c : call) (m : machine) :
  short_exit c m = true -> perform C c m = finish C m.
Proof.
  destruct c as [|a q]; cbn [perform short_exit]; [discriminate|].
  intros H. rewrite process_answer_unfold, H. reflexivity.
Qed.

(** X13: a reply that decodes to a JSON value other than an object (a
    list, a number, a string, [null]) makes the call raise AttributeError,
    since [_generate_question] catches a JSONDecodeError only. Apart from
    the call log, the advisor is then as it was when the question was
    requested: in [process_answer] the answer has been appended before,
    and stays in the history though the call raised. *)
Theorem reply_not_an_object_raises (C : collaborators) (c : call) (m : machine)
    (r : string) (v : json) :
  short_exit c m = false ->
  chat C (llm_log m) (question_request C (self (entering c m))) = Return r ->
  json_loads C (Py.strip (unfence r)) = Some v ->
  (forall members, v <> JObj members) ->
  perform C c m
  = (Raise AttributeError,
     with_log (question_request C (self (entering c m)) :: llm_log m) (entering c m)).
Proof.
  intros Hshort Hchat Hjson Hv. rewrite (perform_entering C c m Hshort).
  rewrite ask_next_question_unfold.
  assert (Hlog : llm_log (entering c m) = llm_log m) by (destruct c; reflexivity).
  unfold generate_question. run. rewrite Hlog, Hchat, Hjson.
  destruct v; try reflexivity. exfalso. eapply Hv. reflexivity.
Qed.

Lemma reply_not_an_object_raises_witness :
  exists m',
    perform (Malformed.stage [Return "[]"]) (Answer long_answer (question_no 0))
      (described chatbot)
    = (Raise AttributeError, m')
    /\ interview_history (self m')
       = [{| question := question_no 0; answer := long_answer |}].
Proof.
  eexists. split.
  - apply (reply_not_an_object_raises (Malformed.stage [Return "[]"])
             (Answer long_answer (question_no 0)) (described chatbot) "[]" (JArr [])).
    + reflexivity.
    + reflexivity.
    + reflexivity.
    + intros members H. discriminate H.
  - reflexivity.
Defined.

(** ** The final report *)

(** X14: [_generate_final_analysis] never raises, whatever the service
    does: it makes one call to the service, and when that call raises the
    report is the emergency report. It writes [relevant_articles] and
    nothing else of the advisor. *)
Theorem final_analysis_never_raises (C : collaborators) (m : machine) :
  exists report info,
    let a' := set_relevant_articles info (self m) in
    generate_final_analysis C m
    = (Return report, with_log (report_request a' info :: llm_log m) (with_self a' m))
    /\ (forall e, chat C (llm_log m) (report_request a' info) = Raise e ->
          report = generate_emergency_report a' info)
    /\ (forall reply, chat C (llm_log m) (report_request a' info) = Return reply ->
          report = reply).
Proof.
  unfold generate_final_analysis. run.
  match goal with
  | |- context [chat C ?l ?c] => destruct (chat C l c) as [r|e] eqn:E
  end; eexists; eexists; cbv zeta; (split; [reflexivity|]); rewrite E;
    split; intros x Hx; congruence.
Qed.

(** ** What a consultation costs and what it keeps *)


Lemma same_setting_trans (a b c : machine) :
  same_setting a b -> same_setting b c -> same_setting a c.
Proof.
  intros (H1 & H2 & H3 & H4 & H5) (K1 & K2 & K3 & K4 & K5).
  repeat split; congruence.
Qed.

(** [_generate_question] calls the service once, first of all. *)
Lemma generate_question_log (C : collaborators) (m : machine) :
  llm_log (generate_question C m).2 = question_request C (self m) :: llm_log m
  /\ same_setting m (generate_question C m).2.
Proof.
  unfold generate_question. run.
  destruct (chat C (llm_log m) (question_request C (self m))) as [response|e];
    [|split; [reflexivity|repeat split]].
  destruct (json_loads C (Py.strip (unfence response))) as [data|].
  - destruct (dict_get data "next_question" JNull) as [nq|e];
      [|split; [reflexivity|repeat split]].
    cbn [self with_self llm_log with_log].
    destruct (truthy nq).
    + destruct (is_duplicate_question C (self m) nq).
      * destruct (dict_get data "risk_hypothesis" (JStr "assessment_needed"));
          split; try reflexivity; repeat split.
      * split; [reflexivity|repeat split].
    + split; [reflexivity|repeat split].
  - unfold generate_fallback_question. run.
    destruct (first_fresh C (self m) fallbacks); split; try reflexivity; repeat split.
Qed.

Lemma finish_log (C : collaborators) (m : machine) :
  (exists call, llm_log (finish C m).2 = call :: llm_log m)
  /\ same_setting m (finish C m).2
  /\ is_question (finish C m).1 = false.
Proof.
  destruct (finish_spec C m) as (r & info & ->). cbn [fst snd].
  split; [eexists; reflexivity|]. split; [repeat split|reflexivity].
Qed.

(** One call of the advisor: one request to the service, and a second one
    only when the call goes on to the report. *)
Lemma perform_log (C : collaborators) (c : call) (m : machine) :
  (exists made, llm_log (perform C c m).2 = made ++ llm_log m
                /\ 1 <= length made <= 2
                /\ (is_question (perform C c m).1 = true -> length made = 1))
  /\ same_setting m (perform C c m).2.
Proof.
  destruct (short_exit c m) eqn:Hs.
  - rewrite (perform_short_exit C c m Hs).
    destruct (finish_log C m) as ((call & Hl) & Hset & Hq).
    split; [|exact Hset]. exists [call]. rewrite Hl, Hq.
    split; [reflexivity|]. split; [cbn; lia|discriminate].
  - rewrite (perform_entering C c m Hs).
    assert (He : same_setting m (entering c m) /\ llm_log (entering c m) = llm_log m).
    { destruct c; split; try reflexivity; repeat split. }
    destruct He as [Hset0 Hl0].
    rewrite ask_next_question_unfold.
    destruct (generate_question_log C (entering c m)) as [Hl1 Hset1].
    rewrite Hl0 in Hl1.
    pose proof (same_setting_trans _ _ _ Hset0 Hset1) as Hset.
    destruct (generate_question C (entering c m)) as [[a|e] m1]; cbn [fst snd] in *.
    2:{ split; [|exact Hset]. eexists [_]. rewrite Hl1.
        split; [reflexivity|]. split; [cbn; lia|reflexivity]. }
    assert (Hone : forall o, (exists made, llm_log (o, m1).2 = made ++ llm_log m
                      /\ 1 <= length made <= 2
                      /\ (is_question (o, m1).1 = true -> length made = 1))
                     /\ same_setting m (o, m1).2).
    { intros o. split; [|exact Hset]. eexists [_]. cbn [fst snd]. rewrite Hl1.
      split; [reflexivity|]. split; [cbn; lia|reflexivity]. }
    assert (Hfin : (exists made, llm_log (finish C m1).2 = made ++ llm_log m
                      /\ 1 <= length made <= 2
                      /\ (is_question (finish C m1).1 = true -> length made = 1))
                   /\ same_setting m (finish C m1).2).
    { destruct (finish_log C m1) as ((call & Hl) & Hset2 & Hq).
      split; [|eapply same_setting_trans; eassumption].
      eexists [_; _]. rewrite Hl, Hl1, Hq.
      split; [reflexivity|]. split; [cbn; lia|discriminate]. }
    destruct (should_conclude (self m1) a) as [[|]|e]; [exact Hfin| |apply Hone].
    destruct (dict_get a "next_question" JNull) as [nq|e]; [|apply Hone].
    destruct (truthy nq); [|exact Hfin].
    destruct (strip_value nq); apply Hone.
Qed.


Lemma entering_history (c : call) (m : machine) :
  interview_history (self (entering c m)) = interview_history (self m) ++ handed [c].
Proof.
  destruct c as [|a q]; cbn [entering handed omap list_omap self with_self
                               append_history interview_history].
  - rewrite app_nil_r. reflexivity.
  - reflexivity.
Qed.

Lemma handed_cons (c : call) (rest : list call) :
  handed (c :: rest) = handed [c] ++ handed rest.
Proof. destruct c; reflexivity. Qed.

(** X16: the interview history records what the shell handed over and
    nothing else. Over any sequence of calls, with any collaborators (also
    calls that raise), the history afterwards is the history before
    followed by entries that [process_answer] was given, in the order they
    were given; and when every call surfaced a question, by all of them:
    no answer is lost, doubled or reordered. *)
Theorem history_is_what_was_handed (C : collaborators) (calls : list call)
    (m : machine) :
  exists kept,
    interview_history (self (consult C calls m).2) = interview_history (self m) ++ kept
    /\ sublist kept (handed calls)
    /\ (forallb is_question (consult C calls m).1 = true -> kept = handed calls).
Proof.
  revert m. induction calls as [|c rest IH]; intros m; cbn [consult].
  - exists []. rewrite app_nil_r. repeat split. constructor.
  - pose proof (perform_effect C c m) as He.
    destruct (perform C c m) as [o m1].
    destruct (He o m1 eq_refl) as (Hh & _ & Hq). clear He.
    destruct (IH m1) as (kept & Hk & Hsub & Hall).
    destruct (consult C rest m1) as [os m2]; cbn [fst snd] in *.
    rewrite handed_cons.
    destruct (is_question o) eqn:Eo.
    + destruct o as [[s [|]]|e]; try discriminate Eo.
      destruct (Hq s eq_refl) as [Hent _].
      exists (handed [c] ++ kept). rewrite Hk, Hent, entering_history, app_assoc.
      split; [reflexivity|]. split.
      * apply sublist_app; [reflexivity|exact Hsub].
      * cbn [forallb is_question andb]. intros Hos. rewrite (Hall Hos). reflexivity.
    + destruct Hh as [Hh|Hh].
      * exists kept. rewrite Hk, Hh. split; [reflexivity|]. split.
        -- apply sublist_inserts_l. exact Hsub.
        -- cbn [forallb]. rewrite Eo. discriminate.
      * exists (handed [c] ++ kept). rewrite Hk, Hh, entering_history, app_assoc.
        split; [reflexivity|]. split.
        -- apply sublist_app; [reflexivity|exact Hsub].
        -- cbn [forallb]. rewrite Eo. discriminate.
Qed.

(** ** The detectors on longer descriptions *)

Lemma append_cons (c : ascii) (a b : string) :
  String c a +:+ b = String c (a +:+ b).
Proof. reflexivity. Qed.

Lemma append_nil (b : string) : EmptyString +:+ b = b.
Proof. reflexivity. Qed.

Lemma prefix_app (needle hay post : string) :
  String.prefix needle hay = true -> String.prefix needle (hay +:+ post) = true.
Proof.
  revert hay. induction needle as [|a n IH]; intros hay H.
  - destruct (hay +:+ post); reflexivity.
  - destruct hay as [|b h]; [discriminate|]. rewrite append_cons.
    cbn [String.prefix] in *.
    destruct (ascii_dec a b); [|discriminate]. apply IH. exact H.
Qed.

Lemma contains_app_r (needle hay post : string) :
  Py.contains needle hay = true -> Py.contains needle (hay +:+ post) = true.
Proof.
  induction hay as [|b h IH]; intros H.
  - cbn [Py.contains] in H. rewrite orb_false_r in H.
    destruct needle; [|discriminate H].
    rewrite append_nil. destruct post; reflexivity.
  - rewrite append_cons. cbn [Py.contains] in *.
    apply orb_true_iff in H as [H|H]; apply orb_true_iff.
    + left. rewrite <- append_cons. apply (prefix_app needle (String b h) post H).
    + right. apply IH. exact H.
Qed.

Lemma contains_app_l (needle pre hay : string) :
  Py.contains needle hay = true -> Py.contains needle (pre +:+ hay) = true.
Proof.
  intros H. induction pre as [|b p IH]; [exact H|]. rewrite append_cons.
  cbn [Py.contains]. rewrite IH. apply orb_true_r.
Qed.

Lemma lower_app (a b : string) : Py.lower (a +:+ b) = Py.lower a +:+ Py.lower b.
Proof.
  induction a as [|c a IH]; [reflexivity|].
  rewrite append_cons. cbn [Py.lower]. rewrite IH. reflexivity.
Qed.

Lemma any_in_inside (kws : list string) (pre d post : string) :
  Py.any_in kws (Py.lower d) = true ->
  Py.any_in kws (Py.lower (pre +:+ d +:+ post)) = true.
Proof.
  unfold Py.any_in. rewrite !existsb_exists. intros (kw & Hin & Hkw).
  exists kw. split; [exact Hin|].
  rewrite !lower_app. apply contains_app_l, contains_app_r. exact Hkw.
Qed.

Lemma contains_inside (kw pre d post : string) :
  Py.contains kw (Py.lower d) = true ->
  Py.contains kw (Py.lower (pre +:+ d +:+ post)) = true.
Proof.
  intros H. rewrite !lower_app. apply contains_app_l, contains_app_r. exact H.
Qed.

(** X17: four of the six detectors cannot be talked out of a finding:
    whatever text is put before and after a description, a finding of
    social scoring, of manipulation, of the exploitation of
    vulnerabilities or of predictive policing in the description is also
    a finding in the longer text. *)
Theorem findings_survive_more_text (pre d post : string) :
  Forall (fun x => In x (prohibited_detections (pre +:+ d +:+ post)))
    (detect_social_scoring (Py.lower d) ++ detect_manipulation (Py.lower d)
     ++ detect_vulnerability (Py.lower d) ++ detect_predictive_policing (Py.lower d)).
Proof.
  unfold prohibited_detections.
  set (s := Py.lower d). set (s' := Py.lower (pre +:+ d +:+ post)).
  assert (Hany : forall kws, Py.any_in kws s = true -> Py.any_in kws s' = true)
    by (intros kws; apply any_in_inside).
  assert (Hcon : forall kw, Py.contains kw s = true -> Py.contains kw s' = true)
    by (intros kw; apply contains_inside).
  repeat rewrite Forall_app. repeat split.
  - unfold detect_social_scoring.
    destruct (Py.any_in social_scoring s
              || Py.any_in authority_indicators s && Py.contains "trustworthiness" s)
      eqn:E; [|constructor].
    assert (E' : Py.any_in social_scoring s'
                 || Py.any_in authority_indicators s'
                    && Py.contains "trustworthiness" s' = true).
    { apply orb_true_iff in E as [E|E]; apply orb_true_iff; [left; auto|right].
      apply andb_true_iff in E as [E1 E2]. apply andb_true_iff. split; auto. }
    rewrite E'. constructor; [|constructor].
    rewrite !in_app_iff. right. right. left. left. reflexivity.
  - unfold detect_manipulation.
    destruct (Py.any_in manipulation s) eqn:E; [|constructor].
    rewrite (Hany _ E). constructor; [|constructor].
    rewrite !in_app_iff. right. right. right. left. left. reflexivity.
  - unfold detect_vulnerability.
    destruct (Py.any_in vulnerability_exploit s) eqn:E; [|constructor].
    rewrite (Hany _ E). constructor; [|constructor].
    rewrite !in_app_iff. right. right. right. right. left. left. reflexivity.
  - unfold detect_predictive_policing.
    destruct (Py.any_in predictive s && Py.any_in profiling s) eqn:E; [|constructor].
    apply andb_true_iff in E as [E1 E2]. rewrite (Hany _ E1), (Hany _ E2).
    constructor; [|constructor].
    rewrite !in_app_iff. right. right. right. right. right. left. reflexivity.
Qed.

Lemma prefix_refl (s : string) : String.prefix s s = true.
Proof.
  induction s as [|c s IH]; cbn [String.prefix]; [reflexivity|].
  destruct (ascii_dec c c); [exact IH|contradiction].
Qed.

Lemma contains_refl (s : string) : Py.contains s s = true.
Proof. destruct s; cbn [Py.contains]; rewrite prefix_refl; reflexivity. Qed.

Lemma exclusion_contexts_lower :
  Forall (fun kw => Py.lower kw = kw) exclusion_contexts.
Proof. repeat constructor. Qed.

(** X18: the detector of biometric categorisation (Article 5(1)(e)) can be
    talked out of its finding: when any of its sixteen compliance phrases
    ("prevent bias", "no classification", ...) is appended to a
    description, whatever the description says, the detector reports
    nothing. *)
Theorem compliance_phrase_silences_categorisation :
  Forall (fun phrase =>
            forall d, detect_sensitive_categorization (Py.lower (d +:+ " " +:+ phrase)) = [])
    exclusion_contexts.
Proof.
  apply Forall_forall. intros phrase Hin d.
  assert (Hex : Py.any_in exclusion_contexts (Py.lower (d +:+ " " +:+ phrase)) = true).
  { unfold Py.any_in. apply existsb_exists. exists phrase.
    split; [apply list_elem_of_In; exact Hin|].
    rewrite !lower_app. apply contains_app_l, contains_app_l.
    pose proof exclusion_contexts_lower as Hl. rewrite Forall_forall in Hl.
    rewrite (Hl phrase Hin). apply contains_refl. }
  unfold detect_sensitive_categorization. rewrite Hex.
  cbn [negb]. rewrite andb_false_r. reflexivity.
Qed.

(** ** The warning report *)

Lemma detectors_one_finding (s : string) :
  one_finding "Article 5(1)(d)" "CRITICAL" (detect_realtime_biometric s)
  /\ one_finding "Article 5(1)(e)" "CRITICAL" (detect_sensitive_categorization s)
  /\ one_finding "Article 5(1)(c)" "CRITICAL" (detect_social_scoring s)
  /\ one_finding "Article 5(1)(a)" "CRITICAL" (detect_manipulation s)
  /\ one_finding "Article 5(1)(b)" "CRITICAL" (detect_vulnerability s)
  /\ one_finding "Article 5(1)(g)" "HIGH" (detect_predictive_policing s).
Proof.
  unfold one_finding.
  repeat split;
    match goal with
    | |- ?d s = [] \/ _ => unfold d
    end;
    match goal with
    | |- (if ?c then _ else _) = [] \/ _ =>
        destruct c; [right; eexists; repeat split|left; reflexivity]
    end.
Qed.

Lemma process_initial_description_cases (d : string) (m : machine) :
  (prohibited_detections d = []
   /\ process_initial_description d m = (Return (no_violation_message, false), m))
  \/ (prohibited_detections d <> []
      /\ process_initial_description d m
         = (Return (warning_report (prohibited_detections d), true),
            with_self (set_pending_description d (self m)) m)).
Proof.
  unfold process_initial_description.
  destruct (prohibited_detections d) as [|x l] eqn:E.
  - left. split; reflexivity.
  - right. split; [discriminate|reflexivity].
Qed.

Lemma append_assoc (a b c : string) : (a +:+ b) +:+ c = a +:+ (b +:+ c).
Proof.
  induction a as [|x a IH]; [reflexivity|].
  rewrite !append_cons, IH. reflexivity.
Qed.

(** The findings in the order in which the warning shows them. *)
Lemma critical_then_high (description : string) :
  let found := prohibited_detections description in
  List.filter (fun d => String.eqb (severity d) "CRITICAL") found
  ++ List.filter (fun d => String.eqb (severity d) "HIGH") found
  = found
  /\ NoDup (map article found)
  /\ length found <= 6.
Proof.
  cbv zeta. unfold prohibited_detections.
  destruct (detectors_one_finding (Py.lower description))
    as (H1 & H2 & H3 & H4 & H5 & H6).
  unfold one_finding in *.
  destruct H1 as [->|(x1 & -> & A1 & S1)]; destruct H2 as [->|(x2 & -> & A2 & S2)];
  destruct H3 as [->|(x3 & -> & A3 & S3)]; destruct H4 as [->|(x4 & -> & A4 & S4)];
  destruct H5 as [->|(x5 & -> & A5 & S5)]; destruct H6 as [->|(x6 & -> & A6 & S6)];
    cbn [app List.filter map length];
    rewrite ?A1, ?A2, ?A3, ?A4, ?A5, ?A6, ?S1, ?S2, ?S3, ?S4, ?S5, ?S6;
    (split; [reflexivity|split; [|lia]]);
    apply (bool_decide_unpack _); vm_compute; reflexivity.
Qed.

(** X19: the warning report leaves no finding out and shows none twice.
    The text that [process_initial_description] returns with a warning is
    the heading with the number of findings, then one section for every
    finding, in the order of the detectors, then the closing part: every
    finding is CRITICAL or HIGH and the CRITICAL ones come first in the
    list of findings, so the sections rendered (the CRITICAL findings,
    then the HIGH ones) are the findings themselves. No two findings are
    of the same article, and there are six at most. *)
Theorem warning_shows_every_finding (description : string) (m : machine) :
  let found := prohibited_detections description in
  warning_report found
  = warning_heading (length found)
    +:+ String.concat EmptyString (map render_detection found)
    +:+ warning_footer
  /\ (found <> [] ->
      process_initial_description description m
      = (Return (warning_heading (length found)
                 +:+ String.concat EmptyString (map render_detection found)
                 +:+ warning_footer, true),
         with_self (set_pending_description description (self m)) m))
  /\ NoDup (map article found)
  /\ length found <= 6.
Proof.
  cbv zeta.
  destruct (critical_then_high description) as (Hfound & Hnd & Hlen). cbv zeta in *.
  assert (Hreport : warning_report (prohibited_detections description)
                    = warning_heading (length (prohibited_detections description))
                      +:+ String.concat EmptyString
                            (map render_detection (prohibited_detections description))
                      +:+ warning_footer).
  { unfold warning_report. cbv zeta. rewrite Hfound.
    unfold warning_heading. rewrite !append_assoc. reflexivity. }
  split; [exact Hreport|]. split; [|split; [exact Hnd|exact Hlen]].
  intros Hsome. rewrite <- Hreport.
  destruct (process_initial_description_cases description m) as [[Hnone _]|[_ ->]];
    [contradiction|reflexivity].
Qed.

(** ** The articles of a report *)

Lemma existsb_eqb_In (art : string) (keys : list string) :
  existsb (String.eqb art) keys = true <-> In art keys.
Proof.
  rewrite existsb_exists. split.
  - intros (k & Hk & He). apply String.eqb_eq in He. subst. exact Hk.
  - intros H. exists art. split; [exact H|apply String.eqb_refl].
Qed.

(** The inner loop, over the articles of one chunk. *)
Lemma add_articles_spec (chunk : DocumentChunk) (arts : list string) :
  forall acc : list (string * article_info),
    let acc' :=
      fold_left
        (fun articles_info article =>
           if existsb (String.eqb article) (map fst articles_info)
           then articles_info
           else articles_info ++
                [(article, {| page := page_number chunk + 1; excerpts := [];
                              full_text := Py.str_first 500 (text chunk) |})])
        arts acc in
    exists extra,
      acc' = acc ++ extra
      /\ Forall (fun p => p.2 = info_from chunk /\ In p.1 arts
                          /\ ~ In p.1 (map fst acc)) extra
      /\ (List.NoDup (map fst acc) -> List.NoDup (map fst acc'))
      /\ (forall art, In art (map fst acc') <-> In art (map fst acc) \/ In art arts).
Proof.
  induction arts as [|a rest IH]; intros acc; cbn [fold_left].
  - exists []. rewrite app_nil_r. repeat split; try constructor; try tauto.
    intros [H|[]]. exact H.
  - destruct (existsb (String.eqb a) (map fst acc)) eqn:E.
    + destruct (IH acc) as (extra & Hacc & Hex & Hnd & Hkeys). cbv zeta in *.
      exists extra. split; [exact Hacc|]. split; [|split; [exact Hnd|]].
      * eapply Forall_impl; [exact Hex|]. intros p (H1 & H2 & H3).
        repeat split; [exact H1|right; exact H2|exact H3].
      * intros art. rewrite Hkeys. apply existsb_eqb_In in E. cbn [In].
        split; [tauto|]. intros [H|[<-|H]]; tauto.
    + destruct (IH (acc ++ [(a, info_from chunk)])) as (extra & Hacc & Hex & Hnd & Hkeys).
      cbv zeta in *. unfold info_from in Hacc, Hnd, Hkeys at 1.
      assert (Ha : ~ In a (map fst acc)).
      { intros H. apply existsb_eqb_In in H. congruence. }
      exists ((a, info_from chunk) :: extra). split; [|split; [|split]].
      * rewrite Hacc, <- app_assoc. reflexivity.
      * constructor.
        -- repeat split; [left; reflexivity|exact Ha].
        -- eapply Forall_impl; [exact Hex|]. intros p (H1 & H2 & H3).
           repeat split; [exact H1|right; exact H2|].
           intros H. apply H3. rewrite map_app, in_app_iff. left. exact H.
      * intros Hn. apply Hnd. rewrite map_app. cbn [map fst].
        apply NoDup_ListNoDup, NoDup_app. split; [apply NoDup_ListNoDup; exact Hn|].
        split; [|apply NoDup_singleton].
        intros x Hx Hx'. apply list_elem_of_In in Hx, Hx'.
        destruct Hx' as [<-|[]]. exact (Ha Hx).
      * intros art. rewrite Hkeys, map_app, in_app_iff. cbn [map fst In]. tauto.
Qed.

Lemma extract_articles_snoc (chunks : list DocumentChunk) (c : DocumentChunk) :
  extract_articles_with_context (chunks ++ [c])
  = fold_left
      (fun articles_info article =>
         if existsb (String.eqb article) (map fst articles_info)
         then articles_info
         else articles_info ++
              [(article, {| page := page_number c + 1; excerpts := [];
                            full_text := Py.str_first 500 (text c) |})])
      (extracted_articles c) (extract_articles_with_context chunks).
Proof. unfold extract_articles_with_context. rewrite fold_left_app. reflexivity. Qed.

(** X20: [_extract_articles_with_context] lists every article that some
    chunk refers to, each once, and describes it by the first chunk in
    the list that refers to it: the page is that chunk's page plus one and
    the text the first 500 characters of that chunk. A later chunk never
    replaces what an earlier one recorded. *)
Theorem articles_are_first_seen (chunks : list DocumentChunk) :
  let found := extract_articles_with_context chunks in
  List.NoDup (map fst found)
  /\ (forall art, In art (map fst found)
                  <-> exists c, In c chunks /\ In art (extracted_articles c))
  /\ Forall (fun entry =>
               exists before c after,
                 chunks = before ++ c :: after
                 /\ In entry.1 (extracted_articles c)
                 /\ Forall (fun b => ~ In entry.1 (extracted_articles b)) before
                 /\ entry.2 = info_from c) found.
Proof.
  cbv zeta. induction chunks as [|c chunks IH] using rev_ind.
  - cbn. split; [constructor|]. split; [|constructor].
    intros art. split; [intros []|intros (c & [] & _)].
  - destruct IH as (Hnd & Hkeys & Hfirst). rewrite extract_articles_snoc.
    destruct (add_articles_spec c (extracted_articles c)
                (extract_articles_with_context chunks))
      as (extra & Hacc & Hex & Hnd' & Hkeys').
    cbv zeta in *. rewrite Hacc in *. split; [exact (Hnd' Hnd)|]. split.
    + intros art. rewrite Hkeys', Hkeys. split.
      * intros [(b & Hb & Hart)|Hart].
        -- exists b. split; [apply in_app_iff; left; exact Hb|exact Hart].
        -- exists c. split; [apply in_app_iff; right; left; reflexivity|exact Hart].
      * intros (b & Hb & Hart). apply in_app_iff in Hb as [Hb|[<-|[]]].
        -- left. exists b. split; assumption.
        -- right. exact Hart.
    + apply Forall_app. split.
      * eapply Forall_impl; [exact Hfirst|].
        intros entry (before & b & after & -> & H1 & H2 & H3).
        exists before, b, (after ++ [c]). rewrite <- app_assoc. repeat split; assumption.
      * eapply Forall_impl; [exact Hex|]. intros entry (H1 & H2 & H3).
        exists chunks, c, []. repeat split; try assumption.
        apply Forall_forall. intros b Hb Hart. apply H3, Hkeys.
        exists b. split; [apply list_elem_of_In; exact Hb|exact Hart].
Qed.

(** ** The sessions of the API *)

Lemma ask_next_question_keeps (C : collaborators) (m : machine) :
  same_setting m (ask_next_question C m).2
  /\ interview_history (self (ask_next_question C m).2) = interview_history (self m)
  /\ exists later,
       llm_log (ask_next_question C m).2
       = later ++ question_request C (self m) :: llm_log m.
Proof.
  split; [exact (proj2 (perform_log C Ask m))|]. split.
  - destruct (ask_next_question C m) as [o m'] eqn:E.
    exact (proj1 (ask_next_question_effect C m o m' E)).
  - rewrite ask_next_question_unfold.
    destruct (generate_question_log C m) as [Hl _].
    destruct (generate_question C m) as [[a|e] m1]; cbn [fst snd] in *;
      [|exists []; exact Hl].
    assert (Hfin : exists later,
              llm_log (finish C m1).2 = later ++ question_request C (self m) :: llm_log m).
    { destruct (finish_log C m1) as ((call & Hc) & _ & _).
      exists [call]. rewrite Hc, Hl. reflexivity. }
    destruct (should_conclude (self m1) a) as [[|]|e]; [exact Hfin| |exists []; exact Hl].
    destruct (dict_get a "next_question" JNull) as [nq|e]; [|exists []; exact Hl].
    destruct (truthy nq); [|exact Hfin].
    destruct (strip_value nq); exists []; exact Hl.
Qed.

Lemma no_findings_in_nothing : prohibited_detections EmptyString = [].
Proof. vm_compute. reflexivity. Qed.

Lemma strip_nothing : Py.strip EmptyString = EmptyString.
Proof. reflexivity. Qed.

Lemma consistent_reset (s : Api.session) : Api.consistent (Api.reset_session s).
Proof.
  unfold Api.consistent, Api.reset_session, reset. run.
  cbn [Api.s_advisor Api.awaiting_confirmation Api.chat_history snd self with_self
       model_description pending_description interview_history].
  split; [discriminate|]. split; [apply no_findings_in_nothing|].
  split; reflexivity.
Qed.

Lemma consistent_chat (C : collaborators) (str_exn : exn -> string)
    (content : string) (s : Api.session) :
  Api.consistent s -> Api.consistent (Api.chat C str_exn content s).2.
Proof.
  intros Hs. pose proof Hs as (Haw & Hmd & Hh & Hch). cbv zeta in Haw, Hmd, Hh.
  unfold Api.chat.
  destruct (String.eqb (Py.strip content) EmptyString) eqn:Eblank; [exact Hs|].
  cbv zeta.
  destruct (String.eqb (Py.lower content) "reset"); [apply consistent_reset|].
  destruct (Api.awaiting_confirmation s) eqn:Eaw.
  - destruct (Haw eq_refl) as [Hmd0 Hpd].
    destruct (Api.among (Py.lower content) ["yes"; "y"]).
    + destruct (ask_next_question_keeps C (Api.s_advisor s))
        as ((_ & Hm & _) & Hhist & _).
      destruct (ask_next_question C (Api.s_advisor s)) as [[[next_q is_done]|e] m];
        cbn [fst snd] in *;
        [destruct is_done|]; cbn [snd]; unfold Api.consistent;
        cbn [Api.s_advisor Api.awaiting_confirmation Api.chat_history];
        rewrite Hm, Hhist; (split; [discriminate|]); (split; [exact Hmd|]);
        (split; [exact Hh|exact Hch]).
    + destruct (Api.among (Py.lower content) ["no"; "n"]).
      * unfold generate_prohibited_final_report, reset. run.
        cbn [snd]. unfold Api.consistent.
        cbn [Api.s_advisor Api.awaiting_confirmation Api.chat_history self with_self
             model_description interview_history].
        split; [discriminate|]. split; [apply no_findings_in_nothing|].
        split; [reflexivity|exact Hch].
      * unfold reset. run. cbn [snd]. unfold Api.consistent.
        cbn [Api.s_advisor Api.awaiting_confirmation Api.chat_history self with_self
             model_description interview_history].
        split; [discriminate|]. split; [apply no_findings_in_nothing|].
        split; [reflexivity|exact Hch].
  - destruct (String.eqb (model_description (self (Api.s_advisor s))) EmptyString)
      eqn:Emd.
    + apply String.eqb_eq in Emd.
      destruct (process_initial_description_cases content (Api.s_advisor s))
        as [[Hnone ->]|[Hsome ->]].
      * set (m1 := with_self (set_model_description content (self (Api.s_advisor s)))
                     (Api.s_advisor s)).
        destruct (ask_next_question_keeps C m1) as ((_ & Hm & _) & Hhist & _).
        assert (Hne : content <> EmptyString).
        { intros ->. rewrite strip_nothing in Eblank. discriminate Eblank. }
        destruct (ask_next_question C m1) as [[[next_q is_done]|e] m];
          cbn [fst snd] in *;
          [destruct is_done|]; cbn [snd]; unfold Api.consistent;
          cbn [Api.s_advisor Api.awaiting_confirmation Api.chat_history];
          rewrite Hm, Hhist; subst m1;
          cbn [self with_self set_model_description model_description
               interview_history];
          (split; [discriminate|]); (split; [exact Hnone|]);
          (split; [intros H; contradiction|exact Hch]).
      * cbn [snd]. unfold Api.consistent.
        cbn [Api.s_advisor Api.awaiting_confirmation Api.chat_history self with_self
             set_pending_description model_description pending_description
             interview_history].
        split; [intros _; split; [exact Emd|exact Hsome]|].
        split; [exact Hmd|]. split; [exact Hh|exact Hch].
    + apply String.eqb_neq in Emd.
      pose proof (perform_log C (Answer content (Api.current_question s))
                    (Api.s_advisor s)) as [_ (_ & Hm & _)].
      cbn [perform] in Hm.
      destruct (process_answer C content (Api.current_question s) (Api.s_advisor s))
        as [[[next_q is_done]|e] m];
        cbn [fst snd] in *;
        [destruct is_done|]; cbn [snd]; unfold Api.consistent;
        cbn [Api.s_advisor Api.awaiting_confirmation Api.chat_history];
        rewrite Hm; (split; [discriminate|]); (split; [exact Hmd|]);
        (split; [intros H; contradiction|exact Hch]).
Qed.

Lemma reachable_consistent (C : collaborators) (str_exn : exn -> string)
    (s : Api.session) :
  Api.reachable C str_exn s -> Api.consistent s.
Proof.
  induction 1 as [chunks id log t|content s _ IH|s _ _|log t s _ IH].
  - unfold Api.consistent, Api.new_session.
    cbn [Api.s_advisor Api.awaiting_confirmation Api.chat_history self
         Consultation.fresh model_description interview_history].
    split; [discriminate|]. split; [apply no_findings_in_nothing|].
    split; reflexivity.
  - apply consistent_chat. exact IH.
  - apply consistent_reset.
  - exact IH.
Qed.

(** X21: what holds of every session of the API, from its creation
    through any messages to [/chat] and any resets, with any
    collaborators. While the session waits for the confirmation of a
    warning, the advisor has no description and the pending description is
    one with findings. The description that the interview runs on is never
    one with findings: a description is adopted only when no detector
    fired. And no answer is recorded while the advisor has no
    description. *)
Theorem sessions_stay_consistent (C : collaborators) (str_exn : exn -> string)
    (s : Api.session) :
  Api.reachable C str_exn s ->
  let a := self (Api.s_advisor s) in
  (Api.awaiting_confirmation s = true ->
     model_description a = EmptyString
     /\ prohibited_detections (pending_description a) <> [])
  /\ prohibited_detections (model_description a) = []
  /\ (model_description a = EmptyString -> interview_history a = [])
  /\ Api.chat_history s = [].
Proof.
  induction 1 as [chunks id log t|content s _ IH|s _ _|log t s _ IH].
  - cbn [Api.new_session Api.s_advisor Api.awaiting_confirmation Api.chat_history
         self Consultation.fresh model_description interview_history].
    split; [discriminate|]. split; [apply no_findings_in_nothing|].
    split; reflexivity.
  - exact (consistent_chat C str_exn content s IH).
  - exact (consistent_reset s).
  - exact IH.
Qed.

Lemma sessions_stay_consistent_witness :
  let s := (Api.chat (stage []) (fun _ => "unreachable") transport_hubs
              (Api.new_session [] 140234866093264 [] noon)).2 in
  Api.awaiting_confirmation s = true
  /\ model_description (self (Api.s_advisor s)) = EmptyString
  /\ pending_description (self (Api.s_advisor s)) = transport_hubs
  /\ prohibited_detections (pending_description (self (Api.s_advisor s))) <> [].
Proof.
  cbv zeta.
  assert (Haw : Api.awaiting_confirmation
                  (Api.chat (stage []) (fun _ => "unreachable") transport_hubs
                     (Api.new_session [] 140234866093264 [] noon)).2 = true)
    by (vm_compute; reflexivity).
  split; [exact Haw|].
  destruct (sessions_stay_consistent (stage []) (fun _ => "unreachable") _
              (Api.reach_chat _ _ transport_hubs _
                 (Api.reach_new _ _ [] 140234866093264 [] noon))) as (Hw & _).
  destruct (Hw Haw) as [Hmd Hpd].
  split; [exact Hmd|]. split; [vm_compute; reflexivity|exact Hpd].
Defined.

(** X22: confirming a warning does not adopt the description. When a
    session waits for a confirmation and the user answers "yes" or "y",
    the pending description stays pending and the advisor stays without a
    description and without history: the first request that the call
    sends to the service is the very request of a fresh advisor over the
    same corpus, which quotes no description. *)
Theorem confirmation_adopts_no_description (C : collaborators)
    (str_exn : exn -> string) (content : string) (s : Api.session) :
  Api.reachable C str_exn s ->
  Api.awaiting_confirmation s = true ->
  Py.strip content <> EmptyString ->
  Api.among (Py.lower content) ["yes"; "y"] = true ->
  let a := self (Api.s_advisor s) in
  let s' := (Api.chat C str_exn content s).2 in
  let a' := self (Api.s_advisor s') in
  Api.awaiting_confirmation s' = false
  /\ model_description a' = EmptyString
  /\ pending_description a' = pending_description a
  /\ interview_history a' = []
  /\ exists later,
       llm_log (Api.s_advisor s')
       = later ++ question_request C (Consultation.fresh (ai_act_chunks a))
                  :: llm_log (Api.s_advisor s).
Proof.
  intros Hreach Haw Hblank Hyes. cbv zeta.
  destruct (reachable_consistent C str_exn s Hreach) as (Hw & _ & Hh & _).
  cbv zeta in Hw, Hh. destruct (Hw Haw) as [Hmd _]. specialize (Hh Hmd).
  assert (Hreq : question_request C (self (Api.s_advisor s))
                 = question_request C (Consultation.fresh
                                         (ai_act_chunks (self (Api.s_advisor s))))).
  { unfold question_request, question_prompt. rewrite Hmd, Hh. reflexivity. }
  unfold Api.chat.
  destruct (String.eqb (Py.strip content) EmptyString) eqn:Eblank;
    [apply String.eqb_eq in Eblank; contradiction|].
  cbv zeta.
  assert (Hreset : String.eqb (Py.lower content) "reset" = false).
  { unfold Api.among in Hyes. cbn [existsb] in Hyes.
    rewrite orb_false_r in Hyes. apply orb_true_iff in Hyes as [H|H];
      apply String.eqb_eq in H; rewrite H; reflexivity. }
  rewrite Hreset, Haw, Hyes.
  destruct (ask_next_question_keeps C (Api.s_advisor s))
    as ((_ & Hm & Hp & _) & Hhist & (later & Hlog)).
  rewrite Hreq in Hlog.
  destruct (ask_next_question C (Api.s_advisor s)) as [[[next_q is_done]|e] m];
    cbn [fst snd] in *; [destruct is_done|];
    cbn [snd Api.s_advisor Api.awaiting_confirmation];
    (split; [reflexivity|]); (split; [congruence|]); (split; [exact Hp|]);
    (split; [congruence|]); exists later; exact Hlog.
Qed.

Lemma confirmation_adopts_no_description_witness :
  let s := (Api.chat (stage [Return (asks 0)]) (fun _ => "unreachable") transport_hubs
              (Api.new_session [] 140234866093264 [] noon)).2 in
  let s' := (Api.chat (stage [Return (asks 0)]) (fun _ => "unreachable") "Yes" s).2 in
  Api.current_question s' = Py.strip (question_no 0)
  /\ Api.awaiting_confirmation s' = false
  /\ model_description (self (Api.s_advisor s')) = EmptyString
  /\ pending_description (self (Api.s_advisor s')) = pending_description (self (Api.s_advisor s))
  /\ interview_history (self (Api.s_advisor s')) = []
  /\ exists later,
       llm_log (Api.s_advisor s')
       = later ++ question_request (stage [Return (asks 0)])
                    (Consultation.fresh (ai_act_chunks (self (Api.s_advisor s))))
                  :: llm_log (Api.s_advisor s).
Proof.
  split; [vm_compute; reflexivity|].
  apply (confirmation_adopts_no_description (stage [Return (asks 0)])
           (fun _ => "unreachable") "Yes").
  - apply Api.reach_chat. apply Api.reach_new.
  - vm_compute. reflexivity.
  - vm_compute. intros H. discriminate H.
  - vm_compute. reflexivity.
Defined.

(** ** More replies of the service *)

(** [_generate_question] on a reply that decodes to an object with a
    question that is no duplicate. *)
Lemma generate_question_proposes (C : collaborators) (m : machine) (r : string)
    (members : list (string * json)) (nq : json) :
  chat C (llm_log m) (question_request C (self m)) = Return r ->
  json_loads C (Py.strip (unfence r)) = Some (JObj members) ->
  assoc "next_question" members = Some nq ->
  truthy nq = true ->
  is_duplicate_question C (self m) nq = false ->
  generate_question C m
  = (Return (JObj members),
     with_self (append_asked nq (self m))
       (with_log (question_request C (self m) :: llm_log m) m)).
Proof.
  intros Hchat Hjson Hnq Ht Hdup. unfold generate_question. run.
  rewrite Hchat, Hjson. cbn [dict_get]. rewrite Hnq. cbn [from_option id].
  run. rewrite Ht, Hdup. reflexivity.
Qed.

(** X23: a confidence that is not a number makes the call raise. When the
    history has between MIN_QUESTIONS and MAX_QUESTIONS - 1 entries and
    the reply says "ready_to_conclude", proposes a question that is no
    duplicate, and gives as confidence a string, a list, an object or
    null, [ask_next_question] raises TypeError at the comparison with the
    threshold, after the proposed question has been appended to
    [asked_questions_texts]. *)
Theorem confidence_not_a_number_raises (C : collaborators) (m : machine) (r : string)
    (members : list (string * json)) (nq confidence : json) :
  chat C (llm_log m) (question_request C (self m)) = Return r ->
  json_loads C (Py.strip (unfence r)) = Some (JObj members) ->
  assoc "next_question" members = Some nq ->
  truthy nq = true ->
  is_duplicate_question C (self m) nq = false ->
  assoc "assessment_status" members = Some (JStr "ready_to_conclude") ->
  assoc "confidence" members = Some confidence ->
  ge_threshold confidence = Raise TypeError ->
  MIN_QUESTIONS <= length (interview_history (self m)) < MAX_QUESTIONS ->
  ask_next_question C m
  = (Raise TypeError,
     with_self (append_asked nq (self m))
       (with_log (question_request C (self m) :: llm_log m) m)).
Proof.
  intros Hchat Hjson Hnq Ht Hdup Hst Hconf Hge [Hmin Hmax].
  rewrite ask_next_question_unfold.
  rewrite (generate_question_proposes C m r members nq Hchat Hjson Hnq Ht Hdup).
  unfold should_conclude.
  cbn [self with_self with_log append_asked interview_history].
  destruct (length (interview_history (self m)) <? MIN_QUESTIONS)%nat eqn:E1;
    [apply Nat.ltb_lt in E1; lia|].
  destruct (MAX_QUESTIONS <=? length (interview_history (self m)))%nat eqn:E2;
    [apply Nat.leb_le in E2; lia|].
  cbn [dict_get]. rewrite Hnq, Hst, Hconf. cbn [from_option id].
  assert (Hnone : is_none nq = false) by (destruct nq; try reflexivity; discriminate Ht).
  rewrite Hnone. cbn [eq_str]. rewrite String.eqb_refl, Hge. reflexivity.
Qed.

Lemma confidence_not_a_number_raises_witness :
  let m := with_self
             {| ai_act_chunks := []; model_description := chatbot;
                pending_description := EmptyString;
                interview_history :=
                  map (fun i => {| question := question_no i; answer := long_answer |})
                    [0; 1; 2];
                asked_questions_texts := map (fun i => JStr (question_no i)) [0; 1; 2];
                relevant_articles := [] |} start in
  exists m',
    ask_next_question (Malformed.stage [Return (Malformed.ready_in_words 3)]) m
    = (Raise TypeError, m')
    /\ length (asked_questions_texts (self m')) = 4.
Proof.
  cbv zeta. eexists. split.
  - apply (confidence_not_a_number_raises
             (Malformed.stage [Return (Malformed.ready_in_words 3)]) _
             (Malformed.ready_in_words 3)
             [ ("assessment_status", JStr "ready_to_conclude");
               ("confidence", JStr "high");
               ("next_question", JStr (question_no 3)) ]
             (JStr (question_no 3)) (JStr "high")).
    + reflexivity.
    + vm_compute. reflexivity.
    + reflexivity.
    + reflexivity.
    + vm_compute. reflexivity.
    + reflexivity.
    + reflexivity.
    + reflexivity.
    + vm_compute. lia.
  - reflexivity.
Defined.

(** X24: in the first MIN_QUESTIONS - 1 turns the service decides what the
    user is asked. With fewer than MIN_QUESTIONS history entries, whatever
    the reply says of status and confidence, a proposed question that is a
    non-empty string and no duplicate is appended to
    [asked_questions_texts] and returned with [done = False], stripped:
    also a question of blanks only, which reaches the user as the empty
    string. *)
Theorem early_question_is_surfaced (C : collaborators) (m : machine) (r : string)
    (members : list (string * json)) (q : string) :
  chat C (llm_log m) (question_request C (self m)) = Return r ->
  json_loads C (Py.strip (unfence r)) = Some (JObj members) ->
  assoc "next_question" members = Some (JStr q) ->
  q <> EmptyString ->
  is_duplicate_question C (self m) (JStr q) = false ->
  length (interview_history (self m)) < MIN_QUESTIONS ->
  ask_next_question C m
  = (Return (Py.strip q, false),
     with_self (append_asked (JStr q) (self m))
       (with_log (question_request C (self m) :: llm_log m) m)).
Proof.
  intros Hchat Hjson Hnq Hq Hdup Hmin.
  assert (Ht : truthy (JStr q) = true) by (destruct q; [contradiction|reflexivity]).
  rewrite ask_next_question_unfold.
  rewrite (generate_question_proposes C m r members (JStr q) Hchat Hjson Hnq Ht Hdup).
  rewrite should_conclude_early
    by (cbn [self with_self with_log append_asked interview_history]; exact Hmin).
  cbn [dict_get]. rewrite Hnq. cbn [from_option id]. rewrite Ht. reflexivity.
Qed.

Lemma early_question_is_surfaced_witness :
  exists m',
    ask_next_question (Malformed.stage [Return Malformed.asks_blank]) (described chatbot)
    = (Return (EmptyString, false), m')
    /\ asked_questions_texts (self m') = [JStr "   "].
Proof.
  eexists. split.
  - apply (early_question_is_surfaced
             (Malformed.stage [Return Malformed.asks_blank]) (described chatbot)
             Malformed.asks_blank
             [ ("assessment_status", JStr "need_more_info");
               ("confidence", JFloat 0.4);
               ("next_question", JStr "   ") ] "   ").
    + reflexivity.
    + vm_compute. reflexivity.
    + reflexivity.
    + intros H. discriminate H.
    + reflexivity.
    + vm_compute. lia.
  - reflexivity.
Defined.

(** ** What the report request quotes *)

Lemma contains_within (x pre post : string) :
  Py.contains x (pre +:+ x +:+ post) = true.
Proof. apply contains_app_l, contains_app_r, contains_refl. Qed.

Lemma contains_join (x sep part : string) (parts : list string) :
  In part parts -> Py.contains x part = true ->
  Py.contains x (Py.join sep parts) = true.
Proof.
  unfold Py.join. intros Hin Hx.
  induction parts as [|p rest IH]; [destruct Hin|].
  cbn [String.concat]. destruct rest as [|p' rest'].
  - destruct Hin as [->|[]]. exact Hx.
  - destruct Hin as [->|Hin].
    + apply contains_app_r. exact Hx.
    + apply contains_app_l, contains_app_l. apply IH. exact Hin.
Qed.

Lemma enumerate_In {A} (l : list A) (x : A) :
  In x l -> exists i, In (i, x) (Py.enumerate l).
Proof.
  unfold Py.enumerate. generalize 0.
  induction l as [|y l IH]; intros k; [intros []|].
  cbn [length seq combine]. intros [->|H].
  - exists k. left. reflexivity.
  - destruct (IH (S k) H) as [i Hi]. exists i. right. exact Hi.
Qed.

Lemma report_history_quotes (history : list qa) (e : qa) :
  In e history ->
  Py.contains (question e) (report_history history) = true
  /\ Py.contains (answer e) (report_history history) = true.
Proof.
  intros He. destruct (enumerate_In history e He) as [i Hi].
  unfold report_history.
  set (line := fun iq : nat * qa =>
                 "Q" +:+ Py.str_nat (iq.1 + 1) +:+ ": " +:+ question iq.2 +:+ "
A" +:+ Py.str_nat (iq.1 + 1) +:+ ": " +:+ answer iq.2).
  assert (Hin : In (line (i, e)) (map line (Py.enumerate history)))
    by (apply in_map; exact Hi).
  split; (eapply contains_join; [exact Hin|]); subst line; cbn [fst snd].
  - do 3 apply contains_app_l. apply contains_app_r, contains_refl.
  - do 7 apply contains_app_l. apply contains_refl.
Qed.

(** X25: the request for the final report quotes the whole description
    and every question and every answer of the interview in full: nothing
    of what the user said is cut or left out of it (the request for the
    next question, by contrast, quotes 500 characters of the description
    and the last three entries, cut to 80 and 100 characters). *)
Theorem report_request_quotes_everything (a : advisor)
    (articles_info : list (string * article_info)) :
  Py.contains (model_description a) (report_prompt a articles_info) = true
  /\ Forall (fun e => Py.contains (question e) (report_prompt a articles_info) = true
                      /\ Py.contains (answer e) (report_prompt a articles_info) = true)
       (interview_history a).
Proof.
  unfold report_prompt. cbv zeta. split.
  - apply contains_app_l, contains_app_r, contains_refl.
  - apply Forall_forall. intros e He. apply list_elem_of_In in He.
    destruct (report_history_quotes (interview_history a) e He) as [Hq Ha].
    split; do 5 apply contains_app_l; apply contains_app_r; assumption.
Qed.
